(** * pyuvdata: the FHD reader, applying gains and flags, baseline numbers
      and rectangular baseline-time axes

    A shallow embedding of [pyuvdata/uvdata/fhd.py] ([get_fhd_history] and
    the blocks of [FHD.read_fhd]), and models of the functions of
    [pyuvdata/utils.py] and [pyuvdata/uvdata/initializers.py] that the
    tests call.  Python values are embedded as follows:

    - [str] is [string] (one [ascii] per code point below 256);
    - a [list] is a [list]; a [dict] is an association list kept in
      insertion order, as CPython keeps it;
    - a raised exception is the [Raise] constructor of [result];
    - [warnings.warn] appends to an explicit list of messages;
    - real and complex array entries are exact rationals ([Q]);
    - a numpy array is its shape and a function from indices to entries. *)

From Stdlib Require Import String Ascii List Bool Arith ZArith QArith Qabs Lia.
From Stdlib Require Import Lqa Qfield Permutation.
Import ListNotations.

Close Scope Q_scope.
Open Scope string_scope.
Open Scope list_scope.
Open Scope nat_scope.

(** ** Python results *)

Inductive exn : Type :=
| TypeError
| IndexError
| KeyError (key : string)
| ValueError (msg : string).

Inductive result (A : Type) : Type :=
| Ok (a : A)
| Raise (e : exn).

Arguments Ok {A} a.
Arguments Raise {A} e.

Definition bind {A B : Type} (r : result A) (k : A -> result B) : result B :=
  match r with
  | Ok a => k a
  | Raise e => Raise e
  end.

Notation "x <- r ;; k" := (bind r (fun x => k))
  (at level 61, r at next level, right associativity).

Definition raises {A : Type} (r : result A) : Prop := exists e, r = Raise e.

(** ** Python string methods used by the reader *)

Module PyStr.

(** [str.isspace] on one code point below 256: the characters that
    [str.rstrip()] and [str.split()] treat as whitespace. *)
Definition isspace (c : ascii) : bool :=
  let n := nat_of_ascii c in
  ((9 <=? n) && (n <=? 13)) || ((28 <=? n) && (n <=? 32))
  || (n =? 133) || (n =? 160).

Definition tab : ascii := ascii_of_nat 9.
Definition space : ascii := ascii_of_nat 32.
Definition newline : string := String (ascii_of_nat 10) "".

(** [s.startswith(p)] *)
Definition startswith (s p : string) : bool := String.prefix p s.

(** [s.rstrip()] *)
Fixpoint rstrip (s : string) : string :=
  match s with
  | "" => ""
  | String c s' =>
      match rstrip s' with
      | "" => if isspace c then "" else String c ""
      | r => String c r
      end
  end.

(** [s.replace("\t", " ")] *)
Fixpoint replace_tab (s : string) : string :=
  match s with
  | "" => ""
  | String c s' =>
      String (if Ascii.eqb c tab then space else c) (replace_tab s')
  end.

(** [s.split()]: the maximal runs of non-whitespace characters.  [cur] is
    the run being read, if any. *)
Fixpoint split_from (cur : option string) (s : string) : list string :=
  match s with
  | "" => match cur with Some w => [w] | None => [] end
  | String c s' =>
      if isspace c then
        match cur with
        | Some w => w :: split_from None s'
        | None => split_from None s'
        end
      else
        match cur with
        | Some w => split_from (Some (w ++ String c "")%string) s'
        | None => split_from (Some (String c "")) s'
        end
  end.

Definition split (s : string) : list string := split_from None s.

(** [sep.join(l)] *)
Definition join (sep : string) (l : list string) : string := String.concat sep l.

(** [l[a:b]] for non-negative [a]; [b = None] is an omitted (or [None]) stop. *)
Definition slice {A : Type} (a : nat) (b : option nat) (l : list A) : list A :=
  match b with
  | Some b => firstn (b - a) (skipn a l)
  | None => skipn a l
  end.

(** [s.endswith(p)]: [s] is [p], or what follows its first character
    ends with [p]. *)
Fixpoint endswith (s p : string) : bool :=
  String.eqb s p
  || match s with
     | "" => false
     | String _ s' => endswith s' p
     end.

(** [s.lower()] on ASCII letters. *)
Definition lower_char (c : ascii) : ascii :=
  let n := nat_of_ascii c in
  if (65 <=? n) && (n <=? 90) then ascii_of_nat (n + 32) else c.

Fixpoint lower (s : string) : string :=
  match s with
  | "" => ""
  | String c s' => String (lower_char c) (lower s')
  end.

(** [s.upper()] on ASCII letters. *)
Definition upper_char (c : ascii) : ascii :=
  let n := nat_of_ascii c in
  if (97 <=? n) && (n <=? 122) then ascii_of_nat (n - 32) else c.

Fixpoint upper (s : string) : string :=
  match s with
  | "" => ""
  | String c s' => String (upper_char c) (upper s')
  end.

(** [s.lstrip()] and [s.strip()] *)
Fixpoint lstrip (s : string) : string :=
  match s with
  | "" => ""
  | String c s' => if isspace c then lstrip s' else s
  end.

Definition strip (s : string) : string := lstrip (rstrip s).

(** [s.replace("_", "")] *)
Fixpoint drop_underscores (s : string) : string :=
  match s with
  | "" => ""
  | String c s' =>
      if Ascii.eqb c "_" then drop_underscores s' else String c (drop_underscores s')
  end.

(** [l.remove(x)]: the first occurrence goes; [ValueError] when there is none. *)
Fixpoint remove (x : string) (l : list string) : result (list string) :=
  match l with
  | [] => Raise (ValueError "list.remove(x): x not in list")
  | y :: l' =>
      if String.eqb y x then Ok l'
      else l'' <- remove x l' ;; Ok (y :: l'')
  end.

(** [x in l] *)
Definition contains (l : list string) (x : string) : bool :=
  existsb (String.eqb x) l.

End PyStr.

(** ** [get_fhd_history] (fhd.py, lines 18-72) *)

Module History.
Import PyStr.

(** The four loop variables [main_loc], [command_loc], [obs_loc] and
    [user_line]; [None] is Python's [None]. *)
Record locs : Type := mkLocs {
  main_loc : option nat;
  command_loc : option nat;
  obs_loc : option nat;
  user_line : option nat
}.

Definition no_locs : locs := mkLocs None None None None.

(** The four [if line.startswith(...)] statements of one iteration. *)
Definition visit (ind : nat) (line : string) (m : locs) : locs :=
  let m := if startswith line "##MAIN"
           then mkLocs (Some ind) (command_loc m) (obs_loc m) (user_line m) else m in
  let m := if startswith line "##COMMAND_LINE"
           then mkLocs (main_loc m) (Some ind) (obs_loc m) (user_line m) else m in
  let m := if startswith line "##OBS"
           then mkLocs (main_loc m) (command_loc m) (Some ind) (user_line m) else m in
  let m := if startswith line "User"
           then mkLocs (main_loc m) (command_loc m) (obs_loc m) (Some ind) else m in
  m.

Definition is_set (o : option nat) : bool :=
  match o with Some _ => true | None => false end.

(** The condition of the [break]. *)
Definition all_located (m : locs) : bool :=
  is_set (main_loc m) && is_set (command_loc m)
  && is_set (obs_loc m) && is_set (user_line m).

(** [for ind, line in enumerate(settings_lines)], from index [ind] on. *)
Fixpoint scan (ind : nat) (lines : list string) (m : locs) : locs :=
  match lines with
  | [] => m
  | line :: rest =>
      let m' := visit ind line m in
      if all_located m' then m' else scan (S ind) rest m'
  end.

(** [None + 1] raises [TypeError]. *)
Definition succ_loc (o : option nat) : result nat :=
  match o with
  | Some n => Ok (S n)
  | None => Raise TypeError
  end.

(** [line.rstrip().replace("\t", " ")] *)
Definition clean (line : string) : string := replace_tab (rstrip line).

(** What the function returns: [history] or [(history, user)]. *)
Inductive returned : Type :=
| History (history : string)
| HistoryUser (history user : string).

(** The function on the lines that [f.readlines()] gave. *)
Definition get_fhd_history (settings_lines : list string) (return_user : bool)
  : result returned :=
  let m := scan 0 settings_lines no_locs in
  main1 <- succ_loc (main_loc m);;
  let main_lines := slice main1 (command_loc m) settings_lines in
  command1 <- succ_loc (command_loc m);;
  let command_lines := slice command1 (obs_loc m) settings_lines in
  let history_lines := ("FHD history" ++ newline)%string :: main_lines ++ command_lines in
  let history_lines := map clean history_lines in
  let history := join newline history_lines in
  uline <- match user_line m with
              | None => Raise TypeError
              | Some i => match nth_error settings_lines i with
                          | Some l => Ok l
                          | None => Raise IndexError
                          end
              end;;
  user <- match nth_error (split uline) 1 with
             | Some u => Ok u
             | None => Raise IndexError
             end;;
  if return_user then Ok (HistoryUser history user) else Ok (History history).

End History.

(** ** Python dictionaries *)

Module PyDict.

(** A [dict] with [str] keys, in insertion order. *)
Definition dict (V : Type) : Type := list (string * V).

(** [d.get(k)] *)
Fixpoint get {V : Type} (d : dict V) (k : string) : option V :=
  match d with
  | [] => None
  | (k', v) :: d' => if String.eqb k' k then Some v else get d' k
  end.

(** [k in d] *)
Definition mem {V : Type} (d : dict V) (k : string) : bool :=
  match get d k with Some _ => true | None => false end.

(** [d[k] = v]: a known key keeps its place, a new key goes last. *)
Fixpoint set {V : Type} (d : dict V) (k : string) (v : V) : dict V :=
  match d with
  | [] => [(k, v)]
  | (k', v') :: d' =>
      if String.eqb k' k then (k', v) :: d' else (k', v') :: set d' k v
  end.

(** [d[k]], which raises [KeyError] on a missing key. *)
Definition item {V : Type} (d : dict V) (k : string) : result V :=
  match get d k with
  | Some v => Ok v
  | None => Raise (KeyError k)
  end.

Definition keys {V : Type} (d : dict V) : list string := map fst d.

End PyDict.

(** ** [FHD.read_fhd]: sorting the file list (fhd.py, lines 163-234) *)

Module Files.
Import PyStr PyDict.

(** The local variables that the loop over [filelist] fills. *)
Record found : Type := mkFound {
  datafiles : dict string;
  params_file : option string;
  obs_file : option string;
  flags_file : option string;
  layout_file : option string;
  settings_file : option string
}.

Definition none_found : found := mkFound [] None None None None None.

Definition data_name (use_model : bool) : string :=
  if use_model then "_vis_model_" else "_vis_".

(** One of the four [datafiles] branches. *)
Definition take_data (pol : string) (file : string) (st : found) : result found :=
  if existsb (String.eqb pol) (keys (datafiles st))
  then Raise (ValueError ("multiple " ++ pol ++ " datafiles in filelist"))
  else Ok (mkFound (set (datafiles st) pol file) (params_file st) (obs_file st)
             (flags_file st) (layout_file st) (settings_file st)).

(** One of the five single-file branches: [slot] reads the variable and
    [put] assigns it. *)
Definition take_file (what : string) (slot : found -> option string)
    (put : string -> found -> found) (file : string) (st : found) : result found :=
  match slot st with
  | Some _ => Raise (ValueError ("multiple " ++ what ++ " files in filelist"))
  | None => Ok (put file st)
  end.

Definition put_params (f : string) (st : found) : found :=
  mkFound (datafiles st) (Some f) (obs_file st) (flags_file st)
    (layout_file st) (settings_file st).
Definition put_obs (f : string) (st : found) : found :=
  mkFound (datafiles st) (params_file st) (Some f) (flags_file st)
    (layout_file st) (settings_file st).
Definition put_flags (f : string) (st : found) : found :=
  mkFound (datafiles st) (params_file st) (obs_file st) (Some f)
    (layout_file st) (settings_file st).
Definition put_layout (f : string) (st : found) : found :=
  mkFound (datafiles st) (params_file st) (obs_file st) (flags_file st)
    (Some f) (settings_file st).
Definition put_settings (f : string) (st : found) : found :=
  mkFound (datafiles st) (params_file st) (obs_file st) (flags_file st)
    (layout_file st) (Some f).

(** The body of [for file in filelist]: the [if]/[elif] chain. *)
Definition sort_file (use_model : bool) (file : string) (st : found) : result found :=
  let name := lower file in
  let dn := data_name use_model in
  if endswith name (dn ++ "xx.sav") then take_data "xx" file st
  else if endswith name (dn ++ "yy.sav") then take_data "yy" file st
  else if endswith name (dn ++ "xy.sav") then take_data "xy" file st
  else if endswith name (dn ++ "yx.sav") then take_data "yx" file st
  else if endswith name "_params.sav" then take_file "params" params_file put_params file st
  else if endswith name "_obs.sav" then take_file "obs" obs_file put_obs file st
  else if endswith name "_flags.sav" then take_file "flags" flags_file put_flags file st
  else if endswith name "_layout.sav" then take_file "layout" layout_file put_layout file st
  else if endswith name "_settings.txt"
       then take_file "settings" settings_file put_settings file st
  else Ok st.

Fixpoint sort_files (use_model : bool) (filelist : list string) (st : found)
  : result found :=
  match filelist with
  | [] => Ok st
  | file :: rest =>
      st' <- sort_file use_model file st ;;
      sort_files use_model rest st'
  end.

Definition no_layout_warning : string :=
  "No layout file included in file list, antenna_postions will not be defined.".
Definition no_settings_warning : string :=
  "No settings file included in file list".

Definition is_none {A : Type} (o : option A) : bool :=
  match o with None => true | Some _ => false end.

(** The checks after the loop: four [raise]s, then two [warnings.warn]. *)
Definition check_found (read_data : bool) (st : found) : result (list string) :=
  if (length (datafiles st) <? 1) && read_data then
    Raise (ValueError "No data files included in file list and read_data is True.")
  else if is_none (obs_file st) && negb read_data then
    Raise (ValueError "No obs file included in file list and read_data is False.")
  else if is_none (params_file st) then
    Raise (ValueError "No params file included in file list")
  else if is_none (flags_file st) then
    Raise (ValueError "No flags file included in file list")
  else
    Ok ((if is_none (layout_file st) then [no_layout_warning] else [])
        ++ (if is_none (settings_file st) then [no_settings_warning] else [])).

(** Lines 163-234 of [read_fhd]: the files found and the warnings given,
    or the exception raised. *)
Definition read_fhd_files (filelist : list string) (use_model read_data : bool)
  : result (found * list string) :=
  st <- sort_files use_model filelist none_found ;;
  ws <- check_found read_data st ;;
  Ok (st, ws).

(** The roles a file name can have, and the suffix that gives it. *)
Inductive role : Type :=
| Vis_xx | Vis_yy | Vis_xy | Vis_yx
| Params | Obs | Flags | Layout | Settings.

Definition suffix (use_model : bool) (r : role) : string :=
  match r with
  | Vis_xx => data_name use_model ++ "xx.sav"
  | Vis_yy => data_name use_model ++ "yy.sav"
  | Vis_xy => data_name use_model ++ "xy.sav"
  | Vis_yx => data_name use_model ++ "yx.sav"
  | Params => "_params.sav"
  | Obs => "_obs.sav"
  | Flags => "_flags.sav"
  | Layout => "_layout.sav"
  | Settings => "_settings.txt"
  end.

Definition roles : list role :=
  [Vis_xx; Vis_yy; Vis_xy; Vis_yx; Params; Obs; Flags; Layout; Settings].

Definition has_role (use_model : bool) (r : role) (file : string) : bool :=
  endswith (lower file) (suffix use_model r).

(** How many files of the list have role [r]. *)
Definition count_role (use_model : bool) (r : role) (filelist : list string) : nat :=
  length (filter (has_role use_model r) filelist).

(** A file name that has one of the roles. *)
Definition recognized (use_model : bool) (file : string) : bool :=
  existsb (fun r => has_role use_model r file) roles.

(** The message for a role that two files have. *)
Definition multiple (r : role) : string :=
  match r with
  | Vis_xx => "multiple xx datafiles in filelist"
  | Vis_yy => "multiple yy datafiles in filelist"
  | Vis_xy => "multiple xy datafiles in filelist"
  | Vis_yx => "multiple yx datafiles in filelist"
  | Params => "multiple params files in filelist"
  | Obs => "multiple obs files in filelist"
  | Flags => "multiple flags files in filelist"
  | Layout => "multiple layout files in filelist"
  | Settings => "multiple settings files in filelist"
  end.

End Files.

(** ** [FHD.read_fhd]: the time of every baseline-time (fhd.py, lines 293-307) *)

Module Times.

(** A bound of a slice of an array of [n] entries: a negative bound
    counts from the end, and both ends are clipped to [0, n]. *)
Definition clip (n : nat) (i : Z) : nat :=
  Z.to_nat (if (i <? 0)%Z then Z.max 0 (i + Z.of_nat n) else Z.min i (Z.of_nat n)).

(** The entries of [a] from index [i] on, with [x] at the indices in
    [lo, hi). *)
Fixpoint assign (a : list Q) (i lo hi : nat) (x : Q) : list Q :=
  match a with
  | [] => []
  | y :: a' =>
      (if (lo <=? i) && (i <? hi) then x else y) :: assign a' (S i) lo hi x
  end.

(** [a[start:stop] = x], and [a[start:] = x] when [stop] is [None]. *)
Definition set_slice (a : list Q) (start : Z) (stop : option Z) (x : Q) : list Q :=
  let n := length a in
  assign a 0 (clip n start) (match stop with Some j => clip n j | None => n end) x.

(** [bin_offset[ii]] for a one-dimensional [bin_offset] and [ii >= 0]. *)
Definition offset (bin_offset : list Z) (ii : nat) : result Z :=
  match nth_error bin_offset ii with
  | Some b => Ok b
  | None => Raise IndexError
  end.

Definition ntimes_warning : string :=
  "Ntimes does not match the number of unique times in the data".

(** The loop of lines 303-307 from [ii] on; [rest] holds [int_times[ii:]],
    so that its head is [int_times[ii]]. *)
Fixpoint expand (int_times rest : list Q) (bin_offset : list Z) (ii : nat)
    (time_array : list Q) : result (list Q) :=
  match rest with
  | [] => Ok time_array
  | t :: rest' =>
      if (Z.of_nat ii <? Z.of_nat (length int_times) - 1)%Z then
        lo <- offset bin_offset ii ;;
        hi <- offset bin_offset (S ii) ;;
        expand int_times rest' bin_offset (S ii)
          (set_slice time_array lo (Some hi) t)
      else
        lo <- offset bin_offset ii ;;
        expand int_times rest' bin_offset (S ii)
          (set_slice time_array lo None t)
  end.

(** Lines 293-307: [int_times] is [bl_info["JDATE"][0]] as a list and
    [bin_offset] is [bl_info["BIN_OFFSET"][0]].  The result is
    [time_array] with the warnings given. *)
Definition read_fhd_times (Ntimes : Z) (Nblts : nat) (int_times : list Q)
    (bin_offset : list Z) : result (list Q * list string) :=
  let warnings :=
    if negb (Ntimes =? Z.of_nat (length int_times))%Z then [ntimes_warning] else [] in
  let time_array := repeat 0%Q Nblts in
  time_array <-
    (if (Ntimes =? 1)%Z then
       match int_times with
       | t :: _ => Ok (map (fun _ => t) time_array)
       | [] => Raise IndexError
       end
     else expand int_times int_times bin_offset 0 time_array) ;;
  Ok (time_array, warnings).

End Times.

(** ** numpy closeness tests on exact values *)

Module Np.
Local Open Scope Q_scope.

(** [np.isclose(a, b, rtol=rtol, atol=atol)]: [|a - b| <= atol + rtol * |b|]. *)
Definition isclose (a b rtol atol : Q) : bool :=
  Qle_bool (Qabs (a - b)) (atol + rtol * Qabs b).

(** [np.allclose] on two arrays of the same length. *)
Fixpoint allclose (a b : list Q) (rtol atol : Q) : bool :=
  match a, b with
  | x :: a', y :: b' => isclose x y rtol atol && allclose a' b' rtol atol
  | _, _ => true
  end.

End Np.

(** ** [FHD.read_fhd]: the telescope location (fhd.py, lines 83-102 and 358-425) *)

Module Location.
Import PyStr.

(** Three coordinates: an ECEF position, or latitude, longitude, altitude. *)
Definition vec3 : Type := (Q * Q * Q)%type.

Definition coords (v : vec3) : list Q :=
  let '(x, y, z) := v in [x; y; z].

(** An entry of the known-telescopes registry, as [uvtel.get_telescope]
    returns it. *)
Record Telescope : Type := mkTelescope {
  telescope_location : vec3;
  telescope_location_lat_lon_alt : vec3
}.

(** The attribute that the block assigns: [self.telescope_location] (ECEF)
    or [self.telescope_location_lat_lon_alt]. *)
Inductive assigned : Type :=
| set_telescope_location (xyz : vec3)
| set_telescope_location_lat_lon_alt (latlonalt : vec3).

Definition head_message : string :=
  "Telescope location derived from obs lat/lon/alt values does not match the location in the layout file.".
Definition obs_message : string :=
  " Value from obs lat/lon/alt matches the known_telescopes values, using them.".
Definition layout_message : string :=
  " Value from the layout file matches the known_telescopes values, using them.".
Definition registry_message : string :=
  " Neither location matches the values in known_telescopes. Defaulting to using the known_telescopes values.".
Definition unknown_message : string :=
  " Telescope is not in known_telescopes. Defaulting to using the obs derived values.".

Section Reader.

(** [uvutils.XYZ_from_LatLonAlt], [uvutils.LatLonAlt_from_XYZ] and
    [uvtel.get_telescope] belong to modules that are not part of this
    file; the tolerances are those of the object's [_phase_center_ra] and
    [_telescope_location] parameters, each [(rtol, atol)].
    [LatLonAlt_from_XYZ] stands here for a call that has returned;
    [read_fhd_location_checked] below has the call itself, which can
    raise. *)
Variable XYZ_from_LatLonAlt : Q -> Q -> Q -> vec3.
Variable LatLonAlt_from_XYZ : vec3 -> bool -> vec3.
Variable get_telescope : string -> option Telescope.
Variable radian_tols : Q * Q.
Variable loc_tols : Q * Q.

(** [FHD._latlonalt_close] *)
Definition _latlonalt_close (latlonalt1 latlonalt2 : vec3) : bool :=
  let latlon_close :=
    Np.allclose (firstn 2 (coords latlonalt1)) (firstn 2 (coords latlonalt2))
      (fst radian_tols) (snd radian_tols) in
  let alt_close :=
    Np.isclose (snd latlonalt1) (snd latlonalt2) (fst loc_tols) (snd loc_tols) in
  if latlon_close && alt_close then true else false.

(** [FHD._xyz_close] *)
Definition _xyz_close (xyz1 xyz2 : vec3) : bool :=
  Np.allclose (coords xyz1) (coords xyz2) (fst loc_tols) (snd loc_tols).

(** Lines 355-425: what is assigned, and the warnings given.
    [coordinate_frame] is the decoded field of the layout. *)
Definition read_fhd_location (telescope_name coordinate_frame : string)
    (latitude longitude altitude : Q) (arr_center : vec3)
    (run_check_acceptability : bool) : assigned * list string :=
  let xyz_telescope_frame := lower coordinate_frame in
  if String.eqb xyz_telescope_frame "itrf" then
    let location_latlonalt := XYZ_from_LatLonAlt latitude longitude altitude in
    let latlonalt_arr_center := LatLonAlt_from_XYZ arr_center run_check_acceptability in
    if _xyz_close location_latlonalt arr_center
       || _latlonalt_close (latitude, longitude, altitude) latlonalt_arr_center
    then (set_telescope_location arr_center, [])
    else
      let message := head_message in
      match get_telescope telescope_name with
      | Some telescope_obj =>
          if _latlonalt_close (latitude, longitude, altitude)
               (telescope_location_lat_lon_alt telescope_obj)
          then (set_telescope_location location_latlonalt, [(message ++ obs_message)%string])
          else if _xyz_close arr_center (telescope_location telescope_obj)
          then (set_telescope_location arr_center, [(message ++ layout_message)%string])
          else (set_telescope_location (telescope_location telescope_obj),
                [(message ++ registry_message)%string])
      | None =>
          (set_telescope_location location_latlonalt, [(message ++ unknown_message)%string])
      end
  else (set_telescope_location_lat_lon_alt (latitude, longitude, altitude), []).

End Reader.

Section CheckedReader.

(** [uvutils.LatLonAlt_from_XYZ] as the call that it is: under
    [check_acceptability] it raises [ValueError] for a position that is
    not near the surface of the Earth ([tests/test_utils.py], line 100). *)
Variable XYZ_from_LatLonAlt : Q -> Q -> Q -> vec3.
Variable LatLonAlt_from_XYZ : vec3 -> bool -> result vec3.
Variable get_telescope : string -> option Telescope.
Variable radian_tols : Q * Q.
Variable loc_tols : Q * Q.

(** Lines 355-425 with the call of lines 363-365: for an "itrf" frame the
    array center is converted before anything is compared, and an
    exception of the conversion ends the block; what follows uses only
    the value returned, as [read_fhd_location] has it.  Any other frame
    goes to line 425 without the call. *)
Definition read_fhd_location_checked (telescope_name coordinate_frame : string)
    (latitude longitude altitude : Q) (arr_center : vec3)
    (run_check_acceptability : bool) : result (assigned * list string) :=
  let xyz_telescope_frame := lower coordinate_frame in
  if String.eqb xyz_telescope_frame "itrf" then
    latlonalt_arr_center <- LatLonAlt_from_XYZ arr_center run_check_acceptability ;;
    Ok (read_fhd_location XYZ_from_LatLonAlt (fun _ _ => latlonalt_arr_center)
          get_telescope radian_tols loc_tols telescope_name coordinate_frame
          latitude longitude altitude arr_center run_check_acceptability)
  else Ok (set_telescope_location_lat_lon_alt (latitude, longitude, altitude), []).

End CheckedReader.

End Location.

(** ** [FHD.read_fhd]: the scalar fields of the layout (fhd.py, lines 466-513) *)

Module Layout.
Import PyStr PyDict.

(** A value that [readsav] gives for a field, or that [extra_keywords]
    holds: a number, a byte string, a decoded string or an array. *)
Inductive value : Type :=
| VNum (x : Q)
| VBytes (b : string)
| VStr (s : string)
| VArray (a : list Q).

(** The fields of the layout structure that lines 466-484 read, each
    with the type that [readsav] gives it, and every other field by name. *)
Record layout_struct : Type := mkLayout {
  layout_gst0 : Q;
  layout_ref_date : string;
  layout_earth_degpd : Q;
  layout_dut1 : Q;
  layout_time_system : string;
  layout_diameters : option (list Q);
  layout_others : dict value
}.

(** [layout[field][0]]; numpy raises [ValueError] for an unknown field. *)
Definition field_value (layout : layout_struct) (field : string) : result value :=
  if String.eqb field "gst0" then Ok (VNum (layout_gst0 layout))
  else if String.eqb field "ref_date" then Ok (VBytes (layout_ref_date layout))
  else if String.eqb field "earth_degpd" then Ok (VNum (layout_earth_degpd layout))
  else if String.eqb field "dut1" then Ok (VNum (layout_dut1 layout))
  else if String.eqb field "time_system" then Ok (VBytes (layout_time_system layout))
  else if String.eqb field "diameters" then
    match layout_diameters layout with
    | Some d => Ok (VArray d)
    | None => Raise (ValueError "no field of name diameters")
    end
  else
    match get (layout_others layout) field with
    | Some v => Ok v
    | None => Raise (ValueError ("no field of name " ++ field))
    end.

(** The attributes of the object that this part of the reader touches. *)
Record attrs : Type := mkAttrs {
  gst0 : option Q;
  rdate : option string;
  earth_omega : option Q;
  dut1 : option Q;
  timesys : option string;
  antenna_diameters : option (list Q);
  extra_keywords : dict value
}.

Definition unset : attrs := mkAttrs None None None None None None [].

Definition layout_fields_ignore : list string :=
  ["diff_utc"; "pol_type"; "n_pol_cal_params"; "mount_type"; "axis_offset";
   "pola"; "pola_orientation"; "pola_cal_params";
   "polb"; "polb_orientation"; "polb_cal_params"; "beam_fwhm"].

(** [for field in layout_fields_ignore: if field in layout_fields: ...remove(field)] *)
Fixpoint drop_ignored (ignore : list string) (layout_fields : list string)
  : result (list string) :=
  match ignore with
  | [] => Ok layout_fields
  | field :: rest =>
      if contains layout_fields field then
        layout_fields' <- remove field layout_fields ;;
        drop_ignored rest layout_fields'
      else drop_ignored rest layout_fields
  end.

(** The loop that fills [extra_keywords]. *)
Fixpoint keep_extra (layout : layout_struct) (layout_fields : list string)
    (extra : dict value) : result (dict value) :=
  match layout_fields with
  | [] => Ok extra
  | field :: rest =>
      let keyword := if 8 <? String.length field then drop_underscores field else field in
      value <- field_value layout field ;;
      let value := match value with VBytes b => VStr b | v => v end in
      keep_extra layout rest (set extra (upper keyword) value)
  end.

(** Lines 466-513.  [layout_fields] is the list of lower-case field names
    that is left when the block starts.  [ref_date] is a byte string, and
    in Python 3 a byte string is never equal to the [str] [""], so the
    test of line 469 always holds. *)
Definition read_fhd_layout (layout : layout_struct) (layout_fields : list string)
    (self : attrs) : result attrs :=
  let self := mkAttrs (Some (layout_gst0 layout)) (rdate self) (earth_omega self)
                (dut1 self) (timesys self) (antenna_diameters self)
                (extra_keywords self) in
  layout_fields <- remove "gst0" layout_fields ;;
  let self := mkAttrs (gst0 self) (Some (lower (layout_ref_date layout)))
                (earth_omega self) (dut1 self) (timesys self)
                (antenna_diameters self) (extra_keywords self) in
  layout_fields <- remove "ref_date" layout_fields ;;
  let self := mkAttrs (gst0 self) (rdate self) (Some (layout_earth_degpd layout))
                (dut1 self) (timesys self) (antenna_diameters self)
                (extra_keywords self) in
  layout_fields <- remove "earth_degpd" layout_fields ;;
  let self := mkAttrs (gst0 self) (rdate self) (earth_omega self)
                (Some (layout_dut1 layout)) (timesys self)
                (antenna_diameters self) (extra_keywords self) in
  layout_fields <- remove "dut1" layout_fields ;;
  let self := mkAttrs (gst0 self) (rdate self) (earth_omega self) (dut1 self)
                (Some (strip (upper (layout_time_system layout))))
                (antenna_diameters self) (extra_keywords self) in
  layout_fields <- remove "time_system" layout_fields ;;
  self_fields <-
    (if contains layout_fields "diameters" then
       let self := mkAttrs (gst0 self) (rdate self) (earth_omega self) (dut1 self)
                     (Some (strip (upper (layout_time_system layout))))
                     (antenna_diameters self) (extra_keywords self) in
       layout_fields <- remove "diameters" layout_fields ;;
       Ok (self, layout_fields)
     else Ok (self, layout_fields)) ;;
  let '(self, layout_fields) := self_fields in
  layout_fields <- drop_ignored layout_fields_ignore layout_fields ;;
  extra <- keep_extra layout layout_fields (extra_keywords self) ;;
  Ok (mkAttrs (gst0 self) (rdate self) (earth_omega self) (dut1 self)
        (timesys self) (antenna_diameters self) extra).

(** A layout structure that has the [diameters] field. *)
Definition layout_with_diameters : layout_struct :=
  mkLayout (3 # 2)%Q "2013-08-23" (36098564497 # 100000000)%Q (1 # 4)%Q " utc "
    (Some [(14 # 1)%Q; (14 # 1)%Q]) [("nt_some_field", VNum (7 # 1)%Q)].

Definition fields_with_diameters : list string :=
  ["gst0"; "ref_date"; "earth_degpd"; "dut1"; "time_system"; "diameters";
   "beam_fwhm"; "nt_some_field"].

End Layout.

(** ** [FHD.read_fhd]: uvw coordinates and the data arrays
    (fhd.py, lines 263-276 and 573-622) *)

Module Arrays.
Import PyStr PyDict.

(** A complex number: real and imaginary part. *)
Definition complex : Type := (Q * Q)%type.

(** [np.conj] on one entry. *)
Definition conj (z : complex) : complex := (fst z, (- snd z)%Q).

(** numpy arrays of one, two and four axes: the shape and the entries. *)
Record array1 (A : Type) : Type := mkArray1 {
  size1 : nat;
  at1 : nat -> A
}.
Record array2 (A : Type) : Type := mkArray2 {
  rows : nat;
  cols : nat;
  at2 : nat -> nat -> A
}.
Record array4 (A : Type) : Type := mkArray4 {
  shape4 : nat * nat * nat * nat;
  at4 : nat -> nat -> nat -> nat -> A
}.
Arguments mkArray1 {A}.
Arguments size1 {A}.
Arguments at1 {A}.
Arguments mkArray2 {A}.
Arguments rows {A}.
Arguments cols {A}.
Arguments at2 {A}.
Arguments mkArray4 {A}.
Arguments shape4 {A}.
Arguments at4 {A}.

(** An operation applied to every entry. *)
Definition map1 {A B : Type} (f : A -> B) (a : array1 A) : array1 B :=
  mkArray1 (size1 a) (fun i => f (at1 a i)).
Definition map2 {A B : Type} (f : A -> B) (a : array2 A) : array2 B :=
  mkArray2 (rows a) (cols a) (fun i j => f (at2 a i j)).

(** [np.zeros((n, m))] and the four-axis arrays of lines 604-614. *)
Definition zeros2 (n m : nat) : array2 Q := mkArray2 n m (fun _ _ => 0%Q).
Definition full4 {A : Type} (shape : nat * nat * nat * nat) (x : A) : array4 A :=
  mkArray4 shape (fun _ _ _ _ => x).

Definition broadcast_error : exn :=
  ValueError "could not broadcast input array".

(** [a[:, j] = v]: [v] must have the length of the column, or length 1. *)
Definition set_column (a : array2 Q) (j : nat) (v : array1 Q) : result (array2 Q) :=
  if (size1 v =? rows a) || (size1 v =? 1) then
    Ok (mkArray2 (rows a) (cols a)
          (fun i k => if k =? j
                      then at1 v (if size1 v =? rows a then i else 0)
                      else at2 a i k))
  else Raise broadcast_error.

(** [a[:, 0, :, pol_i] = v]: each axis of [v] must have the length of the
    axis it fills, or length 1. *)
Definition set_pol {A : Type} (a : array4 A) (pol_i : nat) (v : array2 A)
  : result (array4 A) :=
  let '(n0, _, n2, _) := shape4 a in
  if ((rows v =? n0) || (rows v =? 1)) && ((cols v =? n2) || (cols v =? 1)) then
    Ok (mkArray4 (shape4 a)
          (fun b s f p => if (s =? 0) && (p =? pol_i)
                          then at2 v (if rows v =? n0 then b else 0)
                                     (if cols v =? n2 then f else 0)
                          else at4 a b s f p))
  else Raise broadcast_error.

(** [const.c.to("m/s").value] *)
Definition c_m_s : Q := 299792458%Q.

(** [(-1) * x * const.c.to("m/s").value] on every entry. *)
Definition flip_to_meters (v : array1 Q) : array1 Q :=
  map1 (fun x => ((-1) * x * c_m_s)%Q) v.

Definition lin_pol_order : list string := ["xx"; "yy"; "xy"; "yx"].

(** [dict(zip(lin_pol_order, np.arange(5, 9) * -1))] *)
Definition linear_pol_dict : dict Z :=
  combine lin_pol_order (map (fun k => (k * -1)%Z) [5; 6; 7; 8]%Z).

(** [l.index(x)]; [ValueError] when [x] is not in the list. *)
Fixpoint index (l : list Z) (x : Z) : result nat :=
  match l with
  | [] => Raise (ValueError "x is not in list")
  | y :: l' => if Z.eqb y x then Ok 0 else i <- index l' x ;; Ok (S i)
  end.

(** Lines 267-274: the key of the weights in the flags file. *)
Definition weights_key (flag_file_dict : dict (list (array2 Q))) : result string :=
  if mem flag_file_dict "flag_arr" then Ok "flag_arr"
  else if mem flag_file_dict "vis_weights" then Ok "vis_weights"
  else Raise (ValueError "No recognized key for visibility weights in flags_file.").

(** Lines 275-276: [vis_weights_data[fhd_pol_list[index]] = w]. *)
Fixpoint name_weights (index : nat) (ws : list (array2 Q)) (fhd_pol_list : list string)
    (vis_weights_data : dict (array2 Q)) : result (dict (array2 Q)) :=
  match ws with
  | [] => Ok vis_weights_data
  | w :: rest =>
      match nth_error fhd_pol_list index with
      | Some pol => name_weights (S index) rest fhd_pol_list (set vis_weights_data pol w)
      | None => Raise IndexError
      end
  end.

(** Lines 582-584: the codes of the polarizations that have a data file. *)
Fixpoint present_pols (order : list string) (vis_data : dict (array2 complex))
  : result (list Z) :=
  match order with
  | [] => Ok []
  | pol :: rest =>
      if mem vis_data pol then
        code <- item linear_pol_dict pol ;;
        l <- present_pols rest vis_data ;;
        Ok (code :: l)
      else present_pols rest vis_data
  end.

(** What this part of the reader assigns. *)
Record arrays : Type := mkArrays {
  uvw_array : array2 Q;
  polarization_array : list Z;
  data_array : array4 complex;
  nsample_array : array4 Q;
  flag_array : array4 bool
}.

(** Lines 615-622: [for pol, vis in vis_data.items()]. *)
Fixpoint fill (items : list (string * array2 complex)) (pol_list : list Z)
    (vis_weights_data : dict (array2 Q)) (a : arrays) : result arrays :=
  match items with
  | [] => Ok a
  | (pol, vis) :: rest =>
      code <- item linear_pol_dict pol ;;
      pol_i <- index pol_list code ;;
      data <- set_pol (data_array a) pol_i (map2 conj vis) ;;
      w <- item vis_weights_data pol ;;
      flag <- set_pol (flag_array a) pol_i (map2 (fun x => Qle_bool x 0) w) ;;
      w <- item vis_weights_data pol ;;
      nsample <- set_pol (nsample_array a) pol_i (map2 Qabs w) ;;
      fill rest pol_list vis_weights_data
        (mkArrays (uvw_array a) (polarization_array a) data nsample flag)
  end.

(** The reader with [read_data=True], from the contents of the files:
    [vis_data] as lines 243-251 build it, the dictionary of the flags
    file, the lower-case [POL_NAMES] of the obs structure, the [UU], [VV]
    and [WW] columns of the params file and [N_FREQ]. *)
Definition read_fhd_arrays (vis_data : dict (array2 complex))
    (flag_file_dict : dict (list (array2 Q))) (fhd_pol_list : list string)
    (UU VV WW : array1 Q) (Nfreqs : nat) : result arrays :=
  let Npols := length (keys vis_data) in
  key <- weights_key flag_file_dict ;;
  weights <- item flag_file_dict key ;;
  vis_weights_data <- name_weights 0 weights fhd_pol_list [] ;;
  let Nblts := size1 UU in
  let uvw := zeros2 Nblts 3 in
  uvw <- set_column uvw 0 (flip_to_meters UU) ;;
  uvw <- set_column uvw 1 (flip_to_meters VV) ;;
  uvw <- set_column uvw 2 (flip_to_meters WW) ;;
  pol_list <- present_pols lin_pol_order vis_data ;;
  let shape := (Nblts, 1, Nfreqs, Npols) in
  fill vis_data pol_list vis_weights_data
    (mkArrays uvw pol_list (full4 shape (0%Q, 0%Q)) (full4 shape 0%Q)
       (full4 shape false)).

End Arrays.

(** ** [FHD.read_fhd]: antenna names and the tile names of the obs structure
    (fhd.py, lines 443-464 and 516-524) *)

Module Tiles.
Import PyStr.

(** ["0" * n]; a count that is not positive gives the empty string. *)
Fixpoint zeros (n : nat) : string :=
  match n with
  | 0 => ""
  | S n' => String "0" (zeros n')
  end.

(** ["Tile" + "0" * (3 - len(ant)) + ant] *)
Definition tile_name (ant : string) : string :=
  ("Tile" ++ zeros (3 - String.length ant) ++ ant)%string.

Fixpoint update (l : list string) (j : nat) (v : string) : list string :=
  match l, j with
  | [], _ => []
  | _ :: l', 0 => v :: l'
  | y :: l', S j' => y :: update l' j' v
  end.

(** [l[i] = v] on a list: a negative index counts from the end, an index
    outside the list raises [IndexError]. *)
Definition set_item (l : list string) (i : Z) (v : string) : result (list string) :=
  let n := Z.of_nat (length l) in
  let j := if (i <? 0)%Z then (i + n)%Z else i in
  if (0 <=? j)%Z && (j <? n)%Z then Ok (update l (Z.to_nat j) v)
  else Raise IndexError.

(** [np.max(a)] *)
Definition np_max (a : list Z) : result Z :=
  match a with
  | [] => Raise (ValueError "zero-size array to reduction operation maximum which has no identity")
  | x :: a' => Ok (fold_left Z.max a' x)
  end.

(** [np.zeros(n, str).tolist()] *)
Definition np_zeros_str (n : Z) : result (list string) :=
  if (n <? 0)%Z then Raise (ValueError "negative dimensions are not allowed")
  else Ok (repeat "" (Z.to_nat n)).

(** [self.antenna_names[index]] *)
Definition name_at (antenna_names : list string) (index : nat) : result string :=
  match nth_error antenna_names index with
  | Some s => Ok s
  | None => Raise IndexError
  end.

(** The loop of lines 458-459, from [index] on. *)
Fixpoint place (antenna_numbers : list Z) (antenna_names : list string)
    (index : nat) (ant_names : list string) : result (list string) :=
  match antenna_numbers with
  | [] => Ok ant_names
  | number :: rest =>
      name <- name_at antenna_names index ;;
      ant_names <- set_item ant_names number name ;;
      place rest antenna_names (S index) ant_names
  end.

Definition tile_warning : string :=
  "tile_names from obs structure does not match antenna_names from layout".

(** Lines 443-464; [tile_names] is [bl_info["TILE_NAMES"][0]] decoded.
    The result is the list of warnings given. *)
Definition check_tile_names (telescope_name : string)
    (antenna_names : list string) (antenna_numbers : list Z)
    (tile_names : list string) : result (list string) :=
  if String.eqb (lower telescope_name) "mwa" then
    let obs_tile_names := map strip tile_names in
    let obs_tile_names := map tile_name obs_tile_names in
    m <- np_max antenna_numbers ;;
    ant_names <- np_zeros_str (m + 1) ;;
    ant_names <- place antenna_numbers antenna_names 0 ant_names ;;
    if list_eq_dec string_dec obs_tile_names ant_names then Ok []
    else Ok [tile_warning]
  else Ok [].

(** Lines 516-524, the branch without a layout file: [antenna_names] and
    [antenna_numbers]; [Nants_telescope] is the length of either. *)
Definition no_layout_antennas (telescope_name : string)
    (tile_names : list string) : list string * list Z :=
  let antenna_names := map strip tile_names in
  let antenna_names :=
    if String.eqb (lower telescope_name) "mwa" then map tile_name antenna_names
    else antenna_names in
  (antenna_names, map Z.of_nat (seq 0 (length antenna_names))).

End Tiles.

(** ** [FHD.read_fhd]: the polarizations of a read without data
    (fhd.py, lines 586-591) *)

Module Metadata.
Import PyDict Arrays.

(** [l[:stop]] *)
Definition upto (stop : Z) (l : list string) : list string :=
  firstn (Z.to_nat (if (stop <? 0)%Z then Z.max 0 (stop + Z.of_nat (length l))
                    else stop)) l.

(** [[linear_pol_dict[pol] for pol in pol_strings]] *)
Fixpoint codes (pol_strings : list string) : result (list Z) :=
  match pol_strings with
  | [] => Ok []
  | pol :: rest =>
      code <- item linear_pol_dict pol ;;
      l <- codes rest ;;
      Ok (code :: l)
  end.

(** [polarization_array] when [read_data] is false; [Npols] is the
    [N_POL] of the obs structure (line 239). *)
Definition metadata_polarization_array (Npols : Z) : result (list Z) :=
  codes (upto Npols lin_pol_order).

End Metadata.

(** ** Baseline numbers ([pyuvdata.utils], called at fhd.py line 555) *)

Module Baseline.
Local Open Scope Z_scope.

(** Modelled from the spec: [antnums_to_baseline] of [pyuvdata/utils.py],
    which is not among the sources.  The legacy scheme is
    [256*ant1 + ant2], used when [attempt256] is requested and both
    antenna numbers are at most 255; the extended scheme is
    [2048*ant1 + ant2 + 2**16 + 1], used otherwise. *)
Definition antnums_to_baseline (ant1 ant2 Nants_telescope : Z) (attempt256 : bool) : Z :=
  if attempt256 && (ant1 <=? 255) && (ant2 <=? 255)
  then 256 * ant1 + ant2
  else 2048 * ant1 + ant2 + 2 ^ 16 + 1.

(** Modelled from the spec: [baseline_to_antnums] of [pyuvdata/utils.py],
    which is not among the sources.  Decoding is the inverse of the
    encoding, and it selects the scheme by comparing the encoded value
    with the threshold [2**16]. *)
Definition baseline_to_antnums (baseline Nants_telescope : Z) : Z * Z :=
  if 2 ^ 16 <? baseline
  then ((baseline - 2 ^ 16 - 1) / 2048, (baseline - 2 ^ 16 - 1) mod 2048)
  else (baseline / 256, baseline mod 256).

End Baseline.

(** ** Rectangular baseline-time axes ([pyuvdata/uvdata/initializers.py]) *)

Module Initializers.

Section Rect.

(** Times and baseline numbers are compared with [==]. *)
Variables T B : Type.
Variable T_eq_dec : forall x y : T, {x = y} + {x <> y}.
Variable B_eq_dec : forall x y : B, {x = y} + {x <> y}.

(** All entries of a list are one value. *)
Definition constant {A : Type} (eq_dec : forall x y : A, {x = y} + {x <> y})
    (l : list A) : bool :=
  match l with
  | [] => true
  | x :: l' => forallb (fun y => if eq_dec x y then true else false) l'
  end.

(** The grid that unique times and unique baselines span, in the order
    that [time_axis_faster_than_bls] gives. *)
Definition grid (unique_times : list T) (unique_baselines : list B)
    (time_axis_faster_than_bls : bool) : list T * list B :=
  let n_times := length unique_times in
  let n_baselines := length unique_baselines in
  if time_axis_faster_than_bls then
    (concat (repeat unique_times n_baselines),
     flat_map (fun b => repeat b n_times) unique_baselines)
  else
    (flat_map (fun t => repeat t n_baselines) unique_times,
     concat (repeat unique_baselines n_times)).

(** Modelled from the spec: the arrays are the grid of their distinct
    values in the ordering that [time_axis_faster_than_bls] gives: every
    baseline at every time, in one consistent ordering. *)
Definition is_grid (time_array : list T) (baseline_array : list B)
    (time_axis_faster_than_bls : bool) : bool :=
  let g := grid (nodup T_eq_dec time_array) (nodup B_eq_dec baseline_array)
             time_axis_faster_than_bls in
  (if list_eq_dec T_eq_dec (fst g) time_array then true else false)
  && (if list_eq_dec B_eq_dec (snd g) baseline_array then true else false).

(** Modelled from the spec: the detection inside
    [configure_blt_rectangularity] of [pyuvdata/uvdata/initializers.py],
    which is not among the sources.  It inspects whether the first block
    of entries shares a constant time (baseline fastest) or a constant
    baseline (time fastest); the axis is rectangular when the arrays
    form a perfect grid in that ordering (spec section 4.9), so that a
    shuffled ordering is not rectangular whatever its first block is
    (spec section 8, property 13).  The result is
    [(is_rectangular, time_axis_faster_than_bls)]. *)
Definition detect (time_array : list T) (baseline_array : list B)
    (n_baselines n_times : nat) : bool * bool :=
  if constant T_eq_dec (firstn n_baselines time_array) then
    (is_grid time_array baseline_array false, false)
  else if constant B_eq_dec (firstn n_times baseline_array) then
    if is_grid time_array baseline_array true then (true, true) else (false, false)
  else (false, false).

Definition or_default (o : option bool) (d : bool) : bool :=
  match o with Some b => b | None => d end.

(** Modelled from the spec: [configure_blt_rectangularity] of
    [pyuvdata/uvdata/initializers.py], which is not among the sources.
    Exactly one of each pair of arguments is given, unique values come in
    pairs and make a rectangular grid; for full arrays both results are
    detected unless the caller overrides them.  It returns
    [(n_baselines, n_times, is_rectangular, time_axis_faster_than_bls,
    full_time_array, full_baseline_array)]. *)
Definition configure_blt_rectangularity
    (time_array unique_times : option (list T))
    (baseline_array unique_baselines : option (list B))
    (blts_are_rectangular time_axis_faster_than_bls : option bool)
  : result (nat * nat * bool * bool * list T * list B) :=
  match baseline_array, unique_baselines, time_array, unique_times with
  | None, None, _, _ =>
      Raise (ValueError "Either baseline_array or unique_baselines must be provided")
  | _, _, None, None =>
      Raise (ValueError "Either time_array or unique_times must be provided")
  | Some _, Some _, _, _ =>
      Raise (ValueError "Only one of baseline_array or unique_baselines can be provided")
  | _, _, Some _, Some _ =>
      Raise (ValueError "Only one of time_array or unique_times can be provided")
  | Some _, None, None, Some _ =>
      Raise (ValueError "If unique_times are provided, unique_baselines must be provided")
  | None, Some _, Some _, None =>
      Raise (ValueError "If unique_baselines are provided, unique_times must be provided")
  | None, Some ubls, None, Some utimes =>
      match blts_are_rectangular with
      | Some false =>
          Raise (ValueError "If unique_times are provided, blts_are_rectangular must be True")
      | _ =>
          let axis := or_default time_axis_faster_than_bls false in
          let '(times, bls) := grid utimes ubls axis in
          Ok (length ubls, length utimes, true, axis, times, bls)
      end
  | Some bls, None, Some times, None =>
      let n_baselines := length (nodup B_eq_dec bls) in
      let n_times := length (nodup T_eq_dec times) in
      let '(rect, axis) := detect times bls n_baselines n_times in
      Ok (n_baselines, n_times, or_default blts_are_rectangular rect,
          or_default time_axis_faster_than_bls axis, times, bls)
  end.

End Rect.

End Initializers.

(** ** Applying gains: [uvcalibrate] ([pyuvdata/utils.py]) *)

Module Calibrate.
Local Open Scope Q_scope.

(** A gain: a complex number with exact real and imaginary part. *)
Definition gain : Type := (Q * Q)%type.

(** A visibility: a complex number, or the non-finite result ([inf] or
    [nan] parts) that numpy gives for a division by zero. *)
Inductive vis : Type :=
| Fin (re im : Q)
| NonFinite.

Definition gconj (g : gain) : gain := (fst g, - snd g).

Definition gmul (g h : gain) : gain :=
  (fst g * fst h - snd g * snd h, fst g * snd h + snd g * fst h).

Definition norm2 (g : gain) : Q := fst g * fst g + snd g * snd g.

(** [v * g]; a non-finite visibility stays non-finite. *)
Definition vmul (v : vis) (g : gain) : vis :=
  match v with
  | Fin a b => Fin (a * fst g - b * snd g) (a * snd g + b * fst g)
  | NonFinite => NonFinite
  end.

(** [v / g]; dividing by zero gives a non-finite visibility. *)
Definition vdiv (v : vis) (g : gain) : vis :=
  match v with
  | Fin a b =>
      if Qeq_bool (norm2 g) 0 then NonFinite
      else Fin ((a * fst g + b * snd g) / norm2 g) ((b * fst g - a * snd g) / norm2 g)
  | NonFinite => NonFinite
  end.

(** Equality of visibilities as numbers. *)
Definition veq (v w : vis) : Prop :=
  match v, w with
  | Fin a b, Fin c d => a == c /\ b == d
  | NonFinite, NonFinite => True
  | _, _ => False
  end.

Inductive convention : Type := divide | multiply.

(** A gain product that is exactly zero. *)
Definition is_zero (g : gain) : bool := Qeq_bool (norm2 g) 0.

(** The UVData fields that the calibration reads and writes, for one
    polarization: the antenna numbers of each baseline-time, and the
    visibility and the flag of each baseline-time and frequency. *)
Record UVData : Type := mkUVData {
  ant_1_array : list Z;
  ant_2_array : list Z;
  data_array : nat -> nat -> vis;
  flag_array : nat -> nat -> bool
}.

(** The UVCal fields, for one time and one Jones term: the convention,
    the antenna numbers, and the gain and the flag ([uvcal.flag_array])
    of each antenna and frequency. *)
Record UVCal : Type := mkUVCal {
  gain_convention : convention;
  ant_array : list Z;
  gain_array : nat -> nat -> gain;
  cal_flag_array : nat -> nat -> bool
}.

(** The place of an antenna number in [ant_array]. *)
Fixpoint ant_index (ants : list Z) (ant : Z) : option nat :=
  match ants with
  | [] => None
  | a :: rest =>
      if Z.eqb a ant then Some 0%nat
      else match ant_index rest ant with Some i => Some (S i) | None => None end
  end.

Section Uvcalibrate.

(** Which gain products count as zero.  The spec does not say; the
    repository's test sets a gain to [0.0], so the test holds of an
    exactly zero product at least ([is_zero] is the least such test). *)
Variable negligible : gain -> bool.

(** Modelled from the spec: the calibration of one visibility by
    [uvcalibrate] in [pyuvdata/utils.py], which is not among the sources.
    With [gain_convention == "divide"] the visibility is divided by
    [gain(ant1) * conj(gain(ant2))], with ["multiply"] it is multiplied by
    the same product, and [undo=True] applies the inverse operation of
    the convention that is stored.  [prop_flags=True] flags the output
    where either gain is flagged; [test_uvcalibrate_flag_propagation]
    ([tests/test_utils.py], lines 2879-2899) shows that a visibility whose
    gain is flagged or zero is then flagged and left as it was.
    [prop_flags=False] carries through only the flag of the visibility.
    The result is the visibility and its flag. *)
Definition calibrate (gain_convention : convention) (undo prop_flags : bool)
    (v : vis) (flag : bool) (gain1 gain2 : gain) (gflag1 gflag2 : bool)
  : vis * bool :=
  let g := gmul gain1 (gconj gain2) in
  let mask := negligible g || gflag1 || gflag2 in
  if prop_flags && mask then (v, true)
  else
    (match gain_convention, undo with
     | divide, false => vdiv v g
     | divide, true => vmul v g
     | multiply, false => vmul v g
     | multiply, true => vdiv v g
     end, flag).

(** Modelled from the spec: one visibility and its flag after the
    calibration.  An antenna that the UVCal object does not have leaves
    the visibility uncalibrated; it is flagged under [flag_missing] and
    keeps its flag otherwise. *)
Definition calibrated (uvdata : UVData) (uvcal : UVCal)
    (prop_flags flag_missing undo : bool) (blt f : nat) : vis * bool :=
  match nth_error (ant_1_array uvdata) blt, nth_error (ant_2_array uvdata) blt with
  | Some a1, Some a2 =>
      match ant_index (ant_array uvcal) a1, ant_index (ant_array uvcal) a2 with
      | Some i1, Some i2 =>
          calibrate (gain_convention uvcal) undo prop_flags
            (data_array uvdata blt f) (flag_array uvdata blt f)
            (gain_array uvcal i1 f) (gain_array uvcal i2 f)
            (cal_flag_array uvcal i1 f) (cal_flag_array uvcal i2 f)
      | _, _ => (data_array uvdata blt f, flag_array uvdata blt f || flag_missing)
      end
  | _, _ => (data_array uvdata blt f, flag_array uvdata blt f)
  end.

(** Modelled from the spec: [uvcalibrate] of [pyuvdata/utils.py], which is
    not among the sources, for gain solutions of one time and one Jones
    term with [inplace=False]. *)
Definition uvcalibrate (uvdata : UVData) (uvcal : UVCal)
    (prop_flags flag_missing undo : bool) : UVData :=
  mkUVData (ant_1_array uvdata) (ant_2_array uvdata)
    (fun blt f => fst (calibrated uvdata uvcal prop_flags flag_missing undo blt f))
    (fun blt f => snd (calibrated uvdata uvcal prop_flags flag_missing undo blt f)).

End Uvcalibrate.

End Calibrate.

(** ** Applying flags: [apply_uvflag] ([pyuvdata/utils.py]) *)

Module Flagging.
Import PyStr.

Inductive flag_mode : Type := flag | metric.

(** [np.array_equal] on two arrays of numbers. *)
Fixpoint array_equal (a b : list Q) : bool :=
  match a, b with
  | [], [] => true
  | x :: a', y :: b' => Qeq_bool x y && array_equal a' b'
  | _, _ => false
  end.

(** The number of distinct values of an array. *)
Fixpoint n_unique (a : list Q) : nat :=
  match a with
  | [] => 0
  | x :: a' => if existsb (Qeq_bool x) a' then n_unique a' else S (n_unique a')
  end.

(** Two arrays hold the same values: [np.unique] of the one equals
    [np.unique] of the other. *)
Definition same_values (a b : list Q) : bool :=
  forallb (fun x => existsb (Qeq_bool x) b) a
  && forallb (fun y => existsb (Qeq_bool y) a) b.

(** The UVData fields that flagging reads and writes; [flag_array] is
    indexed by baseline-time, frequency and polarization. *)
Record UVData : Type := mkUVData {
  baseline_array : list Z;
  time_array : list Q;
  freq_array : list Q;
  polarization_array : list Z;
  flag_array : nat -> nat -> nat -> bool
}.

(** A UVFlag object of baseline type, with the same fields. *)
Record UVFlag : Type := mkUVFlag {
  mode : flag_mode;
  uvf_baseline_array : list Z;
  uvf_time_array : list Q;
  uvf_freq_array : list Q;
  uvf_polarization_array : list Z;
  uvf_flag_array : nat -> nat -> nat -> bool
}.

Definition Nfreqs (uvf : UVFlag) : nat := length (uvf_freq_array uvf).
Definition Ntimes (uvf : UVFlag) : nat := n_unique (uvf_time_array uvf).

(** The first baseline-time of [uvf] with baseline [bl] and, unless [uvf]
    has a single time, with time [t]; [j] counts the rows passed. *)
Fixpoint find_blt (single_time : bool) (bls : list Z) (times : list Q)
    (bl : Z) (t : Q) (j : nat) : option nat :=
  match bls, times with
  | b :: bls', t' :: times' =>
      if Z.eqb b bl && (single_time || Qeq_bool t' t) then Some j
      else find_blt single_time bls' times' bl t (S j)
  | _, _ => None
  end.

Definition list_eqb (a b : list Z) : bool :=
  if list_eq_dec Z.eq_dec a b then true else false.

(** Modelled from the spec: the flag that [uvf] gives entry [(i, f, p)]
    of [uvd], after the checks: that of the baseline-time of [uvf] that
    matches, and [flag_missing] for a baseline that [uvf] does not have
    at all. *)
Definition mask (uvd : UVData) (uvf : UVFlag) (flag_missing same_pols : bool)
    (i f p : nat) : bool :=
  match nth_error (baseline_array uvd) i, nth_error (time_array uvd) i with
  | Some bl, Some t =>
      if existsb (Z.eqb bl) (uvf_baseline_array uvf) then
        match find_blt (Ntimes uvf =? 1) (uvf_baseline_array uvf)
                (uvf_time_array uvf) bl t 0 with
        | Some j =>
            uvf_flag_array uvf j (if Nfreqs uvf =? 1 then 0 else f)
              (if same_pols then p else 0)
        | None => false
        end
      else flag_missing
  | _, _ => false
  end.

(** Modelled from the spec: [apply_uvflag] of [pyuvdata/utils.py], which is
    not among the sources, for a UVFlag of baseline type with
    [inplace=False].  The mode must be "flag"; the frequency arrays must
    be equal and the two objects must hold the same times, unless the
    UVFlag has a single frequency or a single time, which is then
    broadcast; polarizations that differ are broadcast under [force_pol];
    the flags are ORed onto [flag_array], after clearing it under
    [unflag_first]; a baseline that the UVFlag does not have is flagged
    under [flag_missing] and left alone otherwise.  That the times are
    compared as the values the objects hold, not baseline-time by
    baseline-time, is what [test_apply_uvflag] ([tests/test_utils.py],
    lines 3333-3338) shows: a UVFlag from which a baseline was deselected
    is applied without an error. *)
Definition apply_uvflag (uvd : UVData) (uvf : UVFlag)
    (unflag_first flag_missing force_pol : bool) : result UVData :=
  match mode uvf with
  | metric => Raise (ValueError "UVFlag must be flag mode")
  | flag =>
      if negb (Nfreqs uvf =? 1)
         && negb (array_equal (uvf_freq_array uvf) (freq_array uvd)) then
        Raise (ValueError "UVFlag and UVData have mismatched frequency arrays")
      else if negb (Ntimes uvf =? 1)
              && negb (same_values (uvf_time_array uvf) (time_array uvd)) then
        Raise (ValueError "UVFlag and UVData have mismatched time arrays")
      else
        let same_pols := list_eqb (uvf_polarization_array uvf) (polarization_array uvd) in
        if negb same_pols && negb force_pol then
          Raise (ValueError "Input uvf and uvd polarizations do not match")
        else
          Ok (mkUVData (baseline_array uvd) (time_array uvd) (freq_array uvd)
                (polarization_array uvd)
                (fun i f p =>
                   (if unflag_first then false else flag_array uvd i f p)
                   || mask uvd uvf flag_missing same_pols i f p))
  end.

End Flagging.

(** * Properties *)

(** ** The history of a settings file *)

Module HistoryFacts.
Import PyStr History.

(** The four markers that the scan looks for. *)
Inductive marker : Type := MAIN | COMMAND_LINE | OBS | User.

Definition tag (k : marker) : string :=
  match k with
  | MAIN => "##MAIN"
  | COMMAND_LINE => "##COMMAND_LINE"
  | OBS => "##OBS"
  | User => "User"
  end.

Definition loc_of (k : marker) (m : locs) : option nat :=
  match k with
  | MAIN => main_loc m
  | COMMAND_LINE => command_loc m
  | OBS => obs_loc m
  | User => user_line m
  end.

(** Line [i] of the file begins with the marker [k]. *)
Definition marker_at (lines : list string) (k : marker) (i : nat) : Prop :=
  exists line, nth_error lines i = Some line /\ startswith line (tag k) = true.

(** Some line of the file begins with the marker [k]. *)
Definition has_marker (lines : list string) (k : marker) : Prop :=
  exists line, In line lines /\ startswith line (tag k) = true.

(** The lines whose index lies strictly between [i] and [j]; [k] is the
    index of the head of the list. *)
Fixpoint between_from {A : Type} (k i j : nat) (l : list A) : list A :=
  match l with
  | [] => []
  | x :: l' =>
      if (i <? k) && (k <? j) then x :: between_from (S k) i j l'
      else between_from (S k) i j l'
  end.

Definition between {A : Type} (i j : nat) (l : list A) : list A :=
  between_from 0 i j l.

(** Tabs replaced by spaces, then trailing whitespace stripped. *)
Definition tidy (line : string) : string := rstrip (replace_tab line).

(** The history that the specification describes for markers at the
    lines [im], [ic] and [io]. *)
Definition history_of (lines : list string) (im ic io : nat) : string :=
  join newline
    ("FHD history" :: map tidy (between im ic lines ++ between ic io lines)).

Lemma visit_loc (k : marker) (i : nat) (line : string) (m : locs) :
  loc_of k (visit i line m)
  = if startswith line (tag k) then Some i else loc_of k m.
Proof.
  unfold visit.
  destruct k; simpl;
    destruct (startswith line "##MAIN"), (startswith line "##COMMAND_LINE"),
      (startswith line "##OBS"), (startswith line "User"); reflexivity.
Qed.

Lemma all_located_true (m : locs) :
  all_located m = true <-> forall k, loc_of k m <> None.
Proof.
  unfold all_located. split.
  - intros H k.
    destruct m as [[a|] [b|] [c|] [d|]]; simpl in H; try discriminate;
      destruct k; simpl; discriminate.
  - intros H.
    pose proof (H MAIN) as H1. pose proof (H COMMAND_LINE) as H2.
    pose proof (H OBS) as H3. pose proof (H User) as H4.
    destruct m as [[a|] [b|] [c|] [d|]]; simpl in *; congruence.
Qed.

(** A location that the scan reports is one it started with or the index
    of a line that begins with the marker. *)
Lemma scan_sound (k : marker) (lines : list string) :
  forall (i : nat) (m : locs) (j : nat),
    loc_of k (scan i lines m) = Some j ->
    loc_of k m = Some j
    \/ (i <= j /\ exists line, nth_error lines (j - i) = Some line
                               /\ startswith line (tag k) = true).
Proof.
  induction lines as [|line rest IH]; intros i m j H; simpl in H.
  - now left.
  - assert (Hv : loc_of k (visit i line m) = Some j ->
                 loc_of k m = Some j
                 \/ (i <= j /\ exists l, nth_error (line :: rest) (j - i) = Some l
                                         /\ startswith l (tag k) = true)).
    { rewrite visit_loc. destruct (startswith line (tag k)) eqn:E.
      - intros [= <-]. right. split; [lia|]. exists line.
        rewrite Nat.sub_diag. now split.
      - now left. }
    destruct (all_located (visit i line m)).
    + now apply Hv.
    + apply IH in H. destruct H as [H | (Hle & l & Hn & Hs)].
      * now apply Hv.
      * right. split; [lia|]. exists l. split; [|exact Hs].
        replace (j - i) with (S (j - S i)) by lia. exact Hn.
Qed.

(** A marker that no line begins with keeps the location it had. *)
Lemma scan_absent (k : marker) (lines : list string) :
  (forall line, In line lines -> startswith line (tag k) = false) ->
  forall (i : nat) (m : locs), loc_of k (scan i lines m) = loc_of k m.
Proof.
  induction lines as [|line rest IH]; intros Hno i m; simpl.
  - reflexivity.
  - assert (Hv : loc_of k (visit i line m) = loc_of k m).
    { rewrite visit_loc, (Hno line); [reflexivity | now left]. }
    destruct (all_located (visit i line m)).
    + exact Hv.
    + rewrite IH; [exact Hv|]. intros l Hl. apply Hno. now right.
Qed.

(** A marker that some line begins with is located: the scan stops only
    when all four are. *)
Lemma scan_complete (k : marker) (lines : list string) :
  forall (i : nat) (m : locs),
    loc_of k m <> None \/ has_marker lines k ->
    loc_of k (scan i lines m) <> None.
Proof.
  induction lines as [|line rest IH]; intros i m H; simpl.
  - destruct H as [H | (l & [] & _)]. exact H.
  - destruct (all_located (visit i line m)) eqn:E.
    + now apply all_located_true.
    + apply IH. rewrite visit_loc.
      destruct (startswith line (tag k)) eqn:Es.
      * left. discriminate.
      * destruct H as [H | (l & [-> | Hl] & Hs)].
        -- now left.
        -- congruence.
        -- right. now exists l.
Qed.

Lemma located_marker (lines : list string) (k : marker) (j : nat) :
  loc_of k (scan 0 lines no_locs) = Some j -> marker_at lines k j.
Proof.
  intros H. apply scan_sound in H.
  destruct H as [H | (_ & l & Hn & Hs)].
  - destruct k; discriminate.
  - exists l. rewrite Nat.sub_0_r in Hn. now split.
Qed.

Lemma has_marker_located (lines : list string) (k : marker) :
  has_marker lines k -> exists j, loc_of k (scan 0 lines no_locs) = Some j.
Proof.
  intros H.
  destruct (loc_of k (scan 0 lines no_locs)) as [j|] eqn:E.
  - now exists j.
  - exfalso. apply (scan_complete k lines 0 no_locs); [now right | exact E].
Qed.

(** Python's slice [l[i+1:j]] holds the lines strictly between [i] and [j]. *)
Lemma between_from_slice {A : Type} (i j : nat) (l : list A) :
  forall k, between_from k i j l
            = firstn (j - Nat.max k (S i)) (skipn (S i - k) l).
Proof.
  induction l as [|x l IH]; intros k.
  - simpl. now rewrite skipn_nil, firstn_nil.
  - cbn [between_from]. rewrite IH.
    destruct (i <? k) eqn:E1; [apply Nat.ltb_lt in E1 | apply Nat.ltb_ge in E1];
      cbn [andb].
    + replace (S i - k) with 0 by lia. replace (S i - S k) with 0 by lia.
      cbn [skipn].
      destruct (k <? j) eqn:E2; [apply Nat.ltb_lt in E2 | apply Nat.ltb_ge in E2].
      * replace (j - Nat.max k (S i)) with (S (j - Nat.max (S k) (S i))) by lia.
        reflexivity.
      * replace (j - Nat.max k (S i)) with 0 by lia.
        replace (j - Nat.max (S k) (S i)) with 0 by lia. reflexivity.
    + replace (S i - k) with (S (S i - S k)) by lia. cbn [skipn].
      replace (Nat.max (S k) (S i)) with (Nat.max k (S i)) by lia. reflexivity.
Qed.

Lemma slice_between {A : Type} (i j : nat) (l : list A) :
  slice (S i) (Some j) l = between i j l.
Proof.
  unfold slice, between. rewrite between_from_slice.
  now rewrite Nat.sub_0_r, Nat.max_0_l.
Qed.

Lemma isspace_tab : isspace tab = true.
Proof. reflexivity. Qed.

Lemma isspace_replace (c : ascii) :
  isspace (if Ascii.eqb c tab then space else c) = isspace c.
Proof.
  destruct (Ascii.eqb c tab) eqn:E; [|reflexivity].
  apply Ascii.eqb_eq in E. subst c. reflexivity.
Qed.

(** Stripping and replacing tabs commute: the line the code makes is the
    tidy line. *)
Lemma clean_tidy (line : string) : clean line = tidy line.
Proof.
  unfold clean, tidy.
  induction line as [|c s IH]; simpl; [reflexivity|].
  rewrite <- IH.
  destruct (rstrip s) as [|d r] eqn:E; simpl.
  - rewrite isspace_replace. destruct (isspace c); reflexivity.
  - reflexivity.
Qed.

Lemma rstrip_idempotent (s : string) : rstrip (rstrip s) = rstrip s.
Proof.
  induction s as [|c s IH]; simpl; [reflexivity|].
  destruct (rstrip s) as [|d r] eqn:E.
  - destruct (isspace c) eqn:Ec; simpl; [reflexivity|]. now rewrite Ec.
  - simpl in *. now rewrite IH.
Qed.

(** A tidy line has no trailing whitespace and no tab. *)
Lemma tidy_stripped (line : string) : rstrip (tidy line) = tidy line.
Proof. apply rstrip_idempotent. Qed.

Lemma replace_tab_no_tab (s : string) :
  ~ In tab (list_ascii_of_string (replace_tab s)).
Proof.
  induction s as [|c s IH]; simpl; [tauto|].
  intros [H | H]; [|tauto].
  destruct (Ascii.eqb c tab) eqn:E.
  - discriminate.
  - apply Ascii.eqb_neq in E. congruence.
Qed.

Lemma tidy_no_tab (line : string) : ~ In tab (list_ascii_of_string (tidy line)).
Proof. rewrite <- clean_tidy. apply replace_tab_no_tab. Qed.

(** What the function returns once the four locations are known. *)
Lemma get_fhd_history_located (lines : list string) (return_user : bool)
    (im ic io iu : nat) (uline user : string) :
  scan 0 lines no_locs = mkLocs (Some im) (Some ic) (Some io) (Some iu) ->
  nth_error lines iu = Some uline ->
  nth_error (split uline) 1 = Some user ->
  get_fhd_history lines return_user
  = Ok (if return_user then HistoryUser (history_of lines im ic io) user
        else History (history_of lines im ic io)).
Proof.
  intros Hscan Hline Huser. unfold get_fhd_history.
  rewrite Hscan. cbn [main_loc command_loc obs_loc user_line succ_loc bind].
  rewrite Hline. cbn [bind]. rewrite Huser. cbn [bind].
  rewrite !slice_between. unfold history_of.
  replace (map clean (("FHD history" ++ newline)%string
                        :: between im ic lines ++ between ic io lines))
    with ("FHD history" :: map tidy (between im ic lines ++ between ic io lines)).
  - destruct return_user; reflexivity.
  - cbn [map]. f_equal. apply map_ext. intros l. symmetry. apply clean_tidy.
Qed.

Lemma scan_record (lines : list string) (im ic io iu : nat) :
  loc_of MAIN (scan 0 lines no_locs) = Some im ->
  loc_of COMMAND_LINE (scan 0 lines no_locs) = Some ic ->
  loc_of OBS (scan 0 lines no_locs) = Some io ->
  loc_of User (scan 0 lines no_locs) = Some iu ->
  scan 0 lines no_locs = mkLocs (Some im) (Some ic) (Some io) (Some iu).
Proof.
  destruct (scan 0 lines no_locs) as [a b c d]. simpl. congruence.
Qed.

(** A settings file with the four markers whose "User" line has no second
    word, and one that has it. *)
Definition short_user_file : list string :=
  ["##MAIN"; "##COMMAND_LINE"; "##OBS"; "User"].

Definition sample_file : list string :=
  ["preamble"; "##MAIN"; String tab "run" ++ String tab "1  "; "User   bob  x";
   "##COMMAND_LINE"; "fhd  "; "##OBS"; "rest"]%string.

Lemma sample_file_markers : forall k, has_marker sample_file k.
Proof.
  intros []; unfold has_marker, sample_file.
  - exists "##MAIN". split; [simpl; tauto | reflexivity].
  - exists "##COMMAND_LINE". split; [simpl; tauto | reflexivity].
  - exists "##OBS". split; [simpl; tauto | reflexivity].
  - exists "User   bob  x". split; [simpl; tauto | reflexivity].
Qed.

Lemma sample_file_users (line : string) :
  In line sample_file -> startswith line "User" = true -> 2 <= length (split line).
Proof.
  unfold sample_file. simpl.
  intros [<- | [<- | [<- | [<- | [<- | [<- | [<- | [<- | []]]]]]]]];
    vm_compute; intros H; try discriminate H. lia.
Qed.

(** C8 (as amended): for every settings file that has a line beginning
    with each of the four markers and whose lines beginning with "User"
    have at least two whitespace-delimited words, [get_fhd_history]
    returns the "FHD history" line followed by the lines strictly between
    the ##MAIN and the ##COMMAND_LINE marker and between the
    ##COMMAND_LINE and the ##OBS marker, each with tabs replaced by spaces
    and trailing whitespace stripped, joined by newlines; with
    [return_user=True] it also returns the second word of the line
    beginning with "User". *)
Theorem get_fhd_history_returns (lines : list string) :
  (forall k, has_marker lines k) ->
  (forall line, In line lines -> startswith line "User" = true ->
                2 <= length (split line)) ->
  exists (im ic io iu : nat) (uline user : string),
    marker_at lines MAIN im /\ marker_at lines COMMAND_LINE ic
    /\ marker_at lines OBS io
    /\ nth_error lines iu = Some uline /\ startswith uline "User" = true
    /\ nth_error (split uline) 1 = Some user
    /\ get_fhd_history lines false = Ok (History (history_of lines im ic io))
    /\ get_fhd_history lines true
       = Ok (HistoryUser (history_of lines im ic io) user).
Proof.
  intros Hall Husers.
  destruct (has_marker_located lines MAIN (Hall MAIN)) as [im Him].
  destruct (has_marker_located lines COMMAND_LINE (Hall COMMAND_LINE)) as [ic Hic].
  destruct (has_marker_located lines OBS (Hall OBS)) as [io Hio].
  destruct (has_marker_located lines User (Hall User)) as [iu Hiu].
  destruct (located_marker lines User iu Hiu) as (uline & Hnth & Hstart).
  assert (Hin : In uline lines) by (eapply nth_error_In; exact Hnth).
  pose proof (Husers uline Hin Hstart) as Hlen.
  destruct (nth_error (split uline) 1) as [user|] eqn:Huser.
  2:{ apply nth_error_None in Huser. lia. }
  pose proof (scan_record lines im ic io iu Him Hic Hio Hiu) as Hscan.
  exists im, ic, io, iu, uline, user.
  repeat split;
    try (eapply located_marker; eassumption); try assumption.
  - exact (get_fhd_history_located lines false im ic io iu uline user Hscan Hnth Huser).
  - exact (get_fhd_history_located lines true im ic io iu uline user Hscan Hnth Huser).
Qed.

Lemma get_fhd_history_returns_witness :
  exists (im ic io iu : nat) (uline user : string),
    marker_at sample_file MAIN im /\ marker_at sample_file COMMAND_LINE ic
    /\ marker_at sample_file OBS io
    /\ nth_error sample_file iu = Some uline /\ startswith uline "User" = true
    /\ nth_error (split uline) 1 = Some user
    /\ get_fhd_history sample_file false
       = Ok (History (history_of sample_file im ic io))
    /\ get_fhd_history sample_file true
       = Ok (HistoryUser (history_of sample_file im ic io) user).
Proof.
  apply (get_fhd_history_returns sample_file).
  - exact sample_file_markers.
  - exact sample_file_users.
Defined.

(** C8 (as stated) fails: this file has the four markers, and the function
    raises [IndexError] whether the user is asked for or not. *)
Lemma get_fhd_history_short_user :
  (forall k, has_marker short_user_file k)
  /\ get_fhd_history short_user_file false = Raise IndexError
  /\ get_fhd_history short_user_file true = Raise IndexError.
Proof.
  split; [|split; reflexivity].
  intros []; unfold has_marker, short_user_file.
  - exists "##MAIN". split; [simpl; tauto | reflexivity].
  - exists "##COMMAND_LINE". split; [simpl; tauto | reflexivity].
  - exists "##OBS". split; [simpl; tauto | reflexivity].
  - exists "User". split; [simpl; tauto | reflexivity].
Qed.

(** C10: the user is read whether or not it is returned.  For every
    settings file that has the three ## markers, and for both values of
    [return_user], the function raises [TypeError] when no line begins
    with "User", and [IndexError] when lines begin with "User" but each
    has fewer than two words. *)
Theorem get_fhd_history_needs_user (lines : list string) (return_user : bool) :
  has_marker lines MAIN -> has_marker lines COMMAND_LINE -> has_marker lines OBS ->
  (forall line, In line lines -> startswith line "User" = true ->
                length (split line) < 2) ->
  (~ has_marker lines User -> get_fhd_history lines return_user = Raise TypeError)
  /\ (has_marker lines User -> get_fhd_history lines return_user = Raise IndexError)
  /\ raises (get_fhd_history lines return_user).
Proof.
  intros Hm Hc Ho Hshort.
  destruct (has_marker_located lines MAIN Hm) as [im Him].
  destruct (has_marker_located lines COMMAND_LINE Hc) as [ic Hic].
  destruct (has_marker_located lines OBS Ho) as [io Hio].
  simpl in Him, Hic, Hio.
  assert (Hno : ~ has_marker lines User ->
                get_fhd_history lines return_user = Raise TypeError).
  { intros Habsent.
    assert (Hu : user_line (scan 0 lines no_locs) = None).
    { change (loc_of User (scan 0 lines no_locs) = loc_of User no_locs).
      apply scan_absent. intros line Hin.
      destruct (startswith line (tag User)) eqn:E; [|reflexivity].
      exfalso. apply Habsent. now exists line. }
    unfold get_fhd_history. rewrite Him, Hic, Hu. reflexivity. }
  assert (Hyes : has_marker lines User ->
                 get_fhd_history lines return_user = Raise IndexError).
  { intros Hu.
    destruct (has_marker_located lines User Hu) as [iu Hiu].
    destruct (located_marker lines User iu Hiu) as (uline & Hnth & Hstart).
    assert (Hin : In uline lines) by (eapply nth_error_In; exact Hnth).
    pose proof (Hshort uline Hin Hstart) as Hlen.
    assert (Hnone : nth_error (split uline) 1 = None)
      by (apply nth_error_None; lia).
    simpl in Hiu. unfold get_fhd_history.
    rewrite Him, Hic, Hiu. cbn [succ_loc bind]. rewrite Hnth. cbn [bind].
    rewrite Hnone. reflexivity. }
  split; [exact Hno | split; [exact Hyes|]].
  destruct (loc_of User (scan 0 lines no_locs)) as [iu|] eqn:E.
  - exists IndexError. apply Hyes.
    destruct (located_marker lines User iu E) as (l & Hn & Hs).
    exists l. split; [eapply nth_error_In; exact Hn | exact Hs].
  - exists TypeError. apply Hno. intros Hu.
    destruct (has_marker_located lines User Hu) as [iu Hiu]. congruence.
Qed.

(** A settings file with the three ## markers and no line for the user. *)
Definition no_user_file : list string :=
  ["##MAIN"; "version 1"; "##COMMAND_LINE"; "fhd"; "##OBS"; "n_pol 2"].

Lemma get_fhd_history_needs_user_witness :
  (~ has_marker no_user_file User ->
   get_fhd_history no_user_file false = Raise TypeError)
  /\ (has_marker no_user_file User ->
      get_fhd_history no_user_file false = Raise IndexError)
  /\ raises (get_fhd_history no_user_file false).
Proof.
  apply (get_fhd_history_needs_user no_user_file false).
  - exists "##MAIN". split; [simpl; tauto | reflexivity].
  - exists "##COMMAND_LINE". split; [simpl; tauto | reflexivity].
  - exists "##OBS". split; [simpl; tauto | reflexivity].
  - unfold no_user_file. simpl.
    intros line [<- | [<- | [<- | [<- | [<- | [<- | []]]]]]];
      vm_compute; intros H; discriminate H.
Defined.

End HistoryFacts.

(** ** Dictionaries *)

Module DictFacts.
Import PyDict.

Lemma mem_keys {V : Type} (d : dict V) (k : string) :
  existsb (String.eqb k) (keys d) = mem d k.
Proof.
  unfold mem. induction d as [|[k' v] d IH]; simpl; [reflexivity|].
  rewrite (String.eqb_sym k k'). destruct (String.eqb k' k); [reflexivity|].
  exact IH.
Qed.

Lemma get_set {V : Type} (d : dict V) (k k' : string) (v : V) :
  get (set d k v) k' = if String.eqb k k' then Some v else get d k'.
Proof.
  induction d as [|[k0 v0] d IH]; simpl.
  - reflexivity.
  - destruct (String.eqb k0 k) eqn:E; simpl.
    + apply String.eqb_eq in E. subst k0.
      destruct (String.eqb k k'); reflexivity.
    + rewrite IH. destruct (String.eqb k0 k') eqn:E'; [|reflexivity].
      apply String.eqb_eq in E'. subst k0.
      now rewrite String.eqb_sym, E.
Qed.

Lemma keys_set {V : Type} (d : dict V) (k x : string) (v : V) :
  In x (keys (set d k v)) -> x = k \/ In x (keys d).
Proof.
  induction d as [|[k0 v0] d IH]; simpl.
  - intros [<- | []]. now left.
  - destruct (String.eqb k0 k) eqn:E; simpl.
    + tauto.
    + intros [<- | H]; [tauto|]. apply IH in H. tauto.
Qed.

End DictFacts.

(** ** Sorting the file list *)

Module FilesFacts.
Import PyStr PyDict Files DictFacts.

Lemma endswith_refl (s : string) : endswith s s = true.
Proof. destruct s; cbn [endswith]; rewrite String.eqb_refl; reflexivity. Qed.

(** Two suffixes, neither of which ends with the other, never end the
    same string. *)
Lemma endswith_apart (p1 p2 : string) :
  endswith p1 p2 = false -> endswith p2 p1 = false ->
  forall s, endswith s p1 = true -> endswith s p2 = true -> False.
Proof.
  intros H12 H21. induction s as [|c s IH]; intros H1 H2.
  - cbn [endswith] in H1, H2. rewrite orb_false_r in H1, H2.
    apply String.eqb_eq in H1, H2. subst p1 p2. discriminate H12.
  - cbn [endswith] in H1, H2.
    apply orb_true_iff in H1, H2. destruct H1 as [H1|H1], H2 as [H2|H2].
    + apply String.eqb_eq in H1, H2. subst p1 p2.
      rewrite endswith_refl in H12. discriminate.
    + apply String.eqb_eq in H1. subst p1.
      cbn [endswith] in H12. rewrite H2, orb_true_r in H12. discriminate.
    + apply String.eqb_eq in H2. subst p2.
      cbn [endswith] in H21. rewrite H1, orb_true_r in H21. discriminate.
    + now apply IH.
Qed.

(** A file name has at most one role. *)
Lemma role_unique (use_model : bool) (r1 r2 : role) (file : string) :
  has_role use_model r1 file = true -> has_role use_model r2 file = true -> r1 = r2.
Proof.
  unfold has_role. intros H1 H2.
  destruct use_model, r1, r2; try reflexivity; exfalso;
    (eapply endswith_apart; [ | | exact H1 | exact H2]; vm_compute; reflexivity).
Qed.

Definition role_eqb (r1 r2 : role) : bool :=
  match r1, r2 with
  | Vis_xx, Vis_xx | Vis_yy, Vis_yy | Vis_xy, Vis_xy | Vis_yx, Vis_yx
  | Params, Params | Obs, Obs | Flags, Flags | Layout, Layout
  | Settings, Settings => true
  | _, _ => false
  end.

Lemma role_eqb_eq (r1 r2 : role) : role_eqb r1 r2 = true <-> r1 = r2.
Proof. destruct r1, r2; simpl; split; intros H; congruence. Qed.

Lemma all_roles (r : role) : In r roles.
Proof. destruct r; simpl; tauto. Qed.

(** The role of a file name: the first suffix of the chain that matches. *)
Definition role_of (use_model : bool) (file : string) : option role :=
  find (fun r => has_role use_model r file) roles.

Lemma role_of_some (use_model : bool) (file : string) (r0 : role) :
  role_of use_model file = Some r0 ->
  forall r, has_role use_model r file = role_eqb r0 r.
Proof.
  intros H r. apply find_some in H. destruct H as [_ H0].
  destruct (has_role use_model r file) eqn:E.
  - symmetry. apply role_eqb_eq. eapply role_unique; eassumption.
  - destruct (role_eqb r0 r) eqn:E'; [|reflexivity].
    apply role_eqb_eq in E'. congruence.
Qed.

Lemma role_of_none (use_model : bool) (file : string) :
  role_of use_model file = None -> forall r, has_role use_model r file = false.
Proof.
  intros H r. exact (find_none _ _ H r (all_roles r)).
Qed.

Lemma recognized_role_of (use_model : bool) (file : string) :
  recognized use_model file = false <-> role_of use_model file = None.
Proof.
  unfold recognized, role_of. split; intros H.
  - destruct (find _ roles) as [r|] eqn:E; [|reflexivity].
    apply find_some in E. destruct E as [Hin Hr].
    assert (existsb (fun r => has_role use_model r file) roles = true)
      by (apply existsb_exists; now exists r).
    congruence.
  - destruct (existsb _ roles) eqn:E; [|reflexivity].
    apply existsb_exists in E. destruct E as (r & Hin & Hr).
    now rewrite (find_none _ _ H r Hin) in Hr.
Qed.

(** The variable that holds the file of a role is set. *)
Definition filled (st : found) (r : role) : bool :=
  match r with
  | Vis_xx => mem (datafiles st) "xx"
  | Vis_yy => mem (datafiles st) "yy"
  | Vis_xy => mem (datafiles st) "xy"
  | Vis_yx => mem (datafiles st) "yx"
  | Params => negb (is_none (params_file st))
  | Obs => negb (is_none (obs_file st))
  | Flags => negb (is_none (flags_file st))
  | Layout => negb (is_none (layout_file st))
  | Settings => negb (is_none (settings_file st))
  end.

(** [datafiles] only has the four polarizations as keys. *)
Definition vis_keys (st : found) : Prop :=
  forall k, In k (keys (datafiles st)) -> In k ["xx"; "yy"; "xy"; "yx"].

Lemma take_data_spec (pol : string) (file : string) (st : found) :
  In pol ["xx"; "yy"; "xy"; "yx"] -> vis_keys st ->
  if mem (datafiles st) pol
  then take_data pol file st
       = Raise (ValueError ("multiple " ++ pol ++ " datafiles in filelist"))
  else exists st', take_data pol file st = Ok st' /\ vis_keys st'
       /\ (forall k, mem (datafiles st') k = mem (datafiles st) k || String.eqb pol k)
       /\ params_file st' = params_file st /\ obs_file st' = obs_file st
       /\ flags_file st' = flags_file st /\ layout_file st' = layout_file st
       /\ settings_file st' = settings_file st.
Proof.
  intros Hpol Hkeys. unfold take_data. rewrite mem_keys.
  destruct (mem (datafiles st) pol) eqn:E; [reflexivity|].
  eexists. split; [reflexivity|]. cbn [datafiles params_file obs_file flags_file
    layout_file settings_file]. repeat split.
  - intros k Hk. apply keys_set in Hk. destruct Hk as [-> | Hk]; auto.
  - intros k. unfold mem. rewrite get_set.
    destruct (String.eqb pol k); [now rewrite orb_true_r | now rewrite orb_false_r].
Qed.

(** One file: nothing changes for a name without role, a second file of a
    role raises, and a first file of a role fills its variable. *)
Lemma sort_file_spec (use_model : bool) (file : string) (st : found) :
  vis_keys st ->
  match role_of use_model file with
  | None => sort_file use_model file st = Ok st
  | Some r =>
      if filled st r
      then sort_file use_model file st = Raise (ValueError (multiple r))
      else exists st', sort_file use_model file st = Ok st' /\ vis_keys st'
                       /\ forall r', filled st' r' = filled st r' || role_eqb r r'
  end.
Proof.
  intros Hkeys. unfold role_of, sort_file, has_role.
  destruct use_model; cbn [find roles suffix data_name String.append].
  all: repeat
    match goal with
    | |- context [endswith ?name ?p] =>
        destruct (endswith name p) eqn:?
    end.
  all: try reflexivity.
  all: try
    match goal with
    | |- context [take_data ?pol ?f ?s] =>
        let H := fresh "H" in
        assert (H : In pol ["xx"; "yy"; "xy"; "yx"]) by (simpl; tauto);
        pose proof (take_data_spec pol f s H Hkeys) as Ht;
        cbn [filled]; destruct (mem (datafiles s) pol) eqn:?;
        [ exact Ht
        | destruct Ht as (st' & -> & Hk & Hm & Hp & Ho & Hf & Hl & Hs);
          exists st'; split; [reflexivity | split; [exact Hk|]];
          intros []; cbn [filled role_eqb]; rewrite ?Hm, ?Hp, ?Ho, ?Hf, ?Hl, ?Hs;
          cbn [String.eqb Ascii.eqb Bool.eqb]; rewrite ?orb_false_r, ?orb_true_r;
          reflexivity ]
    end.
  all: match goal with
       | |- context [take_file _ ?slot _ _ ?s] =>
           unfold take_file; cbn [filled]; destruct (slot s) eqn:?
       end; cbn [is_none negb]; try reflexivity.
  all: eexists; split; [reflexivity | split; [exact Hkeys|]].
  all: intros []; cbn [filled role_eqb put_params put_obs put_flags put_layout
         put_settings datafiles params_file obs_file flags_file layout_file
         settings_file is_none negb];
       rewrite ?orb_false_r, ?orb_true_r;
       repeat match goal with H : _ = None |- _ => rewrite H end;
       reflexivity.
Qed.

Definition one_if (b : bool) : nat := if b then 1 else 0.

Lemma count_role_cons (use_model : bool) (r : role) (file : string)
    (rest : list string) :
  count_role use_model r (file :: rest)
  = one_if (has_role use_model r file) + count_role use_model r rest.
Proof.
  unfold count_role. simpl. destruct (has_role use_model r file); reflexivity.
Qed.

(** The whole loop: it raises exactly when a role comes up twice, and it
    fills the variables of the roles that come up. *)
Lemma sort_files_spec (use_model : bool) (filelist : list string) :
  forall st, vis_keys st ->
  match sort_files use_model filelist st with
  | Ok st' =>
      vis_keys st'
      /\ forall r, one_if (filled st r) + count_role use_model r filelist <= 1
                   /\ filled st' r
                      = filled st r || (0 <? count_role use_model r filelist)
  | Raise e =>
      exists r, 2 <= one_if (filled st r) + count_role use_model r filelist
                /\ e = ValueError (multiple r)
  end.
Proof.
  induction filelist as [|file rest IH]; intros st Hkeys.
  - simpl. split; [exact Hkeys|]. intros r. unfold count_role. simpl.
    rewrite orb_false_r. split; [destruct (filled st r); simpl; lia | reflexivity].
  - cbn [sort_files]. pose proof (sort_file_spec use_model file st Hkeys) as Hstep.
    destruct (role_of use_model file) as [r0|] eqn:Hrole.
    + destruct (filled st r0) eqn:Hfill.
      * rewrite Hstep. cbn [bind]. exists r0. split; [|reflexivity].
        rewrite count_role_cons, Hfill, (role_of_some _ _ _ Hrole r0).
        replace (role_eqb r0 r0) with true by (symmetry; now apply role_eqb_eq).
        simpl. lia.
      * destruct Hstep as (st1 & -> & Hk1 & Hf1). cbn [bind].
        specialize (IH st1 Hk1).
        destruct (sort_files use_model rest st1) as [st2|e].
        -- destruct IH as [Hk2 IH]. split; [exact Hk2|]. intros r.
           destruct (IH r) as [Hle Heq].
           rewrite count_role_cons, (role_of_some _ _ _ Hrole r).
           rewrite Hf1 in Hle, Heq. rewrite Heq.
           destruct (role_eqb r0 r) eqn:Er.
           ++ apply role_eqb_eq in Er. subst r. rewrite Hfill in *.
              simpl in *. split; [lia|reflexivity].
           ++ rewrite orb_false_r in *. simpl. split; [exact Hle|reflexivity].
        -- destruct IH as (r & Hge & He). exists r. split; [|exact He].
           rewrite count_role_cons, (role_of_some _ _ _ Hrole r).
           rewrite Hf1 in Hge.
           destruct (role_eqb r0 r) eqn:Er.
           ++ apply role_eqb_eq in Er. subst r. rewrite Hfill in *.
              simpl in *. lia.
           ++ rewrite orb_false_r in Hge. simpl. exact Hge.
    + rewrite Hstep. cbn [bind]. specialize (IH st Hkeys).
      assert (Hc : forall r, count_role use_model r (file :: rest)
                             = count_role use_model r rest).
      { intros r. rewrite count_role_cons, (role_of_none _ _ Hrole r). reflexivity. }
      destruct (sort_files use_model rest st) as [st2|e].
      * destruct IH as [Hk2 IH]. split; [exact Hk2|]. intros r.
        rewrite Hc. apply IH.
      * destruct IH as (r & Hge & He). exists r. rewrite Hc. now split.
Qed.

Lemma vis_keys_none : vis_keys none_found.
Proof. intros k []. Qed.

(** No data file was found exactly when none of the four roles is filled. *)
Lemma no_datafiles (st : found) :
  vis_keys st ->
  (length (datafiles st) <? 1) = true
  <-> (filled st Vis_xx = false /\ filled st Vis_yy = false
       /\ filled st Vis_xy = false /\ filled st Vis_yx = false).
Proof.
  intros Hkeys. unfold filled. split.
  - intros H. apply Nat.ltb_lt in H.
    destruct (datafiles st); [now repeat split | simpl in H; lia].
  - intros (H1 & H2 & H3 & H4). unfold vis_keys in Hkeys.
    destruct (datafiles st) as [|[k v] d]; [reflexivity|]. exfalso.
    assert (Hk : In k ["xx"; "yy"; "xy"; "yx"]) by (apply Hkeys; now left).
    unfold mem in *. simpl in H1, H2, H3, H4.
    destruct Hk as [<- | [<- | [<- | [<- | []]]]];
      simpl in *; discriminate.
Qed.

Lemma zero_count (n : nat) : (0 <? n) = false <-> n = 0.
Proof. rewrite Nat.ltb_ge. lia. Qed.

(** The conditions under which the specification says the reader raises. *)
Definition must_raise (filelist : list string) (use_model read_data : bool) : Prop :=
  (exists r, 2 <= count_role use_model r filelist)
  \/ (read_data = true
      /\ count_role use_model Vis_xx filelist = 0
      /\ count_role use_model Vis_yy filelist = 0
      /\ count_role use_model Vis_xy filelist = 0
      /\ count_role use_model Vis_yx filelist = 0)
  \/ (read_data = false /\ count_role use_model Obs filelist = 0)
  \/ count_role use_model Params filelist = 0
  \/ count_role use_model Flags filelist = 0.

(** The warnings that the specification describes. *)
Definition expected_warnings (filelist : list string) (use_model : bool) : list string :=
  (if count_role use_model Layout filelist =? 0 then [no_layout_warning] else [])
  ++ (if count_role use_model Settings filelist =? 0 then [no_settings_warning] else []).

Lemma is_none_filled (st : found) (filelist : list string) (use_model : bool)
    (r : role) (slot : option string) :
  filled st r = (0 <? count_role use_model r filelist) ->
  filled st r = negb (is_none slot) ->
  is_none slot = (count_role use_model r filelist =? 0).
Proof.
  intros H1 H2. rewrite H2 in H1.
  destruct (count_role use_model r filelist) as [|n];
    destruct (is_none slot); cbn in H1 |- *; congruence.
Qed.

Lemma sort_file_unrecognized (use_model : bool) (file : string) (st : found) :
  recognized use_model file = false -> sort_file use_model file st = Ok st.
Proof.
  intros H. apply recognized_role_of in H.
  pose proof (role_of_none _ _ H) as Hno. unfold has_role in Hno.
  pose proof (Hno Vis_xx) as H1. pose proof (Hno Vis_yy) as H2.
  pose proof (Hno Vis_xy) as H3. pose proof (Hno Vis_yx) as H4.
  pose proof (Hno Params) as H5. pose proof (Hno Obs) as H6.
  pose proof (Hno Flags) as H7. pose proof (Hno Layout) as H8.
  pose proof (Hno Settings) as H9.
  unfold sort_file.
  destruct use_model; cbn [suffix data_name String.append] in *;
    now rewrite H1, H2, H3, H4, H5, H6, H7, H8, H9.
Qed.

Lemma sort_files_unrecognized (use_model : bool) (file : string)
    (before after : list string) :
  recognized use_model file = false ->
  forall st, sort_files use_model (before ++ file :: after) st
             = sort_files use_model (before ++ after) st.
Proof.
  intros H. induction before as [|x before IH]; intros st; cbn [app sort_files].
  - now rewrite sort_file_unrecognized.
  - destruct (sort_file use_model x st) as [st'|e]; cbn [bind];
      [apply IH | reflexivity].
Qed.

(** C4: the file-list part of [read_fhd] raises exactly when a role comes
    up twice, no visibility file is there while [read_data] is true, no
    obs file is there while [read_data] is false, no params file or no
    flags file is there; a role that comes up twice raises "multiple ...
    in filelist"; a file name without role is ignored; and when nothing
    raises, reading goes on with a warning for a missing layout file and
    one for a missing settings file. *)
Theorem read_fhd_files_raises_exactly
    (filelist : list string) (use_model read_data : bool) :
  (raises (read_fhd_files filelist use_model read_data)
   <-> must_raise filelist use_model read_data)
  /\ ((exists r, 2 <= count_role use_model r filelist) ->
      exists r, 2 <= count_role use_model r filelist
                /\ read_fhd_files filelist use_model read_data
                   = Raise (ValueError (multiple r)))
  /\ (forall before file after,
        filelist = before ++ file :: after ->
        recognized use_model file = false ->
        read_fhd_files filelist use_model read_data
        = read_fhd_files (before ++ after) use_model read_data)
  /\ (~ must_raise filelist use_model read_data ->
      exists st, read_fhd_files filelist use_model read_data
                 = Ok (st, expected_warnings filelist use_model)).
Proof.
  assert (Hignore : forall before file after,
             filelist = before ++ file :: after ->
             recognized use_model file = false ->
             read_fhd_files filelist use_model read_data
             = read_fhd_files (before ++ after) use_model read_data).
  { intros before file after -> Hrec. unfold read_fhd_files.
    now rewrite (sort_files_unrecognized use_model file before after Hrec). }
  pose proof (sort_files_spec use_model filelist none_found vis_keys_none) as Hspec.
  revert Hignore. unfold read_fhd_files, must_raise.
  destruct (sort_files use_model filelist none_found) as [st|e] eqn:Hsort; cbn [bind].
  - (* the loop ends: no role comes up twice *)
    destruct Hspec as [Hkeys Hspec].
    assert (Hcount : forall r, count_role use_model r filelist <= 1
                               /\ filled st r = (0 <? count_role use_model r filelist)).
    { intros r. destruct (Hspec r) as [H1 H2].
      replace (filled none_found r) with false in * by (destruct r; reflexivity).
      simpl in H1, H2. now split. }
    assert (Hnodup : ~ exists r, 2 <= count_role use_model r filelist).
    { intros [r Hr]. destruct (Hcount r). lia. }
    pose proof (no_datafiles st Hkeys) as Hdata.
    destruct (Hcount Vis_xx) as [_ Hxx]. destruct (Hcount Vis_yy) as [_ Hyy].
    destruct (Hcount Vis_xy) as [_ Hxy]. destruct (Hcount Vis_yx) as [_ Hyx].
    rewrite Hxx, Hyy, Hxy, Hyx, !zero_count in Hdata.
    assert (Ho : is_none (obs_file st) = (count_role use_model Obs filelist =? 0))
      by (eapply is_none_filled; [apply Hcount | reflexivity]).
    assert (Hp : is_none (params_file st) = (count_role use_model Params filelist =? 0))
      by (eapply is_none_filled; [apply Hcount | reflexivity]).
    assert (Hf : is_none (flags_file st) = (count_role use_model Flags filelist =? 0))
      by (eapply is_none_filled; [apply Hcount | reflexivity]).
    assert (Hl : is_none (layout_file st) = (count_role use_model Layout filelist =? 0))
      by (eapply is_none_filled; [apply Hcount | reflexivity]).
    assert (Hs : is_none (settings_file st)
                 = (count_role use_model Settings filelist =? 0))
      by (eapply is_none_filled; [apply Hcount | reflexivity]).
    unfold check_found, expected_warnings. rewrite Ho, Hp, Hf, Hl, Hs.
    destruct (length (datafiles st) <? 1) eqn:Ed;
      [ pose proof (proj1 Hdata eq_refl) as Hd
      | assert (Hd : ~ (count_role use_model Vis_xx filelist = 0
                        /\ count_role use_model Vis_yy filelist = 0
                        /\ count_role use_model Vis_xy filelist = 0
                        /\ count_role use_model Vis_yx filelist = 0))
          by (intros Hd; apply Hdata in Hd; discriminate) ];
      destruct read_data;
      destruct (count_role use_model Obs filelist =? 0) eqn:Eo;
      destruct (count_role use_model Params filelist =? 0) eqn:Ep;
      destruct (count_role use_model Flags filelist =? 0) eqn:Ef;
      cbn [andb negb bind];
      rewrite ?Nat.eqb_eq, ?Nat.eqb_neq in *;
      intros Hignore;
      (split; [split; [intros [e He]; try discriminate He; tauto
                      | intros Hm; try (eexists; reflexivity); exfalso;
                        destruct Hm as [Hm | [Hm | [Hm | [Hm | Hm]]]];
                        try tauto; try (destruct Hm; congruence) ]
              | split; [intros Hm; contradiction
                       | split; [exact Hignore
                                | intros Hm; try (eexists; reflexivity);
                                  exfalso; apply Hm; tauto ]]]).
  - (* the loop raises: a role comes up twice *)
    destruct Hspec as (r & Hr & ->).
    replace (filled none_found r) with false in Hr by (destruct r; reflexivity).
    simpl in Hr. intros Hignore.
    split; [split; [intros _; left; now exists r | intros _; now eexists]|].
    split; [intros _; exists r; now split|].
    split; [exact Hignore|].
    intros Hm. exfalso. apply Hm. left. now exists r.
Qed.

End FilesFacts.

(** ** The telescope location *)

Module LocationFacts.
Import PyStr Location.

(** Where the location can come from. *)
Inductive source : Type := from_obs | from_layout | from_registry.

Section Precedence.

Variable XYZ_from_LatLonAlt : Q -> Q -> Q -> vec3.
Variable LatLonAlt_from_XYZ : vec3 -> bool -> vec3.
Variable get_telescope : string -> option Telescope.
Variable radian_tols : Q * Q.
Variable loc_tols : Q * Q.

Variables telescope_name coordinate_frame : string.
Variables latitude longitude altitude : Q.
Variable arr_center : vec3.
Variable run_check_acceptability : bool.

(** The location derived from the obs structure. *)
Definition obs_location : vec3 := XYZ_from_LatLonAlt latitude longitude altitude.

(** The layout and the obs structure agree under one of the two tests. *)
Definition agree : bool :=
  _xyz_close loc_tols obs_location arr_center
  || _latlonalt_close radian_tols loc_tols (latitude, longitude, altitude)
       (LatLonAlt_from_XYZ arr_center run_check_acceptability).

Definition known : bool :=
  match get_telescope telescope_name with Some _ => true | None => false end.

(** The obs-derived value matches the registry entry. *)
Definition obs_matches_registry : bool :=
  match get_telescope telescope_name with
  | Some t => _latlonalt_close radian_tols loc_tols (latitude, longitude, altitude)
                (telescope_location_lat_lon_alt t)
  | None => false
  end.

(** The layout value matches the registry entry. *)
Definition layout_matches_registry : bool :=
  match get_telescope telescope_name with
  | Some t => _xyz_close loc_tols arr_center (telescope_location t)
  | None => false
  end.

(** The precedence of the specification. *)
Definition preferred : source :=
  if obs_matches_registry then from_obs
  else if layout_matches_registry then from_layout
  else if known then from_registry
  else from_obs.

Definition value_of (s : source) : vec3 :=
  match s with
  | from_obs => obs_location
  | from_layout => arr_center
  | from_registry =>
      match get_telescope telescope_name with
      | Some t => telescope_location t
      | None => obs_location
      end
  end.

(** The warning names the source that is used. *)
Definition warning_of (s : source) : string :=
  head_message ++
  match s with
  | from_obs => if known then obs_message else unknown_message
  | from_layout => layout_message
  | from_registry => registry_message
  end.

(** C5: with an "itrf" layout frame and a layout array center that
    disagrees with the obs-derived location under both closeness tests,
    the location is the obs-derived value if it matches the registry
    entry, else the layout value if it matches the registry, else the
    registry value when the telescope is known, else the obs-derived
    value, and one warning names the source used; with any other frame
    the obs lat/lon/alt is assigned with no comparison and no warning.
    (When the two agree, the layout value is used without a warning.) *)
Theorem read_fhd_location_precedence :
  let result :=
    read_fhd_location XYZ_from_LatLonAlt LatLonAlt_from_XYZ get_telescope
      radian_tols loc_tols telescope_name coordinate_frame
      latitude longitude altitude arr_center run_check_acceptability in
  (lower coordinate_frame = "itrf" -> agree = false ->
   result = (set_telescope_location (value_of preferred), [warning_of preferred]))
  /\ (lower coordinate_frame = "itrf" -> agree = true ->
      result = (set_telescope_location arr_center, []))
  /\ (lower coordinate_frame <> "itrf" ->
      result = (set_telescope_location_lat_lon_alt (latitude, longitude, altitude), [])).
Proof.
  cbv zeta. unfold read_fhd_location.
  destruct (String.eqb (lower coordinate_frame) "itrf") eqn:Eframe.
  - apply String.eqb_eq in Eframe.
    split; [|split]; [ | | intros H; contradiction].
    + intros _ Hagree. unfold agree, obs_location in Hagree. rewrite Hagree.
      unfold preferred, value_of, warning_of, obs_matches_registry,
        layout_matches_registry, known, obs_location.
      destruct (get_telescope telescope_name) as [t|]; [|reflexivity].
      destruct (_latlonalt_close radian_tols loc_tols
                  (latitude, longitude, altitude)
                  (telescope_location_lat_lon_alt t)); [reflexivity|].
      destruct (_xyz_close loc_tols arr_center (telescope_location t));
        reflexivity.
    + intros _ Hagree. unfold agree, obs_location in Hagree. now rewrite Hagree.
  - apply String.eqb_neq in Eframe.
    split; [|split]; try (intros H; contradiction). reflexivity.
Qed.

End Precedence.

(** The MWA case of the comments: the obs-derived location is off the
    layout, and the registry agrees with the obs structure. *)
Example read_fhd_location_mwa :
  read_fhd_location (fun lat lon alt => (lat, lon, alt)) (fun xyz _ => xyz)
    (fun name => if String.eqb name "MWA"
                 then Some (mkTelescope (1, 2, 3)%Q (1, 2, 3)%Q) else None)
    (0, 1 # 100)%Q (0, 1 # 100)%Q "MWA" "ITRF" 1%Q 2%Q 3%Q (9, 9, 9)%Q true
  = (set_telescope_location (1, 2, 3)%Q, [(head_message ++ obs_message)%string]).
Proof. reflexivity. Qed.

End LocationFacts.

(** ** The scalar fields of the layout *)

Module LayoutFacts.
Import PyStr PyDict Layout.

Lemma bind_ok {A B : Type} (r : result A) (k : A -> result B) (b : B) :
  bind r k = Ok b -> exists a, r = Ok a /\ k a = Ok b.
Proof. destruct r as [a|e]; simpl; [now exists a | discriminate]. Qed.

(** C7 (what the code does instead): no run of lines 466-513 assigns
    [antenna_diameters]; for a layout that has a [diameters] field the
    block ends with [antenna_diameters] still unset, assigns [timesys] a
    second time, and drops the field from the extra keywords too. *)
Theorem read_fhd_layout_skips_diameters :
  (forall layout layout_fields self r,
      read_fhd_layout layout layout_fields self = Ok r ->
      antenna_diameters r = antenna_diameters self)
  /\ layout_diameters layout_with_diameters = Some [(14 # 1)%Q; (14 # 1)%Q]
  /\ contains fields_with_diameters "diameters" = true
  /\ exists r, read_fhd_layout layout_with_diameters fields_with_diameters unset = Ok r
               /\ antenna_diameters r = None
               /\ timesys r = Some "UTC"
               /\ get (extra_keywords r) "DIAMETERS" = None.
Proof.
  split; [|split; [reflexivity | split; [reflexivity|]]].
  - intros layout layout_fields self r H. unfold read_fhd_layout in H.
    do 5 (apply bind_ok in H; destruct H as (? & _ & H)).
    apply bind_ok in H. destruct H as ([self' fields'] & Hd & H).
    assert (Hself : antenna_diameters self' = antenna_diameters self).
    { match type of Hd with
      | context [contains ?l "diameters"] => destruct (contains l "diameters")
      end.
      - apply bind_ok in Hd. destruct Hd as (? & _ & Hd).
        injection Hd as <- _. reflexivity.
      - injection Hd as <- _. reflexivity. }
    do 2 (apply bind_ok in H; destruct H as (? & _ & H)).
    injection H as <-. exact Hself.
  - eexists. split; [vm_compute; reflexivity|]. repeat split.
Qed.

End LayoutFacts.

(** ** uvw coordinates and data arrays *)

Module ArraysFacts.
Import PyStr PyDict Arrays DictFacts.

Lemma index_spec (l : list Z) (x : Z) :
  In x l -> exists i, index l x = Ok i /\ nth_error l i = Some x.
Proof.
  induction l as [|y l IH]; intros Hin; [destruct Hin|].
  simpl. destruct (Z.eqb y x) eqn:E.
  - apply Z.eqb_eq in E. subst y. now exists 0.
  - destruct Hin as [-> | Hin]; [rewrite Z.eqb_refl in E; discriminate|].
    destruct (IH Hin) as (i & -> & Hn). now exists (S i).
Qed.

Lemma index_nth (l : list Z) (x : Z) (i : nat) :
  index l x = Ok i -> nth_error l i = Some x.
Proof.
  revert i. induction l as [|y l IH]; intros i H; simpl in H; [discriminate|].
  destruct (Z.eqb y x) eqn:E.
  - injection H as <-. apply Z.eqb_eq in E. now subst.
  - destruct (index l x) as [j|]; simpl in H; [|discriminate].
    injection H as <-. simpl. now apply IH.
Qed.

(** The code of a polarization; two polarizations have two codes. *)
Lemma linear_pol_code (pol : string) :
  In pol lin_pol_order -> exists code, item linear_pol_dict pol = Ok code.
Proof.
  simpl. intros [<- | [<- | [<- | [<- | []]]]]; eexists; reflexivity.
Qed.

Lemma linear_pol_code_cases (p : string) (code : Z) :
  item linear_pol_dict p = Ok code ->
  (p = "xx" /\ code = (-5)%Z) \/ (p = "yy" /\ code = (-6)%Z)
  \/ (p = "xy" /\ code = (-7)%Z) \/ (p = "yx" /\ code = (-8)%Z).
Proof.
  unfold item, linear_pol_dict. cbn [lin_pol_order map combine get].
  destruct (String.eqb "xx" p) eqn:E1;
    [apply String.eqb_eq in E1; intros [= <-]; auto|].
  destruct (String.eqb "yy" p) eqn:E2;
    [apply String.eqb_eq in E2; intros [= <-]; auto|].
  destruct (String.eqb "xy" p) eqn:E3;
    [apply String.eqb_eq in E3; intros [= <-]; auto|].
  destruct (String.eqb "yx" p) eqn:E4;
    [apply String.eqb_eq in E4; intros [= <-]; auto 6|].
  discriminate.
Qed.

Lemma linear_pol_code_inj (p q : string) (code : Z) :
  item linear_pol_dict p = Ok code -> item linear_pol_dict q = Ok code -> p = q.
Proof.
  intros Hp Hq.
  apply linear_pol_code_cases in Hp, Hq.
  destruct Hp as [[-> ->] | [[-> ->] | [[-> ->] | [-> ->]]]];
    destruct Hq as [[-> H] | [[-> H] | [[-> H] | [-> H]]]];
    try reflexivity; discriminate H.
Qed.

(** The codes of the polarizations that have a data file. *)
Lemma present_pols_spec (vis_data : dict (array2 complex)) :
  exists pol_list,
    present_pols lin_pol_order vis_data = Ok pol_list
    /\ forall pol code, In pol lin_pol_order -> mem vis_data pol = true ->
                        item linear_pol_dict pol = Ok code -> In code pol_list.
Proof.
  unfold lin_pol_order. cbn [present_pols].
  destruct (mem vis_data "xx") eqn:E1, (mem vis_data "yy") eqn:E2,
    (mem vis_data "xy") eqn:E3, (mem vis_data "yx") eqn:E4;
    cbn; eexists; (split; [reflexivity|]);
    intros pol code [<- | [<- | [<- | [<- | []]]]] Hm Hc;
    try congruence; cbn in Hc; injection Hc as <-; simpl; tauto.
Qed.

(** The weights of the flags file under the names of the obs structure:
    entry [k + j] of the names gets weights [j]. *)
Lemma name_weights_spec (fhd_pol_list : list string) :
  NoDup fhd_pol_list ->
  forall (ws : list (array2 Q)) (k : nat) (d0 : dict (array2 Q)),
    k + length ws <= length fhd_pol_list ->
    exists d,
      name_weights k ws fhd_pol_list d0 = Ok d
      /\ (forall j pol w, nth_error fhd_pol_list (k + j) = Some pol ->
                          nth_error ws j = Some w -> get d pol = Some w)
      /\ (forall pol, (forall j, j < length ws ->
                                 nth_error fhd_pol_list (k + j) <> Some pol) ->
                      get d pol = get d0 pol).
Proof.
  intros Hnd. induction ws as [|w0 ws IH]; intros k d0 Hlen; cbn [name_weights].
  - exists d0. split; [reflexivity|]. split; [|reflexivity].
    intros j pol w _ Hw. destruct j; discriminate.
  - cbn [length] in Hlen.
    destruct (nth_error fhd_pol_list k) as [pol0|] eqn:Hk.
    2:{ apply nth_error_None in Hk. lia. }
    destruct (IH (S k) (set d0 pol0 w0)) as (d & Hd & Hin & Hout); [lia|].
    exists d. split; [exact Hd|]. split.
    + intros [|j] pol w Hp Hw.
      * rewrite Nat.add_0_r, Hk in Hp. injection Hp as <-.
        simpl in Hw. injection Hw as <-.
        rewrite Hout.
        -- rewrite get_set, String.eqb_refl. reflexivity.
        -- intros j Hj Habs.
           assert (k = S k + j); [|lia].
           apply (proj1 (NoDup_nth_error fhd_pol_list) Hnd).
           ++ apply nth_error_Some. congruence.
           ++ congruence.
      * simpl in Hw. apply (Hin j); [|exact Hw].
        now replace (S k + j) with (k + S j) by lia.
    + intros pol Hno. rewrite Hout.
      * rewrite get_set. destruct (String.eqb pol0 pol) eqn:E; [|reflexivity].
        apply String.eqb_eq in E. subst pol0. exfalso.
        apply (Hno 0); [simpl; lia|]. now rewrite Nat.add_0_r.
      * intros j Hj. replace (S k + j) with (k + S j) by lia.
        apply Hno. simpl. lia.
Qed.

(** The shape of the three data arrays. *)
Definition shaped (shape : nat * nat * nat * nat) (a : arrays) : Prop :=
  shape4 (data_array a) = shape /\ shape4 (flag_array a) = shape
  /\ shape4 (nsample_array a) = shape.

(** A visibility file and its weights fit the arrays. *)
Definition fits (Nblts Nfreqs : nat) (pol_list : list Z)
    (vis_weights_data : dict (array2 Q)) (entry : string * array2 complex) : Prop :=
  In (fst entry) lin_pol_order
  /\ (forall code, item linear_pol_dict (fst entry) = Ok code -> In code pol_list)
  /\ rows (snd entry) = Nblts /\ cols (snd entry) = Nfreqs
  /\ exists w, get vis_weights_data (fst entry) = Some w
               /\ rows w = Nblts /\ cols w = Nfreqs.

Lemma set_pol_fits {A : Type} (a : array4 A) (pol_i : nat) (v : array2 A)
    (Nblts Nfreqs Npols : nat) :
  shape4 a = (Nblts, 1, Nfreqs, Npols) -> rows v = Nblts -> cols v = Nfreqs ->
  set_pol a pol_i v
  = Ok (mkArray4 (Nblts, 1, Nfreqs, Npols)
          (fun b s f p => if (s =? 0) && (p =? pol_i) then at2 v b f
                          else at4 a b s f p)).
Proof.
  intros Hs Hr Hc. unfold set_pol. rewrite Hs, Hr, Hc, !Nat.eqb_refl.
  reflexivity.
Qed.

(** The loop over the visibility files: the slot of each file holds its
    conjugate, the flags and the sample numbers of its weights, and the
    other slots are as before. *)
Lemma fill_spec (Nblts Nfreqs Npols : nat) (pol_list : list Z)
    (vis_weights_data : dict (array2 Q)) :
  forall (items : list (string * array2 complex)) (a : arrays),
    NoDup (map fst items) ->
    Forall (fits Nblts Nfreqs pol_list vis_weights_data) items ->
    shaped (Nblts, 1, Nfreqs, Npols) a ->
    exists r,
      fill items pol_list vis_weights_data a = Ok r
      /\ uvw_array r = uvw_array a
      /\ polarization_array r = polarization_array a
      /\ (forall pol v w,
            In (pol, v) items -> get vis_weights_data pol = Some w ->
            exists code pol_i,
              item linear_pol_dict pol = Ok code
              /\ index pol_list code = Ok pol_i
              /\ forall b f,
                   at4 (data_array r) b 0 f pol_i = conj (at2 v b f)
                   /\ at4 (flag_array r) b 0 f pol_i = Qle_bool (at2 w b f) 0
                   /\ at4 (nsample_array r) b 0 f pol_i = Qabs (at2 w b f))
      /\ (forall p,
            (forall pol code, In pol (map fst items) ->
                              item linear_pol_dict pol = Ok code ->
                              index pol_list code <> Ok p) ->
            forall b s f,
              at4 (data_array r) b s f p = at4 (data_array a) b s f p
              /\ at4 (flag_array r) b s f p = at4 (flag_array a) b s f p
              /\ at4 (nsample_array r) b s f p = at4 (nsample_array a) b s f p).
Proof.
  induction items as [|[pol0 v0] rest IH]; intros a Hnd Hfit Hshape.
  - exists a. cbn [fill]. repeat split; try reflexivity.
    intros pol v w [].
  - inversion Hnd as [|? ? Hnotin Hnd']; subst.
    inversion Hfit as [|? ? Hfit0 Hfit']; subst.
    destruct Hfit0 as (Hpol0 & Hcode0 & Hr0 & Hc0 & w0 & Hw0 & Hwr & Hwc).
    cbn [fst snd] in *.
    destruct (linear_pol_code pol0 Hpol0) as [code0 Hitem0].
    destruct (index_spec pol_list code0 (Hcode0 code0 Hitem0)) as (i0 & Hi0 & _).
    destruct Hshape as (Hs1 & Hs2 & Hs3).
    cbn [fill]. rewrite Hitem0. cbn [bind]. rewrite Hi0. cbn [bind].
    rewrite (set_pol_fits (data_array a) i0 (map2 conj v0) Nblts Nfreqs Npols Hs1 Hr0 Hc0).
    cbn [bind]. unfold item at 1 2. rewrite Hw0. cbn [bind].
    rewrite (set_pol_fits (flag_array a) i0 (map2 (fun x => Qle_bool x 0) w0)
               Nblts Nfreqs Npols Hs2 Hwr Hwc).
    cbn [bind].
    rewrite (set_pol_fits (nsample_array a) i0 (map2 Qabs w0)
               Nblts Nfreqs Npols Hs3 Hwr Hwc).
    cbn [bind].
    match goal with
    | |- context [fill rest pol_list vis_weights_data ?a1] =>
        destruct (IH a1 Hnd' Hfit') as (r & Hr & Huvw & Hpa & Hin & Hout);
        [repeat split|]
    end.
    exists r. split; [exact Hr|]. split; [exact Huvw|]. split; [exact Hpa|].
    split.
    + intros pol v w [Hhead | Htail] Hw.
      * injection Hhead as <- <-. rewrite Hw0 in Hw. injection Hw as <-.
        exists code0, i0. split; [exact Hitem0|]. split; [exact Hi0|].
        intros b f.
        destruct (Hout i0) with (b := b) (s := 0) (f := f) as (H1 & H2 & H3).
        { intros pol code Hpol Hcode Hidx.
          apply index_nth in Hidx, Hi0.
          assert (code = code0) by congruence. subst code.
          apply Hnotin.
          now rewrite <- (linear_pol_code_inj _ _ _ Hcode Hitem0). }
        rewrite H1, H2, H3. cbn [data_array flag_array nsample_array at4 at2 map2].
        rewrite !Nat.eqb_refl. cbn [andb]. now repeat split.
      * exact (Hin pol v w Htail Hw).
    + intros p Hp b s f.
      destruct (Hout p) with (b := b) (s := s) (f := f) as (H1 & H2 & H3).
      { intros pol code Hpol. apply Hp. now right. }
      rewrite H1, H2, H3. cbn [data_array flag_array nsample_array at4].
      assert (Hne : (p =? i0) = false).
      { apply Nat.eqb_neq. intros ->.
        apply (Hp pol0 code0); [now left | exact Hitem0 | exact Hi0]. }
      rewrite Hne, andb_false_r. now repeat split.
Qed.

Lemma In_mem {V : Type} (d : dict V) (k : string) (v : V) :
  In (k, v) d -> mem d k = true.
Proof.
  unfold mem. induction d as [|[k' v'] d IH]; intros Hin; [destruct Hin|].
  simpl. destruct (String.eqb k' k) eqn:E; [reflexivity|].
  destruct Hin as [[= -> ->] | Hin]; [rewrite String.eqb_refl in E; discriminate|].
  now apply IH.
Qed.

(** The weights of the flags file: under "flag_arr", or else under
    "vis_weights". *)
Definition flags_weights (flag_file_dict : dict (list (array2 Q)))
  : option (list (array2 Q)) :=
  match get flag_file_dict "flag_arr" with
  | Some ws => Some ws
  | None => get flag_file_dict "vis_weights"
  end.

(** A file set that can be read: the flags file has one array of weights
    for each of the first polarization names of the obs structure, the
    three columns of the params file have one length, and every
    visibility file is of a linear polarization, has weights, and has as
    many rows and columns as the weights, [Nblts] and [Nfreqs]. *)
Definition well_formed (vis_data : dict (array2 complex))
    (flag_file_dict : dict (list (array2 Q))) (fhd_pol_list : list string)
    (UU VV WW : array1 Q) (Nfreqs : nat) (weights : list (array2 Q)) : Prop :=
  flags_weights flag_file_dict = Some weights
  /\ length weights <= length fhd_pol_list
  /\ NoDup fhd_pol_list
  /\ size1 VV = size1 UU /\ size1 WW = size1 UU
  /\ NoDup (keys vis_data)
  /\ forall pol v, In (pol, v) vis_data ->
       In pol lin_pol_order /\ rows v = size1 UU /\ cols v = Nfreqs
       /\ exists i w, nth_error fhd_pol_list i = Some pol
                      /\ nth_error weights i = Some w
                      /\ rows w = size1 UU /\ cols w = Nfreqs.

Lemma weights_of_flags (flag_file_dict : dict (list (array2 Q)))
    (weights : list (array2 Q)) :
  flags_weights flag_file_dict = Some weights ->
  exists key, weights_key flag_file_dict = Ok key
              /\ item flag_file_dict key = Ok weights.
Proof.
  unfold flags_weights, weights_key, item, mem.
  destruct (get flag_file_dict "flag_arr") as [ws|] eqn:E1.
  - intros [= ->]. exists "flag_arr". now rewrite E1.
  - intros E2. exists "vis_weights". now rewrite E2.
Qed.

Lemma set_column_fits (a : array2 Q) (j : nat) (v : array1 Q) :
  size1 v = rows a ->
  set_column a j v
  = Ok (mkArray2 (rows a) (cols a)
          (fun i k => if k =? j then at1 v i else at2 a i k)).
Proof.
  intros H. unfold set_column. rewrite H, Nat.eqb_refl. reflexivity.
Qed.

(** C3: for every file set that can be read with [read_data=True], the
    reader sets the three components of [uvw_array] to minus the UU, VV
    and WW value of the params file times the speed of light in m/s, and
    for each polarization that has a visibility file it sets, in the slot
    of that polarization, [data_array] to the complex conjugate of the
    stored visibility, [flag_array] to [weights <= 0] and [nsample_array]
    to [abs(weights)]. *)
Theorem read_fhd_arrays_sets (vis_data : dict (array2 complex))
    (flag_file_dict : dict (list (array2 Q))) (fhd_pol_list : list string)
    (UU VV WW : array1 Q) (Nfreqs : nat) (weights : list (array2 Q)) :
  well_formed vis_data flag_file_dict fhd_pol_list UU VV WW Nfreqs weights ->
  exists r,
    read_fhd_arrays vis_data flag_file_dict fhd_pol_list UU VV WW Nfreqs = Ok r
    /\ (forall b,
          (at2 (uvw_array r) b 0 == - (at1 UU b * c_m_s))%Q
          /\ (at2 (uvw_array r) b 1 == - (at1 VV b * c_m_s))%Q
          /\ (at2 (uvw_array r) b 2 == - (at1 WW b * c_m_s))%Q)
    /\ (forall pol v i w,
          In (pol, v) vis_data ->
          nth_error fhd_pol_list i = Some pol -> nth_error weights i = Some w ->
          exists code pol_i,
            item linear_pol_dict pol = Ok code
            /\ nth_error (polarization_array r) pol_i = Some code
            /\ forall b f,
                 at4 (data_array r) b 0 f pol_i = conj (at2 v b f)
                 /\ at4 (flag_array r) b 0 f pol_i = Qle_bool (at2 w b f) 0
                 /\ at4 (nsample_array r) b 0 f pol_i = Qabs (at2 w b f)).
Proof.
  intros (Hflags & Hlen & Hnd & HVV & HWW & Hkeys & Hvis).
  destruct (weights_of_flags _ _ Hflags) as (key & Hkey & Hitem).
  destruct (name_weights_spec fhd_pol_list Hnd weights 0 [] Hlen)
    as (vwd & Hvwd & Hnamed & _).
  destruct (present_pols_spec vis_data) as (pol_list & Hpols & Hcodes).
  unfold read_fhd_arrays. rewrite Hkey. cbn [bind]. rewrite Hitem. cbn [bind].
  rewrite Hvwd. cbn [bind].
  rewrite set_column_fits by reflexivity. cbn [bind].
  rewrite set_column_fits by exact HVV. cbn [bind].
  rewrite set_column_fits by exact HWW. cbn [bind].
  rewrite Hpols. cbn [bind].
  match goal with
  | |- context [fill vis_data pol_list vwd ?a0] =>
      destruct (fill_spec (size1 UU) Nfreqs (length (keys vis_data)) pol_list vwd
                  vis_data a0) as (r & Hr & Huvw & Hpa & Hin & _)
  end.
  - exact Hkeys.
  - apply Forall_forall. intros [pol v] Hentry.
    destruct (Hvis pol v Hentry) as (Hpol & Hrows & Hcols & i & w & Hi & Hw & Hwr & Hwc).
    unfold fits. cbn [fst snd]. repeat split; try assumption.
    + intros code Hcode. eapply Hcodes; [exact Hpol | | exact Hcode].
      eapply In_mem. exact Hentry.
    + exists w. repeat split; try assumption. now apply (Hnamed i).
  - repeat split.
  - exists r. split; [exact Hr|]. split.
    + intros b. rewrite Huvw.
      cbn [uvw_array at2 at1 Nat.eqb flip_to_meters map1].
      repeat split; ring.
    + intros pol v i w Hentry Hi Hw.
      destruct (Hin pol v w Hentry (Hnamed i pol w Hi Hw))
        as (code & pol_i & Hcode & Hidx & Hslot).
      exists code, pol_i. split; [exact Hcode|]. split; [|exact Hslot].
      rewrite Hpa. cbn [polarization_array]. now apply index_nth.
Qed.

(** A file set of one visibility file with two baseline-times and one
    channel. *)
Definition sample_vis : array2 complex :=
  mkArray2 2 1 (fun b _ => (inject_Z (Z.of_nat b), 5 # 2)%Q).
Definition sample_weights : array2 Q :=
  mkArray2 2 1 (fun b _ => (inject_Z (Z.of_nat b) - 1)%Q).
Definition sample_column : array1 Q :=
  mkArray1 2 (fun b => (Z.of_nat b # 1000000)%Q).

Lemma sample_well_formed :
  well_formed [("xx", sample_vis)] [("vis_weights", [sample_weights])]
    ["xx"; "yy"] sample_column sample_column sample_column 1 [sample_weights].
Proof.
  unfold well_formed. repeat split.
  - simpl. lia.
  - repeat constructor; simpl; intuition discriminate.
  - repeat constructor; simpl; tauto.
  - destruct H as [[= <- <-] | []]. simpl. tauto.
  - destruct H as [[= <- <-] | []]. reflexivity.
  - destruct H as [[= <- <-] | []]. reflexivity.
  - destruct H as [[= <- <-] | []]. exists 0, sample_weights. now repeat split.
Qed.

Lemma read_fhd_arrays_sets_witness :
  exists r,
    read_fhd_arrays [("xx", sample_vis)] [("vis_weights", [sample_weights])]
      ["xx"; "yy"] sample_column sample_column sample_column 1 = Ok r
    /\ (forall b,
          (at2 (uvw_array r) b 0 == - (at1 sample_column b * c_m_s))%Q
          /\ (at2 (uvw_array r) b 1 == - (at1 sample_column b * c_m_s))%Q
          /\ (at2 (uvw_array r) b 2 == - (at1 sample_column b * c_m_s))%Q)
    /\ (forall pol v i w,
          In (pol, v) [("xx", sample_vis)] ->
          nth_error ["xx"; "yy"] i = Some pol ->
          nth_error [sample_weights] i = Some w ->
          exists code pol_i,
            item linear_pol_dict pol = Ok code
            /\ nth_error (polarization_array r) pol_i = Some code
            /\ forall b f,
                 at4 (data_array r) b 0 f pol_i = conj (at2 v b f)
                 /\ at4 (flag_array r) b 0 f pol_i = Qle_bool (at2 w b f) 0
                 /\ at4 (nsample_array r) b 0 f pol_i = Qabs (at2 w b f)).
Proof.
  apply (read_fhd_arrays_sets [("xx", sample_vis)]
           [("vis_weights", [sample_weights])] ["xx"; "yy"]
           sample_column sample_column sample_column 1 [sample_weights]).
  exact sample_well_formed.
Defined.

End ArraysFacts.

(** ** Baseline numbers *)

Module BaselineFacts.
Import Baseline.
Local Open Scope Z_scope.

Lemma decode_extended (ant1 ant2 N : Z) :
  0 <= ant1 -> 0 <= ant2 < 2048 ->
  baseline_to_antnums (2048 * ant1 + ant2 + 2 ^ 16 + 1) N = (ant1, ant2).
Proof.
  intros H1 H2. unfold baseline_to_antnums.
  assert (E : (2 ^ 16 <? 2048 * ant1 + ant2 + 2 ^ 16 + 1) = true)
    by (apply Z.ltb_lt; lia).
  rewrite E.
  replace (2048 * ant1 + ant2 + 2 ^ 16 + 1 - 2 ^ 16 - 1) with (ant2 + ant1 * 2048)
    by ring.
  rewrite Z.div_add, Z.mod_add by lia.
  rewrite Z.div_small, Z.mod_small by lia. reflexivity.
Qed.

Lemma decode_legacy (ant1 ant2 N : Z) :
  0 <= ant1 <= 255 -> 0 <= ant2 <= 255 ->
  baseline_to_antnums (256 * ant1 + ant2) N = (ant1, ant2).
Proof.
  intros H1 H2. unfold baseline_to_antnums.
  assert (E : (2 ^ 16 <? 256 * ant1 + ant2) = false).
  { apply Z.ltb_ge. change (2 ^ 16) with 65536. lia. }
  rewrite E.
  replace (256 * ant1 + ant2) with (ant2 + ant1 * 256) by ring.
  rewrite Z.div_add, Z.mod_add by lia.
  rewrite Z.div_small, Z.mod_small by lia. reflexivity.
Qed.

(** C2: for antenna numbers between 0 and 300 decoding the encoding gives
    the antenna numbers back, in the extended scheme (any antenna count)
    as well as when the legacy scheme is asked for; the encoding is
    [256*ant1 + ant2] when [attempt256] is requested and both numbers are
    at most 255, and [2048*ant1 + ant2 + 2**16 + 1] otherwise; a legacy
    value lies below the threshold [2**16] and an extended value above
    it, which is how decoding selects the scheme. *)
Theorem baseline_round_trip (ant1 ant2 N : Z) (attempt256 : bool) :
  0 <= ant1 <= 300 -> 0 <= ant2 <= 300 ->
  baseline_to_antnums (antnums_to_baseline ant1 ant2 N attempt256) N = (ant1, ant2)
  /\ antnums_to_baseline ant1 ant2 N false = 2048 * ant1 + ant2 + 2 ^ 16 + 1
  /\ (ant1 <= 255 -> ant2 <= 255 ->
      antnums_to_baseline ant1 ant2 N true = 256 * ant1 + ant2
      /\ 256 * ant1 + ant2 < 2 ^ 16)
  /\ (255 < ant1 \/ 255 < ant2 ->
      antnums_to_baseline ant1 ant2 N true = 2048 * ant1 + ant2 + 2 ^ 16 + 1)
  /\ 2 ^ 16 < 2048 * ant1 + ant2 + 2 ^ 16 + 1.
Proof.
  intros H1 H2. split; [|split; [|split; [|split]]].
  - unfold antnums_to_baseline.
    destruct (attempt256 && (ant1 <=? 255) && (ant2 <=? 255)) eqn:E.
    + apply andb_true_iff in E. destruct E as [E E2].
      apply andb_true_iff in E. destruct E as [_ E1].
      apply Z.leb_le in E1, E2. apply decode_legacy; lia.
    + apply decode_extended; lia.
  - reflexivity.
  - intros L1 L2. unfold antnums_to_baseline.
    apply Z.leb_le in L1 as E1. apply Z.leb_le in L2 as E2.
    rewrite E1, E2. cbn [andb]. split; [reflexivity|].
    change (2 ^ 16) with 65536. lia.
  - intros L. unfold antnums_to_baseline.
    assert (E : (ant1 <=? 255) && (ant2 <=? 255) = false).
    { apply andb_false_iff. destruct L as [L | L]; [left | right];
        apply Z.leb_gt; exact L. }
    cbn [andb]. now rewrite E.
  - lia.
Qed.

Lemma baseline_round_trip_witness :
  baseline_to_antnums (antnums_to_baseline 3 300 10 true) 10 = (3, 300)
  /\ antnums_to_baseline 3 300 10 false = 2048 * 3 + 300 + 2 ^ 16 + 1
  /\ (3 <= 255 -> 300 <= 255 ->
      antnums_to_baseline 3 300 10 true = 256 * 3 + 300
      /\ 256 * 3 + 300 < 2 ^ 16)
  /\ (255 < 3 \/ 255 < 300 ->
      antnums_to_baseline 3 300 10 true = 2048 * 3 + 300 + 2 ^ 16 + 1)
  /\ 2 ^ 16 < 2048 * 3 + 300 + 2 ^ 16 + 1.
Proof.
  apply (baseline_round_trip 3 300 10 true); lia.
Defined.

End BaselineFacts.

(** ** Rectangular baseline-time axes *)

Module InitializersFacts.
Import Initializers.

Section Detection.

Variables T B : Type.
Variable T_eq_dec : forall x y : T, {x = y} + {x <> y}.
Variable B_eq_dec : forall x y : B, {x = y} + {x <> y}.

Lemma in_blocks {A : Type} (l : list A) (n : nat) (x : A) :
  1 <= n -> In x (flat_map (fun t => repeat t n) l) <-> In x l.
Proof.
  intros Hn. rewrite in_flat_map. split.
  - intros (t & Ht & Hx). apply repeat_spec in Hx. now subst.
  - intros Hx. exists x. split; [exact Hx|].
    destruct n; [lia | now left].
Qed.

Lemma in_tiles {A : Type} (l : list A) (n : nat) (x : A) :
  1 <= n -> In x (concat (repeat l n)) <-> In x l.
Proof.
  intros Hn. rewrite in_concat. split.
  - intros (l0 & Hl0 & Hx). apply repeat_spec in Hl0. now subst.
  - intros Hx. exists l. split; [|exact Hx].
    destruct n; [lia | now left].
Qed.

Lemma nodup_repeat_app {A : Type} (dec : forall x y : A, {x = y} + {x <> y})
    (x : A) (m : list A) (k : nat) :
  ~ In x m -> nodup dec (repeat x (S k) ++ m) = x :: nodup dec m.
Proof.
  intros Hx. induction k as [|k IH].
  - cbn [repeat app nodup]. destruct (in_dec dec x m); [contradiction | reflexivity].
  - change (repeat x (S (S k)) ++ m) with (x :: (repeat x (S k) ++ m)).
    cbn [nodup]. destruct (in_dec dec x (repeat x (S k) ++ m)) as [_ | Hn];
      [exact IH|].
    exfalso. apply Hn. now left.
Qed.

Lemma nodup_app_in {A : Type} (dec : forall x y : A, {x = y} + {x <> y})
    (a m : list A) :
  (forall x, In x a -> In x m) -> nodup dec (a ++ m) = nodup dec m.
Proof.
  induction a as [|x a IH]; intros H; [reflexivity|].
  cbn [app nodup]. destruct (in_dec dec x (a ++ m)) as [_ | Hn].
  - apply IH. intros y Hy. apply H. now right.
  - exfalso. apply Hn. apply in_or_app. right. apply H. now left.
Qed.

(** The distinct values of blocks, and of tiles, of a list without
    repeats are that list, in its order. *)
Lemma nodup_blocks {A : Type} (dec : forall x y : A, {x = y} + {x <> y})
    (l : list A) (n : nat) :
  NoDup l -> 1 <= n -> nodup dec (flat_map (fun t => repeat t n) l) = l.
Proof.
  intros Hnd Hn. induction Hnd as [|x l Hx Hnd IH]; [reflexivity|].
  cbn [flat_map]. destruct n as [|k]; [lia|].
  rewrite nodup_repeat_app; [now rewrite IH|].
  intros Hin. apply Hx. now apply (in_blocks l (S k) x Hn).
Qed.

Lemma nodup_tiles {A : Type} (dec : forall x y : A, {x = y} + {x <> y})
    (l : list A) (n : nat) :
  NoDup l -> 1 <= n -> nodup dec (concat (repeat l n)) = l.
Proof.
  intros Hnd Hn. destruct n as [|k]; [lia|]. clear Hn.
  induction k as [|k IH].
  - cbn [repeat concat]. rewrite app_nil_r. now apply nodup_fixed_point.
  - change (concat (repeat l (S (S k)))) with (l ++ concat (repeat l (S k))).
    rewrite nodup_app_in; [exact IH|].
    intros x Hx. apply in_tiles; [lia | exact Hx].
Qed.

Lemma constant_repeat {A : Type} (dec : forall x y : A, {x = y} + {x <> y})
    (x : A) (n : nat) :
  constant dec (repeat x n) = true.
Proof.
  destruct n as [|n]; [reflexivity|]. cbn [repeat constant].
  induction n as [|n IH]; [reflexivity|]. cbn [repeat forallb].
  destruct (dec x x) as [_|Hne]; [exact IH | contradiction].
Qed.

(** The first block of a list of blocks is constant. *)
Lemma first_block_constant {A : Type} (dec : forall x y : A, {x = y} + {x <> y})
    (l : list A) (n : nat) :
  constant dec (firstn n (flat_map (fun t => repeat t n) l)) = true.
Proof.
  destruct l as [|x l]; cbn [flat_map].
  - now rewrite firstn_nil.
  - rewrite firstn_app, repeat_length, Nat.sub_diag, firstn_O, app_nil_r.
    rewrite <- (repeat_length x n) at 1. rewrite firstn_all.
    apply constant_repeat.
Qed.

(** The first entries of a tiling of two or more distinct values are not
    constant. *)
Lemma first_tile_varies {A : Type} (dec : forall x y : A, {x = y} + {x <> y})
    (l : list A) (n : nat) :
  NoDup l -> 2 <= length l -> 2 <= n ->
  constant dec (firstn n (concat (repeat l n))) = false.
Proof.
  intros Hnd Hl Hn.
  destruct l as [|x [|y l]]; cbn [length] in Hl; try lia.
  destruct n as [|[|n]]; try lia.
  cbn [repeat concat app firstn constant forallb].
  destruct (dec x y) as [Heq|_]; [|reflexivity].
  subst y. inversion Hnd as [|? ? Hnot _]. exfalso. apply Hnot. now left.
Qed.

(** A grid of distinct times and distinct baselines is the grid of its
    own distinct values. *)
Lemma is_grid_grid (unique_times : list T) (unique_baselines : list B)
    (axis : bool) :
  NoDup unique_times -> NoDup unique_baselines ->
  1 <= length unique_times -> 1 <= length unique_baselines ->
  let g := grid T B unique_times unique_baselines axis in
  nodup T_eq_dec (fst g) = unique_times
  /\ nodup B_eq_dec (snd g) = unique_baselines
  /\ is_grid T B T_eq_dec B_eq_dec (fst g) (snd g) axis = true.
Proof.
  intros Hnt Hnb Ht Hb. cbv zeta.
  assert (Hu : nodup T_eq_dec (fst (grid T B unique_times unique_baselines axis))
               = unique_times
               /\ nodup B_eq_dec (snd (grid T B unique_times unique_baselines axis))
                  = unique_baselines).
  { unfold grid. destruct axis; cbn [fst snd]; split;
      (now apply nodup_tiles) || (now apply nodup_blocks). }
  destruct Hu as [Hut Hub]. split; [exact Hut|]. split; [exact Hub|].
  unfold is_grid. cbv zeta. rewrite Hut, Hub.
  destruct (list_eq_dec T_eq_dec _ _) as [_|Hne]; [|now elim Hne].
  destruct (list_eq_dec B_eq_dec _ _) as [_|Hne]; [reflexivity | now elim Hne].
Qed.

(** Arrays that pass the test are a grid of lists without repeats. *)
Lemma is_grid_sound (times : list T) (bls : list B) (axis : bool) :
  is_grid T B T_eq_dec B_eq_dec times bls axis = true ->
  grid T B (nodup T_eq_dec times) (nodup B_eq_dec bls) axis = (times, bls).
Proof.
  unfold is_grid. cbv zeta. intros H. apply andb_true_iff in H.
  destruct H as [H1 H2].
  destruct (list_eq_dec T_eq_dec _ _) as [E1|]; [|discriminate].
  destruct (list_eq_dec B_eq_dec _ _) as [E2|]; [|discriminate].
  etransitivity; [apply surjective_pairing|]. now rewrite E1, E2.
Qed.

(** C9 (as amended): given full arrays and no overrides, an ordering in
    which the baseline varies fastest within each block of constant time
    is detected as rectangular with [time_axis_faster_than_bls] false;
    for two or more times and two or more baselines the transposed
    ordering is detected as rectangular with the flag true; and an
    ordering that is not a block ordering, that is, not the grid of any
    times and baselines without repeats in either ordering, is detected
    as not rectangular. *)
Theorem configure_blt_rectangularity_detects
    (unique_times : list T) (unique_baselines : list B) :
  NoDup unique_times -> NoDup unique_baselines ->
  1 <= length unique_times -> 1 <= length unique_baselines ->
  (forall times bls,
      grid T B unique_times unique_baselines false = (times, bls) ->
      configure_blt_rectangularity T B T_eq_dec B_eq_dec
        (Some times) None (Some bls) None None None
      = Ok (length unique_baselines, length unique_times, true, false, times, bls))
  /\ (forall times bls,
        2 <= length unique_times -> 2 <= length unique_baselines ->
        grid T B unique_times unique_baselines true = (times, bls) ->
        configure_blt_rectangularity T B T_eq_dec B_eq_dec
          (Some times) None (Some bls) None None None
        = Ok (length unique_baselines, length unique_times, true, true, times, bls))
  /\ (forall times bls,
        (forall ut ub axis, NoDup ut -> NoDup ub ->
                            grid T B ut ub axis <> (times, bls)) ->
        configure_blt_rectangularity T B T_eq_dec B_eq_dec
          (Some times) None (Some bls) None None None
        = Ok (length (nodup B_eq_dec bls), length (nodup T_eq_dec times),
              false, false, times, bls)).
Proof.
  intros Hnt Hnb Ht Hb. split; [|split].
  - intros times bls Hgrid.
    destruct (is_grid_grid unique_times unique_baselines false Hnt Hnb Ht Hb)
      as (Hut & Hub & Hg).
    rewrite Hgrid in Hut, Hub, Hg. cbn [fst snd] in Hut, Hub, Hg.
    cbn [configure_blt_rectangularity]. rewrite Hut, Hub.
    unfold detect. rewrite Hg.
    injection Hgrid as <- _. now rewrite first_block_constant.
  - intros times bls Ht2 Hb2 Hgrid.
    destruct (is_grid_grid unique_times unique_baselines true Hnt Hnb Ht Hb)
      as (Hut & Hub & Hg).
    rewrite Hgrid in Hut, Hub, Hg. cbn [fst snd] in Hut, Hub, Hg.
    cbn [configure_blt_rectangularity]. rewrite Hut, Hub.
    unfold detect. rewrite Hg.
    injection Hgrid as <- <-.
    rewrite (first_tile_varies T_eq_dec unique_times) by assumption.
    now rewrite first_block_constant.
  - intros times bls Hnot.
    assert (Hg : forall axis, is_grid T B T_eq_dec B_eq_dec times bls axis = false).
    { intros axis.
      destruct (is_grid T B T_eq_dec B_eq_dec times bls axis) eqn:E; [|reflexivity].
      apply is_grid_sound in E. exfalso.
      apply (Hnot _ _ axis (NoDup_nodup T_eq_dec times) (NoDup_nodup B_eq_dec bls)).
      exact E. }
    cbn [configure_blt_rectangularity]. unfold detect. rewrite !Hg.
    destruct (constant T_eq_dec _); [reflexivity|].
    destruct (constant B_eq_dec _); reflexivity.
Qed.

End Detection.

Lemma configure_blt_rectangularity_detects_witness :
  (forall times bls,
      grid Z Z [10; 20; 30]%Z [1; 2]%Z false = (times, bls) ->
      configure_blt_rectangularity Z Z Z.eq_dec Z.eq_dec
        (Some times) None (Some bls) None None None
      = Ok (2, 3, true, false, times, bls))
  /\ (forall times bls,
        2 <= 3 -> 2 <= 2 ->
        grid Z Z [10; 20; 30]%Z [1; 2]%Z true = (times, bls) ->
        configure_blt_rectangularity Z Z Z.eq_dec Z.eq_dec
          (Some times) None (Some bls) None None None
        = Ok (2, 3, true, true, times, bls))
  /\ (forall times bls,
        (forall ut ub axis, NoDup ut -> NoDup ub ->
                            grid Z Z ut ub axis <> (times, bls)) ->
        configure_blt_rectangularity Z Z Z.eq_dec Z.eq_dec
          (Some times) None (Some bls) None None None
        = Ok (length (nodup Z.eq_dec bls), length (nodup Z.eq_dec times),
              false, false, times, bls)).
Proof.
  apply (configure_blt_rectangularity_detects Z Z Z.eq_dec Z.eq_dec
           [10; 20; 30]%Z [1; 2]%Z).
  - repeat constructor; simpl; intuition discriminate.
  - repeat constructor; simpl; intuition discriminate.
  - simpl. lia.
  - simpl. lia.
Defined.

(** C9 (as stated) fails: with a single time the ordering in which time
    varies fastest within each block of constant baseline is the ordering
    in which the baseline varies fastest, and it is detected with
    [time_axis_faster_than_bls] false, not true. *)
Lemma configure_blt_rectangularity_single_time :
  grid Z Z [10]%Z [1; 2]%Z true = ([10; 10]%Z, [1; 2]%Z)
  /\ grid Z Z [10]%Z [1; 2]%Z false = ([10; 10]%Z, [1; 2]%Z)
  /\ configure_blt_rectangularity Z Z Z.eq_dec Z.eq_dec
       (Some [10; 10]%Z) None (Some [1; 2]%Z) None None None
     = Ok (2, 1, true, false, [10; 10]%Z, [1; 2]%Z).
Proof. repeat split. Qed.

(** Shuffled orderings of two times and three baselines, and of three
    times and two baselines whose first block has one time. *)
Example configure_blt_rectangularity_shuffled :
  configure_blt_rectangularity Z Z Z.eq_dec Z.eq_dec
    (Some [10; 20; 10; 20; 20; 10]%Z) None (Some [1; 2; 2; 1; 3; 3]%Z) None
    None None
  = Ok (3, 2, false, false, [10; 20; 10; 20; 20; 10]%Z, [1; 2; 2; 1; 3; 3]%Z)
  /\ configure_blt_rectangularity Z Z Z.eq_dec Z.eq_dec
       (Some [10; 10; 20; 30; 20; 30]%Z) None (Some [1; 2; 1; 1; 2; 2]%Z) None
       None None
     = Ok (2, 3, false, false, [10; 10; 20; 30; 20; 30]%Z, [1; 2; 1; 1; 2; 2]%Z).
Proof. split; reflexivity. Qed.

End InitializersFacts.

(** ** Applying gains *)

Module CalibrateFacts.
Import Calibrate.
Local Open Scope Q_scope.

Lemma norm2_nonzero (g : gain) :
  Qeq_bool (norm2 g) 0 = false <-> ~ (fst g == 0 /\ snd g == 0).
Proof.
  unfold norm2. split.
  - intros H [H1 H2]. apply Qeq_bool_neq in H. apply H.
    rewrite H1, H2. ring.
  - intros H. destruct (Qeq_bool (fst g * fst g + snd g * snd g) 0) eqn:E;
      [|reflexivity].
    apply Qeq_bool_eq in E. exfalso. apply H. split; nra.
Qed.

(** Dividing by a nonzero gain and multiplying by it cancel, in either
    order. *)
Lemma vmul_vdiv (v : vis) (g : gain) :
  Qeq_bool (norm2 g) 0 = false -> veq (vmul (vdiv v g) g) v.
Proof.
  intros H. destruct v as [a b|]; cbn [vdiv]; [|exact I].
  rewrite H. cbn [vmul veq].
  apply Qeq_bool_neq in H. unfold norm2 in *. split; field; exact H.
Qed.

Lemma vdiv_vmul (v : vis) (g : gain) :
  Qeq_bool (norm2 g) 0 = false -> veq (vdiv (vmul v g) g) v.
Proof.
  intros H. destruct v as [a b|]; cbn [vmul vdiv]; [|exact I].
  rewrite H. cbn [veq].
  apply Qeq_bool_neq in H. unfold norm2 in *. split; field; exact H.
Qed.

Lemma veq_refl (v : vis) : veq v v.
Proof. destruct v; cbn [veq]; [split; reflexivity | exact I]. Qed.

(** The operation of a convention on a visibility and a gain product,
    and the operation that undoes it. *)
Definition apply_product (gc : convention) (undo : bool) (v : vis) (g : gain) : vis :=
  match gc, undo with
  | divide, false | multiply, true => vdiv v g
  | divide, true | multiply, false => vmul v g
  end.

Lemma apply_product_undo (gc : convention) (v : vis) (g : gain) :
  Qeq_bool (norm2 g) 0 = false ->
  veq (apply_product gc true (apply_product gc false v g) g) v.
Proof.
  intros H. destruct gc; cbn [apply_product];
    [now apply vmul_vdiv | now apply vdiv_vmul].
Qed.

Section Undo.

Variable negligible : gain -> bool.

(** One visibility after [uvcalibrate], for a baseline-time whose
    antennas the UVCal object has. *)
Lemma calibrated_found (uvdata : UVData) (uvcal : UVCal)
    (prop_flags flag_missing undo : bool) (blt f : nat) (a1 a2 : Z) (i1 i2 : nat) :
  nth_error (ant_1_array uvdata) blt = Some a1 ->
  nth_error (ant_2_array uvdata) blt = Some a2 ->
  ant_index (ant_array uvcal) a1 = Some i1 ->
  ant_index (ant_array uvcal) a2 = Some i2 ->
  calibrated negligible uvdata uvcal prop_flags flag_missing undo blt f
  = let g := gmul (gain_array uvcal i1 f) (gconj (gain_array uvcal i2 f)) in
    if prop_flags
       && (negligible g || cal_flag_array uvcal i1 f || cal_flag_array uvcal i2 f)
    then (data_array uvdata blt f, true)
    else (apply_product (gain_convention uvcal) undo (data_array uvdata blt f) g,
          flag_array uvdata blt f).
Proof.
  intros H1 H2 H3 H4. unfold calibrated, calibrate. rewrite H1, H2, H3, H4.
  cbv zeta. destruct (_ && _); [reflexivity|].
  destruct (gain_convention uvcal), undo; reflexivity.
Qed.

Hypothesis negligible_zero : forall g, norm2 g == 0 -> negligible g = true.

(** C1 (as amended): with ["divide"] [uvcalibrate] divides a visibility by
    [gain(ant1) * conj(gain(ant2))] and with ["multiply"] it multiplies it
    by the same product, leaving its flag, unless [prop_flags] is set and
    a gain of the two antennas is flagged or the product is zero: the
    visibility is then left as it is and flagged.  Under both
    conventions, applying [uvcalibrate] and then applying it again with
    [undo=True] and the same [prop_flags] gives the visibility back, in
    exact arithmetic, whenever [prop_flags] is set (the default) or the
    product is not zero. *)
Theorem uvcalibrate_undo (uvdata : UVData) (uvcal : UVCal)
    (prop_flags flag_missing : bool) (blt f : nat) (a1 a2 : Z) (i1 i2 : nat) :
  nth_error (ant_1_array uvdata) blt = Some a1 ->
  nth_error (ant_2_array uvdata) blt = Some a2 ->
  ant_index (ant_array uvcal) a1 = Some i1 ->
  ant_index (ant_array uvcal) a2 = Some i2 ->
  let v := data_array uvdata blt f in
  let g := gmul (gain_array uvcal i1 f) (gconj (gain_array uvcal i2 f)) in
  let masked :=
    negligible g || cal_flag_array uvcal i1 f || cal_flag_array uvcal i2 f in
  let once := uvcalibrate negligible uvdata uvcal prop_flags flag_missing false in
  (prop_flags && masked = false ->
   data_array once blt f
   = match gain_convention uvcal with
     | divide => vdiv v g
     | multiply => vmul v g
     end
   /\ flag_array once blt f = flag_array uvdata blt f)
  /\ (prop_flags && masked = true ->
      data_array once blt f = v /\ flag_array once blt f = true)
  /\ (prop_flags = true \/ ~ (fst g == 0 /\ snd g == 0) ->
      veq (data_array
             (uvcalibrate negligible once uvcal prop_flags flag_missing true) blt f)
        v).
Proof.
  intros H1 H2 H3 H4. cbv zeta.
  set (g := gmul (gain_array uvcal i1 f) (gconj (gain_array uvcal i2 f))).
  set (masked := negligible g || cal_flag_array uvcal i1 f
                 || cal_flag_array uvcal i2 f).
  pose proof (calibrated_found uvdata uvcal prop_flags flag_missing false
                blt f a1 a2 i1 i2 H1 H2 H3 H4) as Hone.
  cbv zeta in Hone. fold g in Hone. fold masked in Hone.
  pose proof (calibrated_found
                (uvcalibrate negligible uvdata uvcal prop_flags flag_missing false)
                uvcal prop_flags flag_missing true blt f a1 a2 i1 i2 H1 H2 H3 H4)
    as Htwo.
  cbv zeta in Htwo. fold g in Htwo. fold masked in Htwo.
  cbn [uvcalibrate data_array flag_array] in *.
  split; [|split].
  - intros Hm. rewrite Hone, Hm. cbn [fst snd]. split; [|reflexivity].
    destruct (gain_convention uvcal); reflexivity.
  - intros Hm. rewrite Hone, Hm. split; reflexivity.
  - intros Hcase. rewrite Htwo, Hone.
    destruct (prop_flags && masked) eqn:Hm; cbn [fst snd]; [apply veq_refl|].
    apply apply_product_undo.
    destruct (Qeq_bool (norm2 g) 0) eqn:Ez; [|reflexivity].
    apply Qeq_bool_eq in Ez. destruct Hcase as [-> | Hnz].
    + cbn [andb] in Hm. unfold masked in Hm.
      rewrite (negligible_zero g Ez) in Hm. discriminate.
    + apply norm2_nonzero in Hnz. apply Qeq_bool_iff in Ez. congruence.
Qed.

End Undo.

(** The data of [test_uvcalibrate_flag_propagation] in small: baselines
    (1, 13) and (0, 12) with two channels; every gain of antenna 0 is
    flagged and every gain of antenna 1 is zero. *)
Definition sample_uvdata : UVData :=
  mkUVData [1; 0]%Z [13; 12]%Z
    (fun blt f => if (blt =? 0)%nat then Fin 3 4 else Fin (1 # 2) (Z.of_nat f # 1))
    (fun _ _ => false).
Definition sample_uvcal (gc : convention) : UVCal :=
  mkUVCal gc [0; 1; 12; 13]%Z
    (fun i f => match i with
                | 0%nat => (2, 0)
                | 1%nat => (0, 0)
                | 2%nat => (1, 1)
                | _ => (0, 3)
                end)
    (fun i _ => (i =? 0)%nat).
(** Gains that are neither flagged nor zero. *)
Definition plain_uvcal (gc : convention) : UVCal :=
  mkUVCal gc [0; 1; 12; 13]%Z
    (fun i f => match i with
                | 0%nat => (2, 0)
                | 1%nat => (2, 1)
                | 2%nat => (1, 1)
                | _ => (0, 3)
                end)
    (fun _ _ => false).

Lemma is_zero_zero (g : gain) : norm2 g == 0 -> is_zero g = true.
Proof. intros H. unfold is_zero. now apply Qeq_bool_iff. Qed.

Lemma uvcalibrate_undo_witness :
  let v := data_array sample_uvdata 0 1 in
  let g := gmul (gain_array (plain_uvcal divide) 1 1)
             (gconj (gain_array (plain_uvcal divide) 3 1)) in
  let masked :=
    is_zero g || cal_flag_array (plain_uvcal divide) 1 1
    || cal_flag_array (plain_uvcal divide) 3 1 in
  let once := uvcalibrate is_zero sample_uvdata (plain_uvcal divide) true false false in
  (true && masked = false ->
   data_array once 0 1
   = match gain_convention (plain_uvcal divide) with
     | divide => vdiv v g
     | multiply => vmul v g
     end
   /\ flag_array once 0 1 = flag_array sample_uvdata 0 1)
  /\ (true && masked = true ->
      data_array once 0 1 = v /\ flag_array once 0 1 = true)
  /\ (true = true \/ ~ (fst g == 0 /\ snd g == 0) ->
      veq (data_array
             (uvcalibrate is_zero once (plain_uvcal divide) true false true) 0 1)
        v).
Proof.
  apply (uvcalibrate_undo is_zero is_zero_zero sample_uvdata (plain_uvcal divide)
           true false 0 1 1%Z 13%Z 1 3); reflexivity.
Defined.

(** C1 (as stated) fails under the default [prop_flags=True]: a
    visibility whose gain is flagged (baseline (0, 12)) is not divided by
    the gain product, nor multiplied by it under "multiply", but left as
    it is and flagged; so is one whose gain is zero (baseline (1, 13)),
    where the quotient would not be finite. *)
Lemma uvcalibrate_flagged_gain :
  let g := gmul (2, 0) (gconj (1, 1)) in
  let once gc := uvcalibrate is_zero sample_uvdata (sample_uvcal gc) true false false in
  data_array sample_uvdata 1 0 = Fin (1 # 2) 0
  /\ cal_flag_array (sample_uvcal divide) 0 0 = true
  /\ gmul (gain_array (sample_uvcal divide) 0 0)
       (gconj (gain_array (sample_uvcal divide) 2 0)) = g
  /\ data_array (once divide) 1 0 = Fin (1 # 2) 0
  /\ flag_array (once divide) 1 0 = true
  /\ ~ veq (data_array (once divide) 1 0) (vdiv (Fin (1 # 2) 0) g)
  /\ data_array (once multiply) 1 0 = Fin (1 # 2) 0
  /\ ~ veq (data_array (once multiply) 1 0) (vmul (Fin (1 # 2) 0) g)
  /\ data_array (once divide) 0 0 = Fin 3 4
  /\ flag_array (once divide) 0 0 = true
  /\ vdiv (Fin 3 4) (gmul (0, 0) (gconj (0, 3))) = NonFinite.
Proof.
  cbv zeta. repeat split; try reflexivity.
  - intros [H _]. vm_compute in H. discriminate.
  - intros [H _]. vm_compute in H. discriminate.
Qed.

End CalibrateFacts.

(** ** Applying flags *)

Module FlaggingFacts.
Import Flagging.

(** Row [j] of the UVFlag has baseline [bl] and, unless the UVFlag has a
    single time, time [t]. *)
Definition row_matches (uvf : UVFlag) (single_time : bool) (bl : Z) (t : Q)
    (j : nat) : Prop :=
  nth_error (uvf_baseline_array uvf) j = Some bl
  /\ exists t', nth_error (uvf_time_array uvf) j = Some t'
                /\ (single_time = true \/ Qeq t' t).

(** Row [j] is the first such row. *)
Definition first_match (uvf : UVFlag) (single_time : bool) (bl : Z) (t : Q)
    (j : nat) : Prop :=
  row_matches uvf single_time bl t j
  /\ forall j', j' < j -> ~ row_matches uvf single_time bl t j'.

(** The lookup finds the first row that matches. *)
Lemma find_blt_first (single_time : bool) (bl : Z) (t : Q) :
  forall (bls : list Z) (times : list Q) (j k : nat),
    nth_error bls j = Some bl ->
    (exists t', nth_error times j = Some t' /\ (single_time = true \/ Qeq t' t)) ->
    (forall j', j' < j ->
       ~ (nth_error bls j' = Some bl
          /\ exists t', nth_error times j' = Some t'
                        /\ (single_time = true \/ Qeq t' t))) ->
    find_blt single_time bls times bl t k = Some (k + j).
Proof.
  induction bls as [|b bls IH]; intros times j k Hb Ht Hfirst.
  - destruct j; discriminate.
  - destruct times as [|t0 times].
    + destruct Ht as (t' & Ht & _). destruct j; discriminate.
    + cbn [find_blt]. destruct j as [|j].
      * cbn [nth_error] in Hb, Ht. injection Hb as ->.
        destruct Ht as (t' & [= ->] & Ht).
        rewrite Z.eqb_refl. cbn [andb].
        assert (E : single_time || Qeq_bool t' t = true).
        { destruct Ht as [-> | Ht]; [reflexivity|].
          apply Qeq_bool_iff in Ht. rewrite Ht. apply orb_true_r. }
        rewrite E. f_equal. lia.
      * destruct (Z.eqb b bl && (single_time || Qeq_bool t0 t)) eqn:E.
        -- exfalso. apply (Hfirst 0); [lia|].
           apply andb_true_iff in E. destruct E as [Eb Et].
           apply Z.eqb_eq in Eb. subst b. split; [reflexivity|].
           exists t0. split; [reflexivity|].
           apply orb_true_iff in Et. destruct Et as [Et | Et]; [now left|].
           right. now apply Qeq_bool_iff.
        -- replace (k + S j) with (S k + j) by lia.
           apply IH; [exact Hb | exact Ht |].
           intros j' Hj'. apply (Hfirst (S j')). lia.
Qed.

Lemma find_blt_first_match (uvf : UVFlag) (single_time : bool) (bl : Z) (t : Q)
    (j : nat) :
  first_match uvf single_time bl t j ->
  existsb (Z.eqb bl) (uvf_baseline_array uvf) = true
  /\ find_blt single_time (uvf_baseline_array uvf) (uvf_time_array uvf) bl t 0
     = Some j.
Proof.
  intros [[Hb Ht] Hfirst]. split.
  - apply existsb_exists. exists bl. split; [|apply Z.eqb_refl].
    eapply nth_error_In. exact Hb.
  - apply (find_blt_first single_time bl t _ _ j 0 Hb Ht).
    intros j' Hj' H. now apply (Hfirst j' Hj').
Qed.

Definition frequency_message : string :=
  "UVFlag and UVData have mismatched frequency arrays".
Definition time_message : string :=
  "UVFlag and UVData have mismatched time arrays".

(** The flags that an entry has before the UVFlag is ORed onto it. *)
Definition before (uvd : UVData) (unflag_first : bool) (i f p : nat) : bool :=
  if unflag_first then false else flag_array uvd i f p.

(** The checks other than the one on frequencies (times) pass. *)
Definition times_fit (uvd : UVData) (uvf : UVFlag) : Prop :=
  Ntimes uvf = 1 \/ same_values (uvf_time_array uvf) (time_array uvd) = true.
Definition freqs_fit (uvd : UVData) (uvf : UVFlag) : Prop :=
  Nfreqs uvf = 1 \/ array_equal (uvf_freq_array uvf) (freq_array uvd) = true.
Definition pols_fit (uvd : UVData) (uvf : UVFlag) (force_pol : bool) : Prop :=
  uvf_polarization_array uvf = polarization_array uvd \/ force_pol = true.

(** The polarization of the UVFlag that polarization [p] of the UVData
    takes its flags from. *)
Definition pol_of (uvd : UVData) (uvf : UVFlag) (p : nat) : nat :=
  if list_eqb (uvf_polarization_array uvf) (polarization_array uvd) then p else 0.

Lemma apply_uvflag_ok (uvd : UVData) (uvf : UVFlag)
    (unflag_first flag_missing force_pol : bool) :
  mode uvf = flag -> freqs_fit uvd uvf -> times_fit uvd uvf ->
  pols_fit uvd uvf force_pol ->
  apply_uvflag uvd uvf unflag_first flag_missing force_pol
  = Ok (mkUVData (baseline_array uvd) (time_array uvd) (freq_array uvd)
          (polarization_array uvd)
          (fun i f p =>
             before uvd unflag_first i f p
             || mask uvd uvf flag_missing
                  (list_eqb (uvf_polarization_array uvf) (polarization_array uvd))
                  i f p)).
Proof.
  intros Hmode Hf Ht Hp. unfold apply_uvflag. rewrite Hmode.
  assert (Ef : negb (Nfreqs uvf =? 1)
               && negb (array_equal (uvf_freq_array uvf) (freq_array uvd)) = false).
  { destruct Hf as [H|H]; [apply Nat.eqb_eq in H|]; rewrite H;
      [reflexivity | apply andb_false_r]. }
  assert (Et : negb (Ntimes uvf =? 1)
               && negb (same_values (uvf_time_array uvf) (time_array uvd)) = false).
  { destruct Ht as [H|H]; [apply Nat.eqb_eq in H|]; rewrite H;
      [reflexivity | apply andb_false_r]. }
  assert (Ep : negb (list_eqb (uvf_polarization_array uvf) (polarization_array uvd))
               && negb force_pol = false).
  { destruct Hp as [H|H]; rewrite H; [|apply andb_false_r].
    unfold list_eqb.
    destruct (list_eq_dec Z.eq_dec (polarization_array uvd) (polarization_array uvd));
      [reflexivity | contradiction]. }
  rewrite Ef, Et, Ep. reflexivity.
Qed.


(** Two baselines at two times and three channels, nothing flagged, and
    a UVFlag cut down to its first channel that flags baseline 9 at the
    first time. *)
Definition sample_uvd : UVData :=
  mkUVData [9; 20; 9; 20]%Z [1; 1; 2; 2]%Q [100; 101; 102]%Q [(-5)%Z]
    (fun _ _ _ => false).
Definition sample_uvf : UVFlag :=
  mkUVFlag flag [9; 20; 9; 20]%Z [1; 1; 2; 2]%Q [100]%Q [(-5)%Z]
    (fun j f p => (j =? 0) && (f =? 0)).

Example apply_uvflag_first_channel :
  first_match sample_uvf (Ntimes sample_uvf =? 1) 9 1 0
  /\ exists r, apply_uvflag sample_uvd sample_uvf false true true = Ok r
               /\ forallb (fun f => flag_array r 0 f 0) [0; 1; 2] = true
               /\ flag_array r 1 0 0 = false /\ flag_array r 2 0 0 = false.
Proof.
  split.
  - split.
    + split; [reflexivity|]. exists 1%Q. split; [reflexivity|]. right. reflexivity.
    + intros j' Hj'. lia.
  - eexists. split; [reflexivity|]. repeat split.
Qed.

(** A UVFlag cut down to the first time that flags baseline 9: every time
    of baseline 9 is flagged, no time of baseline 20 is. *)
Definition first_time_uvf : UVFlag :=
  mkUVFlag flag [9; 20]%Z [1; 1]%Q [100; 101; 102]%Q [(-5)%Z]
    (fun j f p => j =? 0).

Example apply_uvflag_first_time :
  first_match first_time_uvf true 9 2 0
  /\ exists r, apply_uvflag sample_uvd first_time_uvf false true true = Ok r
               /\ forallb (fun i => forallb (fun f => flag_array r i f 0) [0; 1; 2])
                    [0; 2] = true
               /\ existsb (fun i => existsb (fun f => flag_array r i f 0) [0; 1; 2])
                    [1; 3] = false.
Proof.
  split.
  - split.
    + split; [reflexivity|]. exists 1%Q. split; [reflexivity|]. now left.
    + intros j' Hj'. lia.
  - eexists. split; [reflexivity|]. repeat split.
Qed.

(** A UVFlag from which baseline 20 was deselected, as in
    [test_apply_uvflag]: it is applied without an error, and baseline 20
    is flagged under [flag_missing] and left alone without it. *)
Definition missing_uvf : UVFlag :=
  mkUVFlag flag [9; 9]%Z [1; 2]%Q [100; 101; 102]%Q [(-5)%Z]
    (fun j f p => j =? 0).

Example apply_uvflag_missing_baseline :
  (exists r, apply_uvflag sample_uvd missing_uvf false true true = Ok r
             /\ flag_array r 0 1 0 = true /\ flag_array r 2 1 0 = false
             /\ flag_array r 1 1 0 = true /\ flag_array r 3 1 0 = true)
  /\ (exists r, apply_uvflag sample_uvd missing_uvf false false true = Ok r
                /\ flag_array r 0 1 0 = true
                /\ flag_array r 1 1 0 = false /\ flag_array r 3 1 0 = false).
Proof.
  split; eexists; (split; [reflexivity|]); repeat split.
Qed.

End FlaggingFacts.

(** ** More on the history of a settings file *)

Module HistoryMore.
Import PyStr History HistoryFacts.

(** Once the break is taken inside [head], what follows is not visited. *)
Lemma scan_app (head rest : list string) :
  forall (i : nat) (m : locs),
    all_located m = false ->
    all_located (scan i head m) = true ->
    scan i (head ++ rest) m = scan i head m.
Proof.
  induction head as [|line head IH]; intros i m Hm Hall.
  - simpl in Hall. congruence.
  - cbn [app scan] in *.
    destruct (all_located (visit i line m)) eqn:E; [reflexivity|].
    now apply IH.
Qed.

Lemma located_in_range (lines : list string) (k : marker) (j : nat) :
  loc_of k (scan 0 lines no_locs) = Some j -> j < length lines.
Proof.
  intros H. destruct (located_marker lines k j H) as (l & Hn & _).
  apply nth_error_Some. congruence.
Qed.

Lemma slice_app {A : Type} (a b : nat) (l1 l2 : list A) :
  b <= length l1 -> slice a (Some b) (l1 ++ l2) = slice a (Some b) l1.
Proof.
  intros Hb. unfold slice. rewrite skipn_app, firstn_app.
  rewrite length_skipn.
  replace (b - a - (length l1 - a)) with 0 by lia.
  now rewrite firstn_O, app_nil_r.
Qed.

(** X1: the function reads no further than the line at which the last of
    the four markers is found: lines after a part of the file that has
    all four markers change neither what is returned nor what is
    raised. *)
Theorem get_fhd_history_ignores_rest (head rest : list string)
    (return_user : bool) :
  (forall k, has_marker head k) ->
  get_fhd_history (head ++ rest) return_user = get_fhd_history head return_user.
Proof.
  intros Hall.
  destruct (has_marker_located head MAIN (Hall MAIN)) as [im Him].
  destruct (has_marker_located head COMMAND_LINE (Hall COMMAND_LINE)) as [ic Hic].
  destruct (has_marker_located head OBS (Hall OBS)) as [io Hio].
  destruct (has_marker_located head User (Hall User)) as [iu Hiu].
  pose proof (located_in_range head COMMAND_LINE ic Hic) as Lc.
  pose proof (located_in_range head OBS io Hio) as Lo.
  pose proof (located_in_range head User iu Hiu) as Lu.
  pose proof (scan_record head im ic io iu Him Hic Hio Hiu) as Hscan.
  assert (Hsame : scan 0 (head ++ rest) no_locs = scan 0 head no_locs).
  { apply scan_app; [reflexivity | now rewrite Hscan]. }
  unfold get_fhd_history. rewrite Hsame, Hscan.
  cbn [main_loc command_loc obs_loc user_line succ_loc bind].
  rewrite !slice_app by lia.
  now rewrite nth_error_app1 by exact Lu.
Qed.

Lemma get_fhd_history_ignores_rest_witness :
  get_fhd_history (sample_file ++ ["User"; "##MAIN"]) true
  = get_fhd_history sample_file true.
Proof.
  apply (get_fhd_history_ignores_rest sample_file ["User"; "##MAIN"] true).
  exact sample_file_markers.
Defined.

(** A scan that does not end with all four locations took no break: it
    holds the last line of each marker. *)
Lemma scan_last (k : marker) (lines : list string) :
  forall (i : nat) (m : locs) (j : nat),
    all_located (scan i lines m) = false ->
    loc_of k (scan i lines m) = Some j ->
    forall d line, j < i + d -> nth_error lines d = Some line ->
                   startswith line (tag k) = false.
Proof.
  induction lines as [|line0 rest IH]; intros i m j Hnot Hloc d line Hd Hn.
  - destruct d; discriminate.
  - cbn [scan] in Hnot, Hloc.
    destruct (all_located (visit i line0 m)) eqn:E; [congruence|].
    destruct d as [|d].
    + injection Hn as <-.
      destruct (startswith line0 (tag k)) eqn:Es; [|reflexivity].
      exfalso. apply scan_sound in Hloc.
      rewrite visit_loc, Es in Hloc.
      destruct Hloc as [[= <-] | [Hle _]]; lia.
    + apply (IH (S i) (visit i line0 m) j Hnot Hloc d line); [lia | exact Hn].
Qed.

(** X2: a settings file with no line beginning "##OBS" raises nothing:
    the history then holds the lines between the last "##MAIN" and the
    last "##COMMAND_LINE" line and every line after the last
    "##COMMAND_LINE" line, to the end of the file. *)
Theorem get_fhd_history_without_obs (lines : list string) :
  has_marker lines MAIN -> has_marker lines COMMAND_LINE ->
  has_marker lines User ->
  (forall line, In line lines -> startswith line "##OBS" = false) ->
  (forall line, In line lines -> startswith line "User" = true ->
                2 <= length (split line)) ->
  exists im ic,
    marker_at lines MAIN im /\ marker_at lines COMMAND_LINE ic
    /\ (forall j, im < j -> ~ marker_at lines MAIN j)
    /\ (forall j, ic < j -> ~ marker_at lines COMMAND_LINE j)
    /\ get_fhd_history lines false
       = Ok (History
               (join newline
                  ("FHD history"
                   :: map tidy (between im ic lines ++ skipn (S ic) lines)))).
Proof.
  intros Hm Hc Hu Hno Husers.
  destruct (has_marker_located lines MAIN Hm) as [im Him].
  destruct (has_marker_located lines COMMAND_LINE Hc) as [ic Hic].
  destruct (has_marker_located lines User Hu) as [iu Hiu].
  assert (Ho : obs_loc (scan 0 lines no_locs) = None)
    by (exact (scan_absent OBS lines Hno 0 no_locs)).
  assert (Hnot : all_located (scan 0 lines no_locs) = false).
  { unfold all_located. rewrite Ho. cbn [is_set].
    now rewrite andb_false_r. }
  destruct (located_marker lines User iu Hiu) as (uline & Hnth & Hstart).
  assert (Hin : In uline lines) by (eapply nth_error_In; exact Hnth).
  pose proof (Husers uline Hin Hstart) as Hlen.
  destruct (nth_error (split uline) 1) as [user|] eqn:Huser.
  2:{ apply nth_error_None in Huser. lia. }
  exists im, ic.
  split; [now apply located_marker|]. split; [now apply located_marker|].
  split; [|split].
  - intros j Hj (l & Hl & Hs).
    rewrite (scan_last MAIN lines 0 no_locs im Hnot Him j l) in Hs;
      [discriminate | lia | exact Hl].
  - intros j Hj (l & Hl & Hs).
    rewrite (scan_last COMMAND_LINE lines 0 no_locs ic Hnot Hic j l) in Hs;
      [discriminate | lia | exact Hl].
  - unfold get_fhd_history. simpl in Him, Hic, Hiu.
    rewrite Him, Hic, Ho, Hiu. cbn [succ_loc bind].
    rewrite Hnth. cbn [bind]. rewrite Huser. cbn [bind].
    rewrite slice_between. cbn [slice map]. do 3 f_equal.
    f_equal; try reflexivity. apply map_ext. intros l. apply clean_tidy.
Qed.

(** A settings file that ends without an "##OBS" section. *)
Definition file_without_obs : list string :=
  ["##MAIN"; "version 3"; "User  ann"; "##COMMAND_LINE"; "fhd" ++ String tab "go";
   "last line  "]%string.

Lemma get_fhd_history_without_obs_witness :
  exists im ic,
    marker_at file_without_obs MAIN im /\ marker_at file_without_obs COMMAND_LINE ic
    /\ (forall j, im < j -> ~ marker_at file_without_obs MAIN j)
    /\ (forall j, ic < j -> ~ marker_at file_without_obs COMMAND_LINE j)
    /\ get_fhd_history file_without_obs false
       = Ok (History
               (join newline
                  ("FHD history"
                   :: map tidy (between im ic file_without_obs
                                ++ skipn (S ic) file_without_obs)))).
Proof.
  apply (get_fhd_history_without_obs file_without_obs).
  - exists "##MAIN". split; [simpl; tauto | reflexivity].
  - exists "##COMMAND_LINE". split; [simpl; tauto | reflexivity].
  - exists "User  ann". split; [simpl; tauto | reflexivity].
  - unfold file_without_obs. simpl.
    intros line [<- | [<- | [<- | [<- | [<- | [<- | []]]]]]]; reflexivity.
  - unfold file_without_obs. simpl.
    intros line [<- | [<- | [<- | [<- | [<- | [<- | []]]]]]];
      vm_compute; intros H; try discriminate H. lia.
Defined.

(** X3: a settings file with no line beginning "##MAIN", or with no line
    beginning "##COMMAND_LINE", raises [TypeError] ([None + 1]), whatever
    else the file holds and whether or not the user is asked for. *)
Theorem get_fhd_history_needs_sections (lines : list string)
    (return_user : bool) :
  (forall line, In line lines -> startswith line "##MAIN" = false)
  \/ (forall line, In line lines -> startswith line "##COMMAND_LINE" = false) ->
  get_fhd_history lines return_user = Raise TypeError.
Proof.
  intros [Hno | Hno]; unfold get_fhd_history.
  - pose proof (scan_absent MAIN lines Hno 0 no_locs) as H. simpl in H.
    now rewrite H.
  - pose proof (scan_absent COMMAND_LINE lines Hno 0 no_locs) as H. simpl in H.
    rewrite H. now destruct (main_loc (scan 0 lines no_locs)).
Qed.

Lemma get_fhd_history_needs_sections_witness :
  get_fhd_history ["##MAIN"; "User bob"; "##OBS"] true = Raise TypeError.
Proof.
  apply (get_fhd_history_needs_sections ["##MAIN"; "User bob"; "##OBS"] true).
  right. simpl. intros line [<- | [<- | [<- | []]]]; reflexivity.
Defined.

(** Characters of an appended string. *)
Lemma chars_append (s t : string) :
  list_ascii_of_string (s ++ t)
  = list_ascii_of_string s ++ list_ascii_of_string t.
Proof.
  induction s as [|c s IH]; simpl; [reflexivity | now rewrite IH].
Qed.

Lemma join_chars (P : ascii -> Prop) (sep : string) (l : list string) :
  Forall P (list_ascii_of_string sep) ->
  Forall (fun s => Forall P (list_ascii_of_string s)) l ->
  Forall P (list_ascii_of_string (join sep l)).
Proof.
  intros Hsep Hl. unfold join.
  induction Hl as [|s l Hs Hl IH]; [constructor|].
  destruct l as [|s' l]; [exact Hs|].
  change (String.concat sep (s :: s' :: l))
    with (s ++ sep ++ String.concat sep (s' :: l))%string.
  rewrite !chars_append. apply Forall_app. split; [exact Hs|].
  apply Forall_app. split; [exact Hsep | exact IH].
Qed.

Lemma startswith_append (p s : string) : startswith (p ++ s) p = true.
Proof.
  unfold startswith. induction p as [|c p IH]; simpl.
  - now destruct s.
  - destruct (ascii_dec c c); [exact IH | contradiction].
Qed.

Lemma startswith_join (sep p : string) (l : list string) :
  startswith (join sep (p :: l)) p = true.
Proof.
  unfold join. destruct l as [|s l].
  - simpl. rewrite <- (startswith_append p "") at 1.
    f_equal. induction p as [|c p IH]; simpl; [reflexivity | now rewrite <- IH].
  - change (String.concat sep (p :: s :: l))
      with (p ++ (sep ++ String.concat sep (s :: l)))%string.
    apply startswith_append.
Qed.

(** The words that [split] gives are not empty and hold no whitespace. *)
Definition word (w : string) : Prop :=
  w <> "" /\ Forall (fun c => isspace c = false) (list_ascii_of_string w).

Lemma split_from_words (s : string) :
  forall cur, match cur with Some w => word w | None => True end ->
              Forall word (split_from cur s).
Proof.
  induction s as [|c s IH]; intros cur Hcur; cbn [split_from].
  - destruct cur; [now constructor | constructor].
  - destruct (isspace c) eqn:E.
    + destruct cur; [constructor; [exact Hcur|] |]; now apply IH.
    + destruct cur as [w|]; apply IH.
      * destruct Hcur as [Hne Hall]. split.
        -- destruct w; discriminate.
        -- rewrite chars_append. apply Forall_app. split; [exact Hall|].
           now repeat constructor.
      * split; [discriminate | now repeat constructor].
Qed.

(** What a result holds. *)
Definition history_text (r : returned) : string :=
  match r with History h => h | HistoryUser h _ => h end.

(** X4: whenever the function returns, the history begins with
    "FHD history" and holds no tab character, and the user that is
    returned with it is one word: not empty and without whitespace. *)
Theorem get_fhd_history_text (lines : list string) (return_user : bool)
    (r : returned) :
  get_fhd_history lines return_user = Ok r ->
  startswith (history_text r) "FHD history" = true
  /\ ~ In tab (list_ascii_of_string (history_text r))
  /\ (forall h user, r = HistoryUser h user -> word user).
Proof.
  unfold get_fhd_history. intros H.
  apply LayoutFacts.bind_ok in H. destruct H as (main1 & _ & H).
  apply LayoutFacts.bind_ok in H. destruct H as (command1 & _ & H).
  apply LayoutFacts.bind_ok in H. destruct H as (uline & _ & H).
  apply LayoutFacts.bind_ok in H. destruct H as (user & Huser & H).
  match type of H with
  | context [join newline (map clean (?hd :: ?body))] =>
      set (parts := body) in H;
      assert (Hstart : startswith (join newline (map clean (hd :: parts)))
                         "FHD history" = true)
        by (cbn [map]; apply (startswith_join newline "FHD history"));
      assert (Htab : ~ In tab (list_ascii_of_string
                                 (join newline (map clean (hd :: parts)))))
  end.
  { assert (Hall : Forall (fun c => c <> tab)
                     (list_ascii_of_string
                        (join newline
                           (map clean (("FHD history" ++ newline)%string :: parts))))).
    { apply join_chars.
      - repeat constructor. discriminate.
      - apply Forall_forall. intros s Hs. apply in_map_iff in Hs.
        destruct Hs as (l & <- & _). apply Forall_forall.
        intros c Hc Heq. subst c. exact (replace_tab_no_tab _ Hc). }
    intros Hin. exact (proj1 (Forall_forall _ _) Hall tab Hin eq_refl). }
  assert (Hword : word user).
  { destruct (nth_error (split uline) 1) as [u|] eqn:E; [|discriminate].
    injection Huser as <-.
    apply nth_error_In in E.
    exact (proj1 (Forall_forall _ _) (split_from_words uline None I) u E). }
  destruct return_user; injection H as <-; cbn [history_text];
    (split; [exact Hstart | split; [exact Htab|]]);
    intros h u Heq; [injection Heq as _ <-; exact Hword | discriminate].
Qed.

Lemma get_fhd_history_text_witness :
  startswith
    (history_text (HistoryUser (history_of sample_file 1 4 6) "bob"))
    "FHD history" = true
  /\ ~ In tab (list_ascii_of_string
                 (history_text (HistoryUser (history_of sample_file 1 4 6) "bob")))
  /\ (forall h user,
        HistoryUser (history_of sample_file 1 4 6) "bob" = HistoryUser h user ->
        word user).
Proof.
  apply (get_fhd_history_text sample_file true). reflexivity.
Defined.

End HistoryMore.

(** ** More on sorting the file list *)

Module FilesMore.
Import PyStr PyDict Files DictFacts FilesFacts.

(** The variable, or the entry of [datafiles], that keeps the file of a
    role. *)
Definition slot_of (st : found) (r : role) : option string :=
  match r with
  | Vis_xx => get (datafiles st) "xx"
  | Vis_yy => get (datafiles st) "yy"
  | Vis_xy => get (datafiles st) "xy"
  | Vis_yx => get (datafiles st) "yx"
  | Params => params_file st
  | Obs => obs_file st
  | Flags => flags_file st
  | Layout => layout_file st
  | Settings => settings_file st
  end.

(** Every file that is kept comes from [filelist] and has the role it is
    kept for. *)
Definition kept_from (use_model : bool) (filelist : list string) (st : found) : Prop :=
  forall r f, slot_of st r = Some f ->
              In f filelist /\ has_role use_model r f = true.

Lemma filled_slot (st : found) (r : role) :
  filled st r = match slot_of st r with Some _ => true | None => false end.
Proof.
  destruct r; cbn [filled slot_of]; unfold mem; try reflexivity;
    match goal with |- context [is_none ?o] => destruct o; reflexivity end.
Qed.

Lemma sort_file_kept (use_model : bool) (filelist : list string)
    (file : string) (st st' : found) :
  kept_from use_model filelist st -> In file filelist ->
  sort_file use_model file st = Ok st' ->
  kept_from use_model filelist st'.
Proof.
  intros Hkept Hin. unfold sort_file.
  assert (Hdata : forall pol r,
             endswith (lower file) (suffix use_model r) = true ->
             (forall f, slot_of st r = Some f -> get (datafiles st) pol = Some f) ->
             (forall st1 r1 f1, datafiles st1 = set (datafiles st) pol file ->
                params_file st1 = params_file st -> obs_file st1 = obs_file st ->
                flags_file st1 = flags_file st -> layout_file st1 = layout_file st ->
                settings_file st1 = settings_file st ->
                slot_of st1 r1 = Some f1 ->
                (r1 = r /\ f1 = file) \/ slot_of st r1 = Some f1) ->
             take_data pol file st = Ok st' -> kept_from use_model filelist st').
  { intros pol r Hrole _ Hcase Htake. unfold take_data in Htake.
    destruct (existsb (String.eqb pol) (keys (datafiles st))); [discriminate|].
    injection Htake as <-. intros r1 f1 Hslot.
    match type of Hslot with
    | slot_of ?s _ = _ =>
        destruct (Hcase s r1 f1 eq_refl eq_refl eq_refl eq_refl eq_refl eq_refl Hslot)
          as [[-> ->] | Hold]
    end.
    - split; [exact Hin | exact Hrole].
    - now apply Hkept. }
  assert (Hfile : forall what slot put r,
             endswith (lower file) (suffix use_model r) = true ->
             (forall r1 f1, slot_of (put file st) r1 = Some f1 ->
                            (r1 = r /\ f1 = file) \/ slot_of st r1 = Some f1) ->
             take_file what slot put file st = Ok st' ->
             kept_from use_model filelist st').
  { intros what slot put r Hrole Hcase Htake. unfold take_file in Htake.
    destruct (slot st); [discriminate|]. injection Htake as <-.
    intros r1 f1 Hslot.
    destruct (Hcase r1 f1 Hslot) as [[-> ->] | Hold].
    - split; [exact Hin | exact Hrole].
    - now apply Hkept. }
  assert (Hset : forall pol pol' f1,
             get (set (datafiles st) pol file) pol' = Some f1 ->
             (pol = pol' /\ f1 = file) \/ get (datafiles st) pol' = Some f1).
  { intros pol pol' f1. rewrite get_set.
    destruct (String.eqb pol pol') eqn:E; [|now right].
    apply String.eqb_eq in E. intros [= <-]. now left. }
  destruct (endswith (lower file) (data_name use_model ++ "xx.sav")) eqn:E1.
  { apply (Hdata "xx" Vis_xx E1); [now intros f|].
    intros st1 r1 f1 Hd Hp Ho Hf Hl Hs.
    destruct r1; cbn [slot_of]; rewrite ?Hd, ?Hp, ?Ho, ?Hf, ?Hl, ?Hs;
      intros H; try (now right);
      apply Hset in H; destruct H as [[H ->] | H];
      try discriminate H; auto. }
  destruct (endswith (lower file) (data_name use_model ++ "yy.sav")) eqn:E2.
  { apply (Hdata "yy" Vis_yy E2); [now intros f|].
    intros st1 r1 f1 Hd Hp Ho Hf Hl Hs.
    destruct r1; cbn [slot_of]; rewrite ?Hd, ?Hp, ?Ho, ?Hf, ?Hl, ?Hs;
      intros H; try (now right);
      apply Hset in H; destruct H as [[H ->] | H];
      try discriminate H; auto. }
  destruct (endswith (lower file) (data_name use_model ++ "xy.sav")) eqn:E3.
  { apply (Hdata "xy" Vis_xy E3); [now intros f|].
    intros st1 r1 f1 Hd Hp Ho Hf Hl Hs.
    destruct r1; cbn [slot_of]; rewrite ?Hd, ?Hp, ?Ho, ?Hf, ?Hl, ?Hs;
      intros H; try (now right);
      apply Hset in H; destruct H as [[H ->] | H];
      try discriminate H; auto. }
  destruct (endswith (lower file) (data_name use_model ++ "yx.sav")) eqn:E4.
  { apply (Hdata "yx" Vis_yx E4); [now intros f|].
    intros st1 r1 f1 Hd Hp Ho Hf Hl Hs.
    destruct r1; cbn [slot_of]; rewrite ?Hd, ?Hp, ?Ho, ?Hf, ?Hl, ?Hs;
      intros H; try (now right);
      apply Hset in H; destruct H as [[H ->] | H];
      try discriminate H; auto. }
  destruct (endswith (lower file) "_params.sav") eqn:E5.
  { apply (Hfile _ _ _ Params E5).
    intros [] f1; cbn [slot_of put_params datafiles params_file obs_file
      flags_file layout_file settings_file]; intros H; try (now right).
    injection H as <-. now left. }
  destruct (endswith (lower file) "_obs.sav") eqn:E6.
  { apply (Hfile _ _ _ Obs E6).
    intros [] f1; cbn [slot_of put_obs datafiles params_file obs_file
      flags_file layout_file settings_file]; intros H; try (now right).
    injection H as <-. now left. }
  destruct (endswith (lower file) "_flags.sav") eqn:E7.
  { apply (Hfile _ _ _ Flags E7).
    intros [] f1; cbn [slot_of put_flags datafiles params_file obs_file
      flags_file layout_file settings_file]; intros H; try (now right).
    injection H as <-. now left. }
  destruct (endswith (lower file) "_layout.sav") eqn:E8.
  { apply (Hfile _ _ _ Layout E8).
    intros [] f1; cbn [slot_of put_layout datafiles params_file obs_file
      flags_file layout_file settings_file]; intros H; try (now right).
    injection H as <-. now left. }
  destruct (endswith (lower file) "_settings.txt") eqn:E9.
  { apply (Hfile _ _ _ Settings E9).
    intros [] f1; cbn [slot_of put_settings datafiles params_file obs_file
      flags_file layout_file settings_file]; intros H; try (now right).
    injection H as <-. now left. }
  intros [= <-]. exact Hkept.
Qed.

Lemma sort_files_kept (use_model : bool) (filelist : list string) :
  forall (files : list string) (st st' : found),
    incl files filelist -> kept_from use_model filelist st ->
    sort_files use_model files st = Ok st' ->
    kept_from use_model filelist st'.
Proof.
  induction files as [|file rest IH]; intros st st' Hincl Hkept H.
  - injection H as <-. exact Hkept.
  - cbn [sort_files] in H.
    destruct (sort_file use_model file st) as [st1|e] eqn:E; [|discriminate].
    cbn [bind] in H. apply (IH st1 st'); [|eapply sort_file_kept; eauto|exact H].
    + intros x Hx. apply Hincl. now right.
    + apply Hincl. now left.
Qed.

(** X5: when the file-list part of [read_fhd] ends without an error, each
    variable ([params_file], [obs_file], ...) and each entry of
    [datafiles] that is set holds a file of [filelist], in its own
    spelling, whose lower-case name ends with the suffix of that role,
    and it is the only file of the list with that role; one that is not
    set means the list has no file of that role. *)
Theorem read_fhd_files_keeps (filelist : list string) (use_model read_data : bool)
    (st : found) (warnings : list string) :
  read_fhd_files filelist use_model read_data = Ok (st, warnings) ->
  forall r,
    match slot_of st r with
    | Some f => In f filelist /\ has_role use_model r f = true
                /\ count_role use_model r filelist = 1
    | None => count_role use_model r filelist = 0
    end.
Proof.
  unfold read_fhd_files. intros H r.
  destruct (sort_files use_model filelist none_found) as [st0|e] eqn:Hsort;
    [|discriminate].
  cbn [bind] in H.
  destruct (check_found read_data st0) as [ws|e]; [|discriminate].
  cbn [bind] in H. injection H as <- <-.
  pose proof (sort_files_spec use_model filelist none_found vis_keys_none) as Hspec.
  rewrite Hsort in Hspec. destruct Hspec as [_ Hspec].
  destruct (Hspec r) as [Hle Hfill].
  replace (filled none_found r) with false in * by (destruct r; reflexivity).
  cbn [one_if orb] in Hle, Hfill. rewrite filled_slot in Hfill.
  assert (Hkept : kept_from use_model filelist st0).
  { apply (sort_files_kept use_model filelist filelist none_found st0);
      [apply incl_refl | | exact Hsort].
    intros r0 f0. destruct r0; discriminate. }
  destruct (slot_of st0 r) as [f|] eqn:Hslot.
  - destruct (Hkept r f Hslot) as [Hin Hrole]. repeat split; try assumption.
    symmetry in Hfill. apply Nat.ltb_lt in Hfill. simpl in Hle. lia.
  - symmetry in Hfill. now apply zero_count in Hfill.
Qed.

Lemma read_fhd_files_keeps_witness :
  (In "a_params.sav" ["A_vis_XX.sav"; "a_params.sav"; "notes.txt"; "a_flags.sav"]
   /\ has_role false Params "a_params.sav" = true
   /\ count_role false Params
        ["A_vis_XX.sav"; "a_params.sav"; "notes.txt"; "a_flags.sav"] = 1)
  /\ count_role false Obs
       ["A_vis_XX.sav"; "a_params.sav"; "notes.txt"; "a_flags.sav"] = 0.
Proof.
  split.
  - exact (read_fhd_files_keeps
             ["A_vis_XX.sav"; "a_params.sav"; "notes.txt"; "a_flags.sav"]
             false true
             (mkFound [("xx", "A_vis_XX.sav")] (Some "a_params.sav") None
                (Some "a_flags.sav") None None)
             [no_layout_warning; no_settings_warning] eq_refl Params).
  - exact (read_fhd_files_keeps
             ["A_vis_XX.sav"; "a_params.sav"; "notes.txt"; "a_flags.sav"]
             false true
             (mkFound [("xx", "A_vis_XX.sav")] (Some "a_params.sav") None
                (Some "a_flags.sav") None None)
             [no_layout_warning; no_settings_warning] eq_refl Obs).
Defined.

Definition is_vis (r : role) : bool :=
  match r with
  | Vis_xx | Vis_yy | Vis_xy | Vis_yx => true
  | _ => false
  end.

(** A visibility file of one kind (dirty or model) has no role when the
    other kind is asked for. *)
Lemma other_kind_unrecognized (use_model : bool) (r : role) (file : string) :
  is_vis r = true -> has_role use_model r file = true ->
  recognized (negb use_model) file = false.
Proof.
  intros Hvis Hrole. unfold recognized.
  destruct (existsb (fun r' => has_role (negb use_model) r' file) roles) eqn:E;
    [|reflexivity].
  apply existsb_exists in E. destruct E as (r' & _ & Hr'). exfalso.
  unfold has_role in Hrole, Hr'.
  destruct use_model, r; try discriminate Hvis; destruct r';
    (eapply endswith_apart; [ | | exact Hrole | exact Hr']; vm_compute; reflexivity).
Qed.

(** X6: dirty and model visibilities are never mixed: a file that is a
    visibility file for one value of [use_model] is ignored when the
    reader is called with the other value. *)
Theorem read_fhd_files_other_kind (use_model read_data : bool) (r : role)
    (file : string) (before after : list string) :
  is_vis r = true -> has_role use_model r file = true ->
  read_fhd_files (before ++ file :: after) (negb use_model) read_data
  = read_fhd_files (before ++ after) (negb use_model) read_data.
Proof.
  intros Hvis Hrole. unfold read_fhd_files.
  rewrite (sort_files_unrecognized (negb use_model) file before after);
    [reflexivity|].
  eapply other_kind_unrecognized; eassumption.
Qed.

Lemma read_fhd_files_other_kind_witness :
  read_fhd_files (["a_vis_xx.sav"] ++ "a_vis_model_xx.sav" :: ["a_params.sav"])
    (negb true) true
  = read_fhd_files (["a_vis_xx.sav"] ++ ["a_params.sav"]) (negb true) true.
Proof.
  apply (read_fhd_files_other_kind true true Vis_xx "a_vis_model_xx.sav"
           ["a_vis_xx.sav"] ["a_params.sav"]); reflexivity.
Defined.

End FilesMore.

(** ** More on the telescope location *)

Module LocationMore.
Import PyStr Location.
Local Open Scope Q_scope.

(** Two numbers within the absolute tolerance of each other are close,
    whatever the (non-negative) relative tolerance. *)
Lemma isclose_within (a b rtol atol : Q) :
  0 <= rtol -> Qabs (a - b) <= atol -> Np.isclose a b rtol atol = true.
Proof.
  intros Hr Ha. unfold Np.isclose. apply Qle_bool_iff.
  assert (H : 0 <= rtol * Qabs b).
  { apply Qmult_le_0_compat; [exact Hr | apply Qabs_nonneg]. }
  apply Qle_trans with (y := atol); [exact Ha|].
  rewrite <- (Qplus_0_r atol) at 1. apply Qplus_le_r. exact H.
Qed.

(** Each coordinate of [v] is within [tol] of that of [w]. *)
Definition within (tol : Q) (v w : vec3) : Prop :=
  let '(x, y, z) := v in
  let '(x', y', z') := w in
  Qabs (x - x') <= tol /\ Qabs (y - y') <= tol /\ Qabs (z - z') <= tol.

Lemma xyz_close_within (loc_tols : Q * Q) (v w : vec3) :
  0 <= fst loc_tols -> within (snd loc_tols) v w ->
  _xyz_close loc_tols v w = true.
Proof.
  destruct v as [[x y] z], w as [[x' y'] z']. intros Hr (H1 & H2 & H3).
  unfold _xyz_close. cbn [coords Np.allclose].
  now rewrite !isclose_within.
Qed.


(** A conversion that refuses a position under [check_acceptability]. *)
Definition sample_conversion (xyz : vec3) (check_acceptability : bool)
  : result vec3 :=
  if check_acceptability
  then Raise (ValueError "xyz values should be ECEF x, y, z coordinates in meters")
  else Ok xyz.


End LocationMore.

(** ** More on the data arrays *)

Module ArraysMore.
Import PyStr PyDict Arrays DictFacts ArraysFacts.

(** The code of a polarization name. *)
Definition pol_code (pol : string) : Z :=
  match get linear_pol_dict pol with Some c => c | None => 0%Z end.

(** The polarizations that have a visibility file, in the fixed order. *)
Definition present (vis_data : dict (array2 complex)) : list string :=
  filter (mem vis_data) lin_pol_order.

Lemma present_pols_filter (vis_data : dict (array2 complex)) :
  present_pols lin_pol_order vis_data = Ok (map pol_code (present vis_data)).
Proof.
  unfold present, lin_pol_order. cbn [present_pols filter].
  destruct (mem vis_data "xx"), (mem vis_data "yy"), (mem vis_data "xy"),
    (mem vis_data "yx"); reflexivity.
Qed.

Lemma present_codes_nodup (vis_data : dict (array2 complex)) :
  NoDup (map pol_code (present vis_data)).
Proof.
  unfold present, lin_pol_order. cbn [filter].
  destruct (mem vis_data "xx"), (mem vis_data "yy"), (mem vis_data "xy"),
    (mem vis_data "yx"); cbn;
    repeat constructor; simpl; intuition discriminate.
Qed.

Lemma mem_In_keys {V : Type} (d : dict V) (k : string) :
  mem d k = true <-> In k (keys d).
Proof.
  rewrite <- mem_keys. rewrite existsb_exists. split.
  - intros (x & Hx & E). apply String.eqb_eq in E. now subst.
  - intros H. exists k. split; [exact H | apply String.eqb_refl].
Qed.

(** As many polarizations are present as [vis_data] has keys. *)
Lemma present_length (vis_data : dict (array2 complex)) :
  NoDup (keys vis_data) -> incl (keys vis_data) lin_pol_order ->
  length (present vis_data) = length (keys vis_data).
Proof.
  intros Hnd Hincl. apply Permutation_length.
  apply NoDup_Permutation; [| exact Hnd |].
  - apply NoDup_filter. repeat constructor; simpl; intuition discriminate.
  - intros pol. unfold present. rewrite filter_In, mem_In_keys. split.
    + tauto.
    + intros H. split; [now apply Hincl | exact H].
Qed.

Lemma set_pol_shape {A : Type} (a a' : array4 A) (pol_i : nat) (v : array2 A) :
  set_pol a pol_i v = Ok a' -> shape4 a' = shape4 a.
Proof.
  unfold set_pol. destruct (shape4 a) as [[[n0 n1] n2] n3] eqn:E.
  destruct (_ && _); [|discriminate]. intros [= <-]. reflexivity.
Qed.

(** The loop over the visibility files changes neither [uvw_array] nor
    [polarization_array] nor the shape of an array. *)
Lemma fill_keeps (pol_list : list Z) (vis_weights_data : dict (array2 Q)) :
  forall (items : list (string * array2 complex)) (a r : arrays),
    fill items pol_list vis_weights_data a = Ok r ->
    uvw_array r = uvw_array a
    /\ polarization_array r = polarization_array a
    /\ shape4 (data_array r) = shape4 (data_array a)
    /\ shape4 (flag_array r) = shape4 (flag_array a)
    /\ shape4 (nsample_array r) = shape4 (nsample_array a).
Proof.
  induction items as [|[pol v] rest IH]; intros a r H.
  - injection H as <-. now repeat split.
  - cbn [fill] in H.
    apply LayoutFacts.bind_ok in H. destruct H as (code & _ & H).
    apply LayoutFacts.bind_ok in H. destruct H as (pol_i & _ & H).
    apply LayoutFacts.bind_ok in H. destruct H as (data & Hdata & H).
    apply LayoutFacts.bind_ok in H. destruct H as (w & _ & H).
    apply LayoutFacts.bind_ok in H. destruct H as (flags & Hflag & H).
    apply LayoutFacts.bind_ok in H. destruct H as (w' & _ & H).
    apply LayoutFacts.bind_ok in H. destruct H as (nsample & Hns & H).
    apply IH in H. cbn [uvw_array polarization_array data_array flag_array
      nsample_array] in H.
    destruct H as (H1 & H2 & H3 & H4 & H5).
    apply set_pol_shape in Hdata, Hflag, Hns.
    repeat split; congruence.
Qed.

(** What a read that ends normally went through. *)
Lemma read_fhd_arrays_inv (vis_data : dict (array2 complex))
    (flag_file_dict : dict (list (array2 Q))) (fhd_pol_list : list string)
    (UU VV WW : array1 Q) (Nfreqs : nat) (r : arrays) :
  read_fhd_arrays vis_data flag_file_dict fhd_pol_list UU VV WW Nfreqs = Ok r ->
  exists vis_weights_data uvw,
    let shape := (size1 UU, 1, Nfreqs, length (keys vis_data)) in
    fill vis_data (map pol_code (present vis_data)) vis_weights_data
      (mkArrays uvw (map pol_code (present vis_data)) (full4 shape (0%Q, 0%Q))
         (full4 shape 0%Q) (full4 shape false))
    = Ok r.
Proof.
  unfold read_fhd_arrays. intros H.
  apply LayoutFacts.bind_ok in H. destruct H as (key & _ & H).
  apply LayoutFacts.bind_ok in H. destruct H as (weights & _ & H).
  apply LayoutFacts.bind_ok in H. destruct H as (vwd & _ & H).
  apply LayoutFacts.bind_ok in H. destruct H as (uvw0 & _ & H).
  apply LayoutFacts.bind_ok in H. destruct H as (uvw1 & _ & H).
  apply LayoutFacts.bind_ok in H. destruct H as (uvw2 & _ & H).
  rewrite present_pols_filter in H. cbn [bind] in H.
  now exists vwd, uvw2.
Qed.

(** X8: after every read that ends normally of visibility files of the
    four linear polarizations, [polarization_array] holds the codes of
    the polarizations that have a file, in the order xx, yy, xy, yx
    (-5, -6, -7, -8) and without repeats; its length is the number of
    visibility files ([Npols]), and [data_array], [flag_array] and
    [nsample_array] all have the shape [(Nblts, 1, Nfreqs, Npols)]. *)
Theorem read_fhd_arrays_shapes (vis_data : dict (array2 complex))
    (flag_file_dict : dict (list (array2 Q))) (fhd_pol_list : list string)
    (UU VV WW : array1 Q) (Nfreqs : nat) (r : arrays) :
  NoDup (keys vis_data) -> incl (keys vis_data) lin_pol_order ->
  read_fhd_arrays vis_data flag_file_dict fhd_pol_list UU VV WW Nfreqs = Ok r ->
  polarization_array r = map pol_code (filter (mem vis_data) lin_pol_order)
  /\ NoDup (polarization_array r)
  /\ length (polarization_array r) = length (keys vis_data)
  /\ let shape := (size1 UU, 1, Nfreqs, length (polarization_array r)) in
     shape4 (data_array r) = shape /\ shape4 (flag_array r) = shape
     /\ shape4 (nsample_array r) = shape.
Proof.
  intros Hnd Hincl H.
  apply read_fhd_arrays_inv in H. destruct H as (vwd & uvw & H).
  cbv zeta in H. apply fill_keeps in H.
  cbn [uvw_array polarization_array data_array flag_array nsample_array
       full4 shape4] in H.
  destruct H as (_ & Hp & Hd & Hf & Hn).
  assert (Hlen : length (polarization_array r) = length (keys vis_data)).
  { rewrite Hp, length_map. now apply present_length. }
  split; [exact Hp|]. split; [rewrite Hp; apply present_codes_nodup|].
  split; [exact Hlen|]. cbv zeta. rewrite Hlen. now repeat split.
Qed.

(** What the reader makes of the sample file set. *)
Definition sample_arrays : arrays :=
  match read_fhd_arrays [("xx", sample_vis)] [("vis_weights", [sample_weights])]
          ["xx"; "yy"] sample_column sample_column sample_column 1 with
  | Ok r => r
  | Raise _ => mkArrays (zeros2 0 0) [] (full4 (0, 0, 0, 0) (0%Q, 0%Q))
                 (full4 (0, 0, 0, 0) 0%Q) (full4 (0, 0, 0, 0) false)
  end.

Lemma read_fhd_arrays_shapes_witness :
  polarization_array sample_arrays
  = map pol_code (filter (mem [("xx", sample_vis)]) lin_pol_order)
  /\ NoDup (polarization_array sample_arrays)
  /\ length (polarization_array sample_arrays) = length (keys [("xx", sample_vis)])
  /\ let shape := (size1 sample_column, 1, 1,
                   length (polarization_array sample_arrays)) in
     shape4 (data_array sample_arrays) = shape
     /\ shape4 (flag_array sample_arrays) = shape
     /\ shape4 (nsample_array sample_arrays) = shape.
Proof.
  apply (read_fhd_arrays_shapes [("xx", sample_vis)]
           [("vis_weights", [sample_weights])] ["xx"; "yy"]
           sample_column sample_column sample_column 1 sample_arrays).
  - repeat constructor. simpl. tauto.
  - intros k [<- | []]. simpl. tauto.
  - reflexivity.
Defined.

(** Weights beyond the names of the obs structure have no name. *)
Lemma name_weights_too_many (fhd_pol_list : list string) :
  forall (ws : list (array2 Q)) (k : nat) (d0 : dict (array2 Q)),
    k <= length fhd_pol_list -> length fhd_pol_list < k + length ws ->
    name_weights k ws fhd_pol_list d0 = Raise IndexError.
Proof.
  induction ws as [|w ws IH]; intros k d0 Hk Hlen; cbn [length] in Hlen.
  - lia.
  - cbn [name_weights].
    destruct (nth_error fhd_pol_list k) as [pol|] eqn:E; [|reflexivity].
    assert (k < length fhd_pol_list) by (apply nth_error_Some; congruence).
    apply IH; lia.
Qed.

Definition no_weights_key : string :=
  "No recognized key for visibility weights in flags_file.".

(** X9: what the flags file can do to a read.  When the flags file has
    neither the key "flag_arr" nor the key "vis_weights" the reader
    raises ValueError "No recognized key for visibility weights in
    flags_file."; when it has more arrays of weights than the obs
    structure has polarization names, it raises IndexError; both
    whatever the other files hold. *)
Theorem read_fhd_arrays_flags_errors (vis_data : dict (array2 complex))
    (flag_file_dict : dict (list (array2 Q))) (fhd_pol_list : list string)
    (UU VV WW : array1 Q) (Nfreqs : nat) :
  (flags_weights flag_file_dict = None ->
   read_fhd_arrays vis_data flag_file_dict fhd_pol_list UU VV WW Nfreqs
   = Raise (ValueError no_weights_key))
  /\ (forall weights,
        flags_weights flag_file_dict = Some weights ->
        length fhd_pol_list < length weights ->
        read_fhd_arrays vis_data flag_file_dict fhd_pol_list UU VV WW Nfreqs
        = Raise IndexError).
Proof.
  split.
  - unfold flags_weights, read_fhd_arrays, weights_key, mem.
    destruct (get flag_file_dict "flag_arr"); [discriminate|].
    intros ->. reflexivity.
  - intros weights Hw Hlen.
    destruct (weights_of_flags _ _ Hw) as (key & Hkey & Hitem).
    unfold read_fhd_arrays. rewrite Hkey. cbn [bind]. rewrite Hitem. cbn [bind].
    rewrite name_weights_too_many; [reflexivity | lia | exact Hlen].
Qed.

Lemma read_fhd_arrays_flags_errors_witness :
  read_fhd_arrays [("xx", sample_vis)] [("weights", [sample_weights])]
    ["xx"; "yy"] sample_column sample_column sample_column 1
  = Raise (ValueError no_weights_key)
  /\ read_fhd_arrays [("xx", sample_vis)]
       [("flag_arr", [sample_weights; sample_weights; sample_weights])]
       ["xx"; "yy"] sample_column sample_column sample_column 1
     = Raise IndexError.
Proof.
  split.
  - apply (proj1 (read_fhd_arrays_flags_errors [("xx", sample_vis)]
                    [("weights", [sample_weights])] ["xx"; "yy"]
                    sample_column sample_column sample_column 1)).
    reflexivity.
  - apply (proj2 (read_fhd_arrays_flags_errors [("xx", sample_vis)]
                    [("flag_arr", [sample_weights; sample_weights; sample_weights])]
                    ["xx"; "yy"] sample_column sample_column sample_column 1)
             [sample_weights; sample_weights; sample_weights]).
    + reflexivity.
    + simpl. lia.
Defined.

Lemma get_In {V : Type} (d : dict V) (k : string) (v : V) :
  get d k = Some v -> In (k, v) d.
Proof.
  induction d as [|[k' v'] d IH]; simpl; [discriminate|].
  destruct (String.eqb k' k) eqn:E.
  - apply String.eqb_eq in E. intros [= ->]. subst. now left.
  - intros H. right. now apply IH.
Qed.

Lemma item_pol_code (pol : string) (code : Z) :
  item linear_pol_dict pol = Ok code -> code = pol_code pol.
Proof.
  unfold item, pol_code. destruct (get linear_pol_dict pol); congruence.
Qed.

(** A file set that can be read goes through the loop over the
    visibility files with every file fitting the arrays. *)
Lemma read_fhd_arrays_fill (vis_data : dict (array2 complex))
    (flag_file_dict : dict (list (array2 Q))) (fhd_pol_list : list string)
    (UU VV WW : array1 Q) (Nfreqs : nat) (weights : list (array2 Q)) :
  well_formed vis_data flag_file_dict fhd_pol_list UU VV WW Nfreqs weights ->
  exists vis_weights_data uvw,
    let shape := (size1 UU, 1, Nfreqs, length (keys vis_data)) in
    let pol_list := map pol_code (present vis_data) in
    read_fhd_arrays vis_data flag_file_dict fhd_pol_list UU VV WW Nfreqs
    = fill vis_data pol_list vis_weights_data
        (mkArrays uvw pol_list (full4 shape (0%Q, 0%Q)) (full4 shape 0%Q)
           (full4 shape false))
    /\ (forall i pol w, nth_error fhd_pol_list i = Some pol ->
                        nth_error weights i = Some w ->
                        get vis_weights_data pol = Some w)
    /\ Forall (fits (size1 UU) Nfreqs pol_list vis_weights_data) vis_data.
Proof.
  intros (Hflags & Hlen & Hnd & HVV & HWW & Hkeys & Hvis).
  destruct (weights_of_flags _ _ Hflags) as (key & Hkey & Hitem).
  destruct (name_weights_spec fhd_pol_list Hnd weights 0 [] Hlen)
    as (vwd & Hvwd & Hnamed & _).
  unfold read_fhd_arrays. rewrite Hkey. cbn [bind]. rewrite Hitem. cbn [bind].
  rewrite Hvwd. cbn [bind].
  rewrite set_column_fits by reflexivity. cbn [bind].
  rewrite set_column_fits by exact HVV. cbn [bind].
  rewrite set_column_fits by exact HWW. cbn [bind].
  rewrite present_pols_filter. cbn [bind].
  eexists vwd, _. cbv zeta. split; [reflexivity|]. split; [exact Hnamed|].
  apply Forall_forall. intros [pol v] Hentry.
  destruct (Hvis pol v Hentry) as (Hpol & Hrows & Hcols & i & w & Hi & Hw & Hwr & Hwc).
  unfold fits. cbn [fst snd]. repeat split; try assumption.
  - intros code Hcode. apply item_pol_code in Hcode. subst code.
    apply in_map. unfold present. apply filter_In. split; [exact Hpol|].
    eapply In_mem. exact Hentry.
  - exists w. repeat split; try assumption. now apply (Hnamed i).
Qed.

(** X10: in a file set that can be read, every one of the [Npols] slots of
    the polarization axis is written: slot [p] holds the conjugated
    visibilities, the flags and the sample numbers of one visibility
    file, the one whose code is entry [p] of [polarization_array]; no
    slot is left at the zeros the arrays start with. *)
Theorem read_fhd_arrays_fills_every_slot (vis_data : dict (array2 complex))
    (flag_file_dict : dict (list (array2 Q))) (fhd_pol_list : list string)
    (UU VV WW : array1 Q) (Nfreqs : nat) (weights : list (array2 Q)) :
  well_formed vis_data flag_file_dict fhd_pol_list UU VV WW Nfreqs weights ->
  exists r,
    read_fhd_arrays vis_data flag_file_dict fhd_pol_list UU VV WW Nfreqs = Ok r
    /\ forall p, p < length (keys vis_data) ->
         exists pol v i w,
           In (pol, v) vis_data
           /\ nth_error fhd_pol_list i = Some pol /\ nth_error weights i = Some w
           /\ nth_error (polarization_array r) p = Some (pol_code pol)
           /\ forall b f,
                at4 (data_array r) b 0 f p = conj (at2 v b f)
                /\ at4 (flag_array r) b 0 f p = Qle_bool (at2 w b f) 0
                /\ at4 (nsample_array r) b 0 f p = Qabs (at2 w b f).
Proof.
  intros Hwf.
  destruct (read_fhd_arrays_fill _ _ _ _ _ _ _ _ Hwf)
    as (vwd & uvw & Hread & Hnamed & Hfits).
  cbv zeta in Hread, Hfits.
  destruct Hwf as (_ & _ & _ & _ & _ & Hkeys & Hvis).
  match type of Hread with
  | _ = fill _ ?pl _ ?a0 =>
      destruct (fill_spec (size1 UU) Nfreqs (length (keys vis_data)) pl vwd
                  vis_data a0 Hkeys Hfits) as (r & Hr & _ & Hpa & Hin & _);
      [repeat split|]
  end.
  exists r. split; [now rewrite Hread|].
  intros p Hp. cbn [polarization_array] in Hpa.
  assert (Hincl : incl (keys vis_data) lin_pol_order).
  { intros k Hk. unfold keys in Hk. apply in_map_iff in Hk.
    destruct Hk as ([k' v] & <- & Hentry). now destruct (Hvis k' v Hentry). }
  rewrite <- (present_length vis_data Hkeys Hincl) in Hp.
  destruct (nth_error (present vis_data) p) as [pol|] eqn:Hpol.
  2:{ apply nth_error_None in Hpol. lia. }
  assert (Hmem : mem vis_data pol = true).
  { apply nth_error_In in Hpol. unfold present in Hpol.
    now apply filter_In in Hpol. }
  unfold mem in Hmem. destruct (get vis_data pol) as [v|] eqn:Hget;
    [|discriminate].
  apply get_In in Hget.
  destruct (Hvis pol v Hget) as (_ & _ & _ & i & w & Hi & Hw & _).
  destruct (Hin pol v w Hget (Hnamed i pol w Hi Hw))
    as (code & pol_i & Hcode & Hidx & Hslot).
  apply item_pol_code in Hcode. subst code.
  assert (Hnth : nth_error (map pol_code (present vis_data)) p
                 = Some (pol_code pol)) by (now apply map_nth_error).
  assert (pol_i = p).
  { apply index_nth in Hidx.
    apply (proj1 (NoDup_nth_error _) (present_codes_nodup vis_data)).
    - apply nth_error_Some. congruence.
    - congruence. }
  subst pol_i.
  exists pol, v, i, w. repeat split; try assumption; try apply Hslot.
  now rewrite Hpa.
Qed.

Lemma read_fhd_arrays_fills_every_slot_witness :
  exists r,
    read_fhd_arrays [("xx", sample_vis)] [("vis_weights", [sample_weights])]
      ["xx"; "yy"] sample_column sample_column sample_column 1 = Ok r
    /\ forall p, p < length (keys [("xx", sample_vis)]) ->
         exists pol v i w,
           In (pol, v) [("xx", sample_vis)]
           /\ nth_error ["xx"; "yy"] i = Some pol
           /\ nth_error [sample_weights] i = Some w
           /\ nth_error (polarization_array r) p = Some (pol_code pol)
           /\ forall b f,
                at4 (data_array r) b 0 f p = conj (at2 v b f)
                /\ at4 (flag_array r) b 0 f p = Qle_bool (at2 w b f) 0
                /\ at4 (nsample_array r) b 0 f p = Qabs (at2 w b f).
Proof.
  apply (read_fhd_arrays_fills_every_slot [("xx", sample_vis)]
           [("vis_weights", [sample_weights])] ["xx"; "yy"]
           sample_column sample_column sample_column 1 [sample_weights]).
  exact sample_well_formed.
Defined.

Lemma fill_app (pol_list : list Z) (vis_weights_data : dict (array2 Q))
    (l1 l2 : list (string * array2 complex)) :
  forall a, fill (l1 ++ l2) pol_list vis_weights_data a
            = bind (fill l1 pol_list vis_weights_data a)
                (fill l2 pol_list vis_weights_data).
Proof.
  induction l1 as [|[pol v] l1 IH]; intros a; [reflexivity|].
  cbn [app fill].
  destruct (item linear_pol_dict pol) as [code|]; [|reflexivity]. cbn [bind].
  destruct (index pol_list code) as [pol_i|]; [|reflexivity]. cbn [bind].
  destruct (set_pol (data_array a) pol_i (map2 conj v)); [|reflexivity].
  cbn [bind].
  destruct (item vis_weights_data pol) as [w|]; [|reflexivity]. cbn [bind].
  destruct (set_pol (flag_array a) pol_i _); [|reflexivity]. cbn [bind].
  destruct (set_pol (nsample_array a) pol_i _); [|reflexivity]. cbn [bind].
  apply IH.
Qed.

(** X11: a visibility file of a polarization for which the flags file has
    no weights makes the read raise [KeyError] with the name of that
    polarization, once the files before it have been read. *)
Theorem read_fhd_arrays_missing_weights (good rest : dict (array2 complex))
    (pol : string) (v : array2 complex)
    (flag_file_dict : dict (list (array2 Q))) (fhd_pol_list : list string)
    (UU VV WW : array1 Q) (Nfreqs : nat) (weights : list (array2 Q)) :
  well_formed good flag_file_dict fhd_pol_list UU VV WW Nfreqs weights ->
  NoDup (keys (good ++ (pol, v) :: rest)) ->
  In pol lin_pol_order -> rows v = size1 UU -> cols v = Nfreqs ->
  (forall i, i < length weights -> nth_error fhd_pol_list i <> Some pol) ->
  read_fhd_arrays (good ++ (pol, v) :: rest) flag_file_dict fhd_pol_list
    UU VV WW Nfreqs
  = Raise (KeyError pol).
Proof.
  intros (Hflags & Hlen & Hnd & HVV & HWW & _ & Hvis) Hkeys Hpol Hrows Hcols Hno.
  set (vis_data := good ++ (pol, v) :: rest) in *.
  destruct (weights_of_flags _ _ Hflags) as (key & Hkey & Hitem).
  destruct (name_weights_spec fhd_pol_list Hnd weights 0 [] Hlen)
    as (vwd & Hvwd & Hnamed & Hout).
  unfold read_fhd_arrays. rewrite Hkey. cbn [bind]. rewrite Hitem. cbn [bind].
  rewrite Hvwd. cbn [bind].
  rewrite set_column_fits by reflexivity. cbn [bind].
  rewrite set_column_fits by exact HVV. cbn [bind].
  rewrite set_column_fits by exact HWW. cbn [bind].
  rewrite present_pols_filter. cbn [bind].
  assert (Hcode : forall p u, In (p, u) vis_data -> In p lin_pol_order ->
                              In (pol_code p) (map pol_code (present vis_data))).
  { intros p u Hin Hp. apply in_map. unfold present. apply filter_In.
    split; [exact Hp | eapply In_mem; exact Hin]. }
  unfold vis_data at 1. rewrite fill_app.
  match goal with
  | |- bind (fill good ?pl vwd ?a0) _ = _ =>
      destruct (fill_spec (size1 UU) Nfreqs (length (keys vis_data)) pl vwd
                  good a0) as (r & Hr & _ & _ & _ & _)
  end.
  - unfold vis_data, keys in Hkeys. rewrite map_app in Hkeys.
    now apply NoDup_app_remove_r in Hkeys.
  - apply Forall_forall. intros [p u] Hentry.
    destruct (Hvis p u Hentry) as (Hp & Hr & Hc & i & w & Hi & Hw & Hwr & Hwc).
    unfold fits. cbn [fst snd]. repeat split; try assumption.
    + intros code Hc'. apply item_pol_code in Hc'. subst code.
      apply (Hcode p u); [|exact Hp]. unfold vis_data. apply in_or_app. now left.
    + exists w. repeat split; try assumption. now apply (Hnamed i).
  - repeat split.
  - rewrite Hr. cbn [bind fill].
    pose proof (fill_keeps _ _ _ _ _ Hr) as (_ & _ & Hshape & _).
    cbn [data_array full4 shape4] in Hshape.
    destruct (linear_pol_code pol Hpol) as [code Hc]. rewrite Hc. cbn [bind].
    pose proof (item_pol_code _ _ Hc) as ->.
    destruct (index_spec _ (pol_code pol)
                (Hcode pol v ltac:(unfold vis_data; apply in_or_app; right; now left)
                   Hpol)) as (pol_i & -> & _).
    cbn [bind].
    rewrite (set_pol_fits (data_array r) pol_i (map2 conj v) (size1 UU) Nfreqs
               (length (keys vis_data)) Hshape Hrows Hcols).
    cbn [bind]. unfold item.
    rewrite (Hout pol); [reflexivity|].
    intros j Hj. now apply Hno.
Qed.

Lemma read_fhd_arrays_missing_weights_witness :
  read_fhd_arrays ([("xx", sample_vis)] ++ ("xy", sample_vis) :: [])
    [("vis_weights", [sample_weights])] ["xx"; "yy"]
    sample_column sample_column sample_column 1
  = Raise (KeyError "xy").
Proof.
  apply (read_fhd_arrays_missing_weights [("xx", sample_vis)] [] "xy" sample_vis
           [("vis_weights", [sample_weights])] ["xx"; "yy"]
           sample_column sample_column sample_column 1 [sample_weights]).
  - exact sample_well_formed.
  - repeat constructor; simpl; intuition discriminate.
  - simpl. tauto.
  - reflexivity.
  - reflexivity.
  - simpl. intros [|i] Hi; [discriminate | lia].
Defined.

End ArraysMore.

(** ** More on the scalar fields of the layout *)

Module LayoutMore.
Import PyStr PyDict Layout DictFacts.

(** The names that lines 466-484 take out of [layout_fields] one by one:
    the first five must be there, [diameters] may be. *)
Definition required : list string :=
  ["gst0"; "ref_date"; "earth_degpd"; "dut1"; "time_system"].

Definition consumed : list string := required ++ ["diameters"].

(** The keyword of lines 505-507. *)
Definition keyword (field : string) : string :=
  if 8 <? String.length field then drop_underscores field else field.

(** The value of lines 509-511. *)
Definition decoded (v : value) : value :=
  match v with VBytes b => VStr b | v => v end.

Lemma contains_In (l : list string) (x : string) :
  contains l x = true <-> In x l.
Proof.
  unfold contains. rewrite existsb_exists. split.
  - intros (y & Hy & E). apply String.eqb_eq in E. now subst.
  - intros H. exists x. split; [exact H | apply String.eqb_refl].
Qed.

Lemma remove_present (x : string) (l : list string) :
  In x l -> exists l', remove x l = Ok l'.
Proof.
  induction l as [|y l IH]; intros H; [destruct H|].
  cbn [remove]. destruct (String.eqb y x) eqn:E; [now eexists|].
  destruct H as [-> | H]; [now rewrite String.eqb_refl in E|].
  destruct (IH H) as [l' ->]. now eexists.
Qed.

Lemma remove_sub (x : string) (l l' : list string) :
  remove x l = Ok l' -> forall y, In y l' -> In y l.
Proof.
  revert l'. induction l as [|z l IH]; intros l' H y Hy; [discriminate|].
  cbn [remove] in H. destruct (String.eqb z x).
  - injection H as <-. now right.
  - destruct (remove x l) as [l''|e]; [|discriminate]. injection H as <-.
    destruct Hy as [<- | Hy]; [now left | right; now apply (IH l'')].
Qed.

Lemma remove_keeps (x : string) (l l' : list string) :
  remove x l = Ok l' -> forall y, y <> x -> In y l -> In y l'.
Proof.
  revert l'. induction l as [|z l IH]; intros l' H y Hne Hy; [discriminate|].
  cbn [remove] in H. destruct (String.eqb z x) eqn:E.
  - injection H as <-. apply String.eqb_eq in E. subst z.
    destruct Hy as [-> | Hy]; [now elim Hne | exact Hy].
  - destruct (remove x l) as [l''|e]; [|discriminate]. injection H as <-.
    destruct Hy as [<- | Hy]; [now left | right; now apply (IH l'')].
Qed.

Lemma remove_nodup (x : string) (l l' : list string) :
  NoDup l -> remove x l = Ok l' -> NoDup l' /\ ~ In x l'.
Proof.
  revert l'. induction l as [|z l IH]; intros l' Hnd H; [discriminate|].
  inversion Hnd as [|? ? Hz Hl]; subst.
  cbn [remove] in H. destruct (String.eqb z x) eqn:E.
  - injection H as <-. apply String.eqb_eq in E. subst z. now split.
  - destruct (remove x l) as [l''|e] eqn:R; [|discriminate]. injection H as <-.
    destruct (IH l'' Hl eq_refl) as [Hnd' Hx]. split.
    + constructor; [|exact Hnd']. intros Hin. apply Hz.
      now apply (remove_sub x l l'' R).
    + intros [-> | Hin]; [now rewrite String.eqb_refl in E | now apply Hx].
Qed.

(** [l.remove(x)] on a list without repetitions takes [x] out and nothing
    else. *)
Lemma remove_spec (x : string) (l l' : list string) :
  NoDup l -> remove x l = Ok l' ->
  NoDup l' /\ forall y, In y l' <-> In y l /\ y <> x.
Proof.
  intros Hnd H. destruct (remove_nodup x l l' Hnd H) as [Hnd' Hx].
  split; [exact Hnd'|]. intros y. split.
  - intros Hy. split; [now apply (remove_sub x l l' H)|]. now intros ->.
  - intros [Hy Hne]. now apply (remove_keeps x l l' H).
Qed.

(** The loop over [layout_fields_ignore] never raises. *)
Lemma drop_ignored_spec (ignore : list string) :
  forall layout_fields, NoDup layout_fields ->
    exists l', drop_ignored ignore layout_fields = Ok l'
               /\ NoDup l'
               /\ forall y, In y l' <-> In y layout_fields /\ ~ In y ignore.
Proof.
  induction ignore as [|field rest IH]; intros l Hnd.
  - exists l. cbn [drop_ignored]. repeat split; tauto.
  - cbn [drop_ignored]. destruct (contains l field) eqn:C.
    + apply contains_In in C. destruct (remove_present field l C) as [l1 R].
      rewrite R. cbn [bind].
      destruct (remove_spec field l l1 Hnd R) as [Hnd1 H1].
      destruct (IH l1 Hnd1) as (l' & -> & Hnd' & H'). exists l'.
      repeat split; try assumption.
      * now apply H', proj1, H1 in H.
      * intros [<- | Hin].
        -- apply H', proj1, H1 in H. now destruct H.
        -- now apply H' in H.
      * intros [Hy Hn]. apply H'. split.
        -- apply H1. split; [exact Hy|]. intros ->. apply Hn. now left.
        -- intros Hin. apply Hn. now right.
    + destruct (IH l Hnd) as (l' & -> & Hnd' & H'). exists l'.
      repeat split; try assumption.
      * now apply H' in H.
      * intros [<- | Hin].
        -- apply H', proj1, contains_In in H. congruence.
        -- now apply H' in H.
      * intros [Hy Hn]. apply H'. split; [exact Hy|].
        intros Hin. apply Hn. now right.
Qed.

Lemma keys_set_new {V : Type} (d : dict V) (k : string) (v : V) :
  In k (keys (set d k v)).
Proof.
  induction d as [|[k0 v0] d IH]; simpl; [now left|].
  destruct (String.eqb k0 k) eqn:E; simpl.
  - left. now apply String.eqb_eq.
  - now right.
Qed.

Lemma keys_set_old {V : Type} (d : dict V) (k x : string) (v : V) :
  In x (keys d) -> In x (keys (set d k v)).
Proof.
  induction d as [|[k0 v0] d IH]; simpl; [tauto|].
  destruct (String.eqb k0 k); simpl; tauto.
Qed.

(** The keys that the loop of lines 504-513 leaves. *)
Lemma keep_extra_keys (layout : layout_struct) (layout_fields : list string) :
  forall extra extra', keep_extra layout layout_fields extra = Ok extra' ->
    forall k, In k (keys extra') <->
              In k (keys extra)
              \/ exists field, In field layout_fields /\ k = upper (keyword field).
Proof.
  induction layout_fields as [|field rest IH]; intros extra extra' H k.
  - injection H as <-. split; [tauto|]. intros [H | (f & [] & _)]. exact H.
  - cbn [keep_extra] in H.
    destruct (field_value layout field) as [v|e]; [|discriminate].
    cbn [bind] in H. rewrite (IH _ _ H k). fold (keyword field). split.
    + intros [Hk | (f & Hf & ->)].
      * apply keys_set in Hk. destruct Hk as [-> | Hk]; [|now left].
        right. exists field. split; [now left | reflexivity].
      * right. exists f. split; [now right | reflexivity].
    + intros [Hk | (f & [<- | Hf] & ->)].
      * left. now apply keys_set_old.
      * left. apply keys_set_new.
      * right. now exists f.
Qed.

(** A key that no later field writes keeps its value through the loop. *)
Lemma keep_extra_get (layout : layout_struct) (layout_fields : list string) (K : string) (x : value) :
  forall extra extra', keep_extra layout layout_fields extra = Ok extra' ->
    get extra K = Some x ->
    (forall g, In g layout_fields -> upper (keyword g) = K ->
               exists v, field_value layout g = Ok v /\ decoded v = x) ->
    get extra' K = Some x.
Proof.
  induction layout_fields as [|field rest IH]; intros extra extra' H Hget Hsame.
  - now injection H as <-.
  - cbn [keep_extra] in H.
    destruct (field_value layout field) as [v|e] eqn:Hv; [|discriminate].
    cbn [bind] in H. apply (IH _ _ H).
    + rewrite get_set. fold (keyword field).
      destruct (String.eqb (upper (keyword field)) K) eqn:E; [|exact Hget].
      apply String.eqb_eq in E.
      destruct (Hsame field (or_introl eq_refl) E) as (v' & Hv' & <-).
      rewrite Hv in Hv'. injection Hv' as <-. reflexivity.
    + intros g Hg. apply Hsame. now right.
Qed.

Lemma keep_extra_value (layout : layout_struct) (layout_fields : list string) :
  forall extra extra', keep_extra layout layout_fields extra = Ok extra' ->
    forall field, In field layout_fields ->
      (forall g, In g layout_fields ->
                 upper (keyword g) = upper (keyword field) -> g = field) ->
      exists v, field_value layout field = Ok v
                /\ get extra' (upper (keyword field)) = Some (decoded v).
Proof.
  induction layout_fields as [|f rest IH]; intros extra extra' H field Hin Hinj;
    [destruct Hin|].
  cbn [keep_extra] in H.
  destruct (field_value layout f) as [v|e] eqn:Hv; [|discriminate].
  cbn [bind] in H. fold (keyword f) in H. fold (decoded v) in H.
  destruct (String.eqb f field) eqn:E.
  - apply String.eqb_eq in E. subst f. exists v. split; [exact Hv|].
    apply (keep_extra_get layout rest _ _ _ _ H).
    + rewrite get_set. now rewrite String.eqb_refl.
    + intros g Hg Hk. exists v. split; [|reflexivity].
      rewrite (Hinj g (or_intror Hg) Hk). exact Hv.
  - destruct Hin as [-> | Hin]; [now rewrite String.eqb_refl in E|].
    apply (IH _ _ H field Hin). intros g Hg. apply Hinj. now right.
Qed.

(** What is left of [layout_fields] when the loop of lines 504-513 starts. *)
Lemma read_fhd_layout_rest (layout : layout_struct) (layout_fields : list string)
    (self r : attrs) :
  NoDup layout_fields ->
  read_fhd_layout layout layout_fields self = Ok r ->
  exists rest,
    keep_extra layout rest (extra_keywords self) = Ok (extra_keywords r)
    /\ forall y, In y rest <->
                 In y layout_fields /\ ~ In y consumed
                 /\ ~ In y layout_fields_ignore.
Proof.
  intros Hnd H. unfold read_fhd_layout in H.
  apply LayoutFacts.bind_ok in H; destruct H as (l1 & R1 & H).
  destruct (remove_spec _ _ _ Hnd R1) as [Hnd1 H1].
  apply LayoutFacts.bind_ok in H; destruct H as (l2 & R2 & H).
  destruct (remove_spec _ _ _ Hnd1 R2) as [Hnd2 H2].
  apply LayoutFacts.bind_ok in H; destruct H as (l3 & R3 & H).
  destruct (remove_spec _ _ _ Hnd2 R3) as [Hnd3 H3].
  apply LayoutFacts.bind_ok in H; destruct H as (l4 & R4 & H).
  destruct (remove_spec _ _ _ Hnd3 R4) as [Hnd4 H4].
  apply LayoutFacts.bind_ok in H; destruct H as (l5 & R5 & H).
  destruct (remove_spec _ _ _ Hnd4 R5) as [Hnd5 H5].
  apply LayoutFacts.bind_ok in H. destruct H as ([self' l6] & Hd & H).
  assert (H6 : extra_keywords self' = extra_keywords self
               /\ NoDup l6
               /\ forall y, In y l6 <-> In y l5 /\ y <> "diameters").
  { destruct (contains l5 "diameters") eqn:C.
    - apply LayoutFacts.bind_ok in Hd. destruct Hd as (l' & R & Hd).
      injection Hd as <- <-.
      destruct (remove_spec _ _ _ Hnd5 R) as [Hnd6 H6].
      split; [reflexivity | split; [exact Hnd6 | exact H6]].
    - injection Hd as <- <-. split; [reflexivity | split; [exact Hnd5|]].
      intros y. split; [|tauto]. intros Hy. split; [exact Hy|].
      intros ->. apply contains_In in Hy. congruence. }
  destruct H6 as (Hextra & Hnd6 & H6).
  apply LayoutFacts.bind_ok in H. destruct H as (l7 & Hdrop & H).
  destruct (drop_ignored_spec layout_fields_ignore l6 Hnd6) as (l7' & Hdrop' & _ & H7).
  rewrite Hdrop in Hdrop'. injection Hdrop' as <-.
  apply LayoutFacts.bind_ok in H. destruct H as (extra & Hkeep & H).
  injection H as <-. cbn [extra_keywords]. rewrite Hextra in Hkeep.
  exists l7. split; [exact Hkeep|].
  intros y. rewrite H7, H6, H5, H4, H3, H2, H1. unfold consumed, required.
  cbn [app In]. intuition congruence.
Qed.

(** X12: which keys the layout adds to [extra_keywords].  When the names
    of the layout fields are distinct and the block ends normally, the
    keys of [extra_keywords] afterwards are the keys from before together
    with the upper-case keyword of every field that is neither read into
    an attribute (or [diameters]) nor on the ignore list; no other key
    appears, and no ignored field leaves one. *)
Theorem read_fhd_layout_extra_keys (layout : layout_struct)
    (layout_fields : list string) (self r : attrs) :
  NoDup layout_fields ->
  read_fhd_layout layout layout_fields self = Ok r ->
  forall k, In k (keys (extra_keywords r)) <->
            In k (keys (extra_keywords self))
            \/ exists field, In field layout_fields /\ ~ In field consumed
                             /\ ~ In field layout_fields_ignore
                             /\ k = upper (keyword field).
Proof.
  intros Hnd H k.
  destruct (read_fhd_layout_rest layout layout_fields self r Hnd H)
    as (rest & Hkeep & Hrest).
  rewrite (keep_extra_keys layout rest _ _ Hkeep k). split.
  - intros [Hk | (f & Hf & ->)]; [now left|]. right. exists f.
    apply Hrest in Hf. tauto.
  - intros [Hk | (f & Hf & Hc & Hi & ->)]; [now left|]. right. exists f.
    split; [|reflexivity]. apply Hrest. tauto.
Qed.

Lemma read_fhd_layout_extra_keys_witness :
  In "NTSOMEFIELD"
    (keys (extra_keywords
             (mkAttrs (Some (3 # 2)%Q) (Some "2013-08-23")
                (Some (36098564497 # 100000000)%Q) (Some (1 # 4)%Q)
                (Some "UTC") None [("NTSOMEFIELD", VNum (7 # 1)%Q)]))) <->
  In "NTSOMEFIELD" (keys (extra_keywords unset))
  \/ exists field, In field fields_with_diameters /\ ~ In field consumed
                   /\ ~ In field layout_fields_ignore
                   /\ "NTSOMEFIELD" = upper (keyword field).
Proof.
  apply (read_fhd_layout_extra_keys layout_with_diameters fields_with_diameters
           unset).
  - unfold fields_with_diameters.
    repeat constructor; simpl; intuition discriminate.
  - reflexivity.
Defined.



End LayoutMore.

(** ** The time of every baseline-time *)

Module TimesFacts.
Import Times.

Lemma assign_length (a : list Q) (x : Q) (lo hi : nat) :
  forall i, length (assign a i lo hi x) = length a.
Proof. induction a as [|y a IH]; intros i; simpl; [reflexivity | now rewrite IH]. Qed.

Lemma assign_nth (a : list Q) (x : Q) (lo hi : nat) :
  forall i j,
    nth_error (assign a i lo hi x) j
    = if (lo <=? i + j) && (i + j <? hi)
      then (if j <? length a then Some x else None)
      else nth_error a j.
Proof.
  induction a as [|y a IH]; intros i j.
  - destruct j; simpl; now destruct (_ && _).
  - destruct j as [|j].
    + cbn [assign nth_error length]. rewrite Nat.add_0_r.
      now destruct (_ && _).
    + cbn [assign nth_error length]. rewrite IH.
      replace (S i + j) with (i + S j) by lia. reflexivity.
Qed.

Lemma set_slice_length (a : list Q) (start : Z) (stop : option Z) (x : Q) :
  length (set_slice a start stop x) = length a.
Proof. apply assign_length. Qed.

(** Every entry of the array after [a[start:stop] = x] is [x] or the entry
    from before. *)
Lemma set_slice_entries (a : list Q) (start : Z) (stop : option Z) (x y : Q) :
  In y (set_slice a start stop x) -> y = x \/ In y a.
Proof.
  intros H. apply In_nth_error in H. destruct H as [j H].
  unfold set_slice in H. rewrite assign_nth in H.
  destruct (_ && _).
  - destruct (j <? length a); [|discriminate]. injection H as <-. now left.
  - right. now apply nth_error_In in H.
Qed.

(** A slice with bounds inside the array. *)
Lemma set_slice_inside (a : list Q) (lo hi : Z) (x : Q) (j : nat) :
  (0 <= lo <= Z.of_nat (length a))%Z -> (0 <= hi <= Z.of_nat (length a))%Z ->
  nth_error (set_slice a lo (Some hi) x) j
  = if (Z.to_nat lo <=? j) && (j <? Z.to_nat hi) then Some x else nth_error a j.
Proof.
  intros Hlo Hhi. unfold set_slice. rewrite assign_nth. cbn [Nat.add].
  unfold clip.
  destruct (Z.ltb_spec lo 0); [lia|]. destruct (Z.ltb_spec hi 0); [lia|].
  rewrite !Z.min_l by lia.
  destruct (_ && _) eqn:E; [|reflexivity].
  apply andb_prop in E. destruct E as [_ E]. apply Nat.ltb_lt in E.
  destruct (Nat.ltb_spec j (length a)); [reflexivity | lia].
Qed.

Lemma set_slice_tail (a : list Q) (lo : Z) (x : Q) (j : nat) :
  (0 <= lo <= Z.of_nat (length a))%Z ->
  nth_error (set_slice a lo None x) j
  = if (Z.to_nat lo <=? j) && (j <? length a) then Some x else nth_error a j.
Proof.
  intros Hlo. unfold set_slice. rewrite assign_nth. cbn [Nat.add].
  unfold clip. destruct (Z.ltb_spec lo 0); [lia|]. rewrite !Z.min_l by lia.
  destruct (_ && _) eqn:E; [|reflexivity].
  apply andb_prop in E. destruct E as [_ E]. now rewrite E.
Qed.

Lemma offset_ok (bin_offset : list Z) (ii : nat) :
  ii < length bin_offset -> exists b, nth_error bin_offset ii = Some b
                                      /\ offset bin_offset ii = Ok b.
Proof.
  intros H. unfold offset.
  destruct (nth_error bin_offset ii) as [b|] eqn:E; [now exists b|].
  apply nth_error_None in E. lia.
Qed.

Lemma offset_out (bin_offset : list Z) (ii : nat) :
  length bin_offset <= ii -> offset bin_offset ii = Raise IndexError.
Proof.
  intros H. unfold offset. apply nth_error_None in H. now rewrite H.
Qed.

(** The offsets do not decrease and lie inside the array. *)
Definition ordered (Nblts : nat) (bin_offset : list Z) : Prop :=
  (forall b, In b bin_offset -> (0 <= b <= Z.of_nat Nblts)%Z)
  /\ forall k b b', nth_error bin_offset k = Some b ->
                    nth_error bin_offset (S k) = Some b' -> (b <= b')%Z.

(** The end of block [k]: the next offset, or [Nblts] for the last time. *)
Definition block_end (Nblts : nat) (int_times : list Q) (bin_offset : list Z)
    (k : nat) : Z :=
  if S k <? length int_times then nth (S k) bin_offset 0%Z else Z.of_nat Nblts.

Lemma expand_blocks (Nblts : nat) (int_times : list Q) (bin_offset : list Z) :
  length int_times <= length bin_offset -> ordered Nblts bin_offset ->
  forall rest done time_array,
    int_times = done ++ rest -> length time_array = Nblts ->
    exists time_array',
      expand int_times rest bin_offset (length done) time_array = Ok time_array'
      /\ length time_array' = Nblts
      /\ (forall i, (Z.of_nat i < nth (length done) bin_offset (Z.of_nat Nblts))%Z ->
                    nth_error time_array' i = nth_error time_array i)
      /\ forall k t, length done <= k -> nth_error int_times k = Some t ->
           forall i, (nth k bin_offset 0 <= Z.of_nat i)%Z ->
                     (Z.of_nat i < block_end Nblts int_times bin_offset k)%Z ->
                     nth_error time_array' i = Some t.
Proof.
  intros Hlen [Hrange Hsorted].
  induction rest as [|t rest IH]; intros done time_array Hsplit Hta.
  - exists time_array. cbn [expand]. repeat split; try assumption.
    intros k t Hk Ht. rewrite app_nil_r in Hsplit. subst done.
    apply nth_error_None in Hk. congruence.
  - assert (Hlens : length int_times = length done + S (length rest)).
    { rewrite Hsplit, length_app. reflexivity. }
    destruct (offset_ok bin_offset (length done)) as (lo & Hlo & Elo); [lia|].
    assert (Rlo : (0 <= lo <= Z.of_nat Nblts)%Z).
    { apply Hrange. eapply nth_error_In. exact Hlo. }
    assert (Nlo : forall d, nth (length done) bin_offset d = lo).
    { intros d. now apply nth_error_nth. }
    assert (Hsplit' : int_times = (done ++ [t]) ++ rest).
    { now rewrite <- app_assoc. }
    assert (Hdone' : length (done ++ [t]) = S (length done)).
    { rewrite length_app. simpl. lia. }
    assert (Ht : nth_error int_times (length done) = Some t).
    { rewrite Hsplit, nth_error_app2, Nat.sub_diag by lia. reflexivity. }
    cbn [expand]. rewrite Elo. cbn [bind].
    destruct (Z.ltb_spec (Z.of_nat (length done)) (Z.of_nat (length int_times) - 1))
      as [Hmore | Hlast].
    + destruct (offset_ok bin_offset (S (length done))) as (hi & Hhi & Ehi); [lia|].
      rewrite Ehi. cbn [bind].
      assert (Rhi : (0 <= hi <= Z.of_nat Nblts)%Z).
      { apply Hrange. eapply nth_error_In. exact Hhi. }
      assert (Hle : (lo <= hi)%Z) by (eapply Hsorted; eassumption).
      assert (Nhi : forall d, nth (S (length done)) bin_offset d = hi).
      { intros d. now apply nth_error_nth. }
      destruct (IH (done ++ [t]) (set_slice time_array lo (Some hi) t) Hsplit')
        as (ta' & E & Hl & Hbelow & Hblocks).
      { now rewrite set_slice_length. }
      rewrite Hdone' in E, Hbelow, Hblocks.
      exists ta'. split; [exact E|]. split; [exact Hl|]. split.
      * intros i Hi. rewrite Nlo in Hi. rewrite Hbelow by (rewrite Nhi; lia).
        rewrite set_slice_inside by (rewrite Hta; assumption).
        destruct (Nat.leb_spec (Z.to_nat lo) i); [lia | reflexivity].
      * intros k t' Hk Ht' i Hi1 Hi2.
        destruct (Nat.eq_dec k (length done)) as [-> | Hne].
        -- rewrite Ht in Ht'. injection Ht' as <-.
           rewrite Nlo in Hi1. unfold block_end in Hi2.
           destruct (Nat.ltb_spec (S (length done)) (length int_times)); [|lia].
           rewrite Nhi in Hi2.
           rewrite Hbelow by (rewrite Nhi; lia).
           rewrite set_slice_inside by (rewrite Hta; assumption).
           destruct (Nat.leb_spec (Z.to_nat lo) i); [|lia].
           destruct (Nat.ltb_spec i (Z.to_nat hi)); [reflexivity | lia].
        -- apply (Hblocks k t'); [lia | assumption..].
    + exists (set_slice time_array lo None t).
      assert (Hrest : rest = []).
      { destruct rest; [reflexivity | simpl in Hlens; lia]. }
      subst rest. cbn [expand]. split; [reflexivity|].
      split; [now rewrite set_slice_length|]. split.
      * intros i Hi. rewrite Nlo in Hi.
        rewrite set_slice_tail by (rewrite Hta; assumption).
        destruct (Nat.leb_spec (Z.to_nat lo) i); [lia | reflexivity].
      * intros k t' Hk Ht' i Hi1 Hi2.
        assert (k = length done).
        { assert (k < length int_times) by (apply nth_error_Some; congruence).
          simpl in Hlens. lia. }
        subst k. rewrite Ht in Ht'. injection Ht' as <-.
        rewrite Nlo in Hi1. unfold block_end in Hi2.
        destruct (Nat.ltb_spec (S (length done)) (length int_times));
          [simpl in Hlens; lia|].
        rewrite set_slice_tail by (rewrite Hta; assumption). rewrite Hta.
        destruct (Nat.leb_spec (Z.to_nat lo) i); [|lia].
        destruct (Nat.ltb_spec i Nblts); [reflexivity | lia].
Qed.

(** X15: how the times of the integrations are spread over the
    baseline-times.  When [Ntimes] is not 1, there is an offset for every
    time, and the offsets do not decrease and lie in [0, Nblts], the read
    gives a [time_array] of [Nblts] entries in which every index from the
    offset of time [k] up to the next offset (up to the end for the last
    time) holds time [k]. *)
Theorem read_fhd_times_blocks (Ntimes : Z) (Nblts : nat) (int_times : list Q)
    (bin_offset : list Z) :
  Ntimes <> 1%Z -> length int_times <= length bin_offset ->
  ordered Nblts bin_offset ->
  exists time_array warnings,
    read_fhd_times Ntimes Nblts int_times bin_offset = Ok (time_array, warnings)
    /\ length time_array = Nblts
    /\ forall k t, nth_error int_times k = Some t ->
         forall i, (nth k bin_offset 0 <= Z.of_nat i)%Z ->
                   (Z.of_nat i < block_end Nblts int_times bin_offset k)%Z ->
                   nth_error time_array i = Some t.
Proof.
  intros Hn Hlen Hord. unfold read_fhd_times.
  destruct (Z.eqb_spec Ntimes 1) as [|_]; [contradiction|].
  destruct (expand_blocks Nblts int_times bin_offset Hlen Hord int_times []
              (repeat 0%Q Nblts) eq_refl (repeat_length _ _))
    as (ta & E & Hl & _ & Hblocks).
  cbn [length] in E. rewrite E. cbn [bind].
  eexists ta, _. split; [reflexivity|]. split; [exact Hl|].
  intros k t Ht. apply (Hblocks k t); [cbn [length]; lia | exact Ht].
Qed.

Lemma read_fhd_times_blocks_witness :
  exists time_array warnings,
    read_fhd_times 2 5 [(1 # 2)%Q; (3 # 2)%Q] [0%Z; 3%Z] = Ok (time_array, warnings)
    /\ length time_array = 5
    /\ forall k t, nth_error [(1 # 2)%Q; (3 # 2)%Q] k = Some t ->
         forall i, (nth k [0%Z; 3%Z] 0 <= Z.of_nat i)%Z ->
                   (Z.of_nat i
                    < block_end 5 [(1 # 2)%Q; (3 # 2)%Q] [0%Z; 3%Z] k)%Z ->
                   nth_error time_array i = Some t.
Proof.
  apply (read_fhd_times_blocks 2 5 [(1 # 2)%Q; (3 # 2)%Q] [0%Z; 3%Z]).
  - discriminate.
  - simpl. lia.
  - split.
    + simpl. intros b [<- | [<- | []]]; lia.
    + intros [|[|k]] b b'; simpl; try discriminate.
      intros [= <-] [= <-]. lia.
Defined.

Lemma expand_raises (int_times : list Q) (bin_offset : list Z) :
  length bin_offset < length int_times ->
  forall rest ii time_array,
    rest <> [] -> ii + length rest = length int_times ->
    expand int_times rest bin_offset ii time_array = Raise IndexError.
Proof.
  intros Hshort. induction rest as [|t rest IH]; intros ii ta Hne Hlen;
    [contradiction|].
  cbn [expand length] in *.
  destruct (Z.ltb_spec (Z.of_nat ii) (Z.of_nat (length int_times) - 1)).
  - destruct (Nat.le_gt_cases (length bin_offset) ii) as [Hout | Hin].
    + now rewrite offset_out.
    + destruct (offset_ok bin_offset ii Hin) as (lo & _ & ->). cbn [bind].
      destruct (Nat.le_gt_cases (length bin_offset) (S ii)) as [Hout' | Hin'].
      * now rewrite offset_out.
      * destruct (offset_ok bin_offset (S ii) Hin') as (hi & _ & ->).
        cbn [bind]. apply IH; [|lia]. destruct rest; [simpl in *; lia | discriminate].
  - rewrite offset_out by lia. reflexivity.
Qed.

Lemma expand_returns (int_times : list Q) (bin_offset : list Z) :
  length int_times <= length bin_offset ->
  forall rest done time_array,
    int_times = done ++ rest ->
    exists time_array',
      expand int_times rest bin_offset (length done) time_array = Ok time_array'
      /\ length time_array' = length time_array
      /\ forall y, In y time_array' -> In y time_array \/ In y int_times.
Proof.
  intros Hlong. induction rest as [|t rest IH]; intros done ta Hsplit.
  - exists ta. cbn [expand]. repeat split. tauto.
  - assert (Hlens : length int_times = length done + S (length rest)).
    { rewrite Hsplit, length_app. reflexivity. }
    assert (Ht : In t int_times).
    { rewrite Hsplit. apply in_or_app. right. now left. }
    assert (Hsplit' : int_times = (done ++ [t]) ++ rest).
    { now rewrite <- app_assoc. }
    assert (Hdone' : length (done ++ [t]) = S (length done)).
    { rewrite length_app. simpl. lia. }
    destruct (offset_ok bin_offset (length done)) as (lo & _ & Elo); [lia|].
    cbn [expand]. rewrite Elo. cbn [bind].
    destruct (Z.ltb_spec (Z.of_nat (length done)) (Z.of_nat (length int_times) - 1)).
    + destruct (offset_ok bin_offset (S (length done))) as (hi & _ & Ehi); [lia|].
      rewrite Ehi. cbn [bind].
      destruct (IH (done ++ [t]) (set_slice ta lo (Some hi) t) Hsplit')
        as (ta' & E & Hl & Hin).
      rewrite Hdone' in E. exists ta'. split; [exact E|].
      split; [now rewrite Hl, set_slice_length|].
      intros y Hy. destruct (Hin y Hy) as [H' | H']; [|now right].
      apply set_slice_entries in H'. destruct H' as [-> | H']; tauto.
    + destruct (IH (done ++ [t]) (set_slice ta lo None t) Hsplit')
        as (ta' & E & Hl & Hin).
      rewrite Hdone' in E. exists ta'. split; [exact E|].
      split; [now rewrite Hl, set_slice_length|].
      intros y Hy. destruct (Hin y Hy) as [H' | H']; [|now right].
      apply set_slice_entries in H'. destruct H' as [-> | H']; tauto.
Qed.

(** X16: when the expansion of the times fails.  With [Ntimes] equal to 1
    it raises exactly when there is no time at all; otherwise it raises
    exactly when [bin_offset] has fewer entries than there are times; the
    exception is always [IndexError]. *)
Theorem read_fhd_times_raises (Ntimes : Z) (Nblts : nat) (int_times : list Q)
    (bin_offset : list Z) :
  (read_fhd_times Ntimes Nblts int_times bin_offset = Raise IndexError
   <-> (Ntimes = 1%Z /\ int_times = [])
       \/ (Ntimes <> 1%Z /\ length bin_offset < length int_times))
  /\ forall e, read_fhd_times Ntimes Nblts int_times bin_offset = Raise e ->
               e = IndexError.
Proof.
  unfold read_fhd_times. destruct (Z.eqb_spec Ntimes 1) as [H1 | H1].
  - destruct int_times as [|t ts]; cbn [bind].
    + split; [|now intros e [= <-]]. split; [now left | reflexivity].
    + split; [|discriminate]. split; [discriminate|].
      intros [[_ H] | [H _]]; [discriminate | contradiction].
  - destruct (Nat.le_gt_cases (length int_times) (length bin_offset))
      as [Hlong | Hshort].
    + destruct (expand_returns int_times bin_offset Hlong int_times []
                  (repeat 0%Q Nblts) eq_refl) as (ta & E & _).
      cbn [length] in E. rewrite E. cbn [bind].
      split; [|discriminate]. split; [discriminate|].
      intros [[H _] | [_ H]]; [contradiction | lia].
    + rewrite (expand_raises int_times bin_offset Hshort int_times 0);
        [| destruct int_times; [simpl in Hshort; lia | discriminate] | reflexivity].
      cbn [bind]. split; [|now intros e [= <-]].
      split; [now right | reflexivity].
Qed.

(** X17: whatever the offsets are, a [time_array] that is returned has
    [Nblts] entries, each of them one of the times of the integrations or
    the zero the array starts with, and the warning about [Ntimes] is
    given exactly when [Ntimes] is not the number of times. *)
Theorem read_fhd_times_entries (Ntimes : Z) (Nblts : nat) (int_times : list Q)
    (bin_offset : list Z) (time_array : list Q) (warnings : list string) :
  read_fhd_times Ntimes Nblts int_times bin_offset = Ok (time_array, warnings) ->
  length time_array = Nblts
  /\ (forall y, In y time_array -> y = 0%Q \/ In y int_times)
  /\ (In ntimes_warning warnings <-> Ntimes <> Z.of_nat (length int_times))
  /\ (Ntimes = 1%Z -> forall y, In y time_array -> Some y = hd_error int_times).
Proof.
  unfold read_fhd_times. intros H.
  assert (Hw : forall ws : list string,
             ws = (if negb (Ntimes =? Z.of_nat (length int_times))%Z
                   then [ntimes_warning] else []) ->
             In ntimes_warning ws <-> Ntimes <> Z.of_nat (length int_times)).
  { intros ws ->. destruct (Z.eqb_spec Ntimes (Z.of_nat (length int_times)));
      cbn [negb In]; intuition congruence. }
  destruct (Z.eqb_spec Ntimes 1) as [H1 | H1].
  - destruct int_times as [|t ts]; cbn [bind] in H; [discriminate|].
    injection H as <- Hws. symmetry in Hws.
    split; [now rewrite length_map, repeat_length|].
    assert (Hall : forall y, In y (map (fun _ : Q => t) (repeat 0%Q Nblts)) -> y = t).
    { intros y Hy. apply in_map_iff in Hy. now destruct Hy as (? & <- & _). }
    split; [|split; [now apply Hw|]].
    + intros y Hy. right. left. symmetry. now apply Hall.
    + intros _ y Hy. rewrite (Hall y Hy). reflexivity.
  - destruct (expand int_times int_times bin_offset 0 (repeat 0%Q Nblts))
      as [ta|e] eqn:E; cbn [bind] in H; [|discriminate].
    injection H as <- Hws. symmetry in Hws.
    destruct (Nat.le_gt_cases (length int_times) (length bin_offset))
      as [Hlong | Hshort].
    + destruct (expand_returns int_times bin_offset Hlong int_times []
                  (repeat 0%Q Nblts) eq_refl) as (ta' & E' & Hl & Hin).
      cbn [length] in E'. rewrite E in E'. injection E' as <-.
      split; [now rewrite Hl, repeat_length|].
      split; [|split; [now apply Hw | contradiction]].
      intros y Hy. destruct (Hin y Hy) as [H0 | H0]; [|now right].
      left. now apply repeat_spec in H0.
    + rewrite (expand_raises int_times bin_offset Hshort int_times 0) in E;
        [discriminate | | reflexivity].
      destruct int_times; [simpl in Hshort; lia | discriminate].
Qed.

Lemma read_fhd_times_entries_witness :
  length [(1 # 2)%Q; (3 # 2)%Q; (3 # 2)%Q] = 3
  /\ (forall y, In y [(1 # 2)%Q; (3 # 2)%Q; (3 # 2)%Q] ->
                y = 0%Q \/ In y [(1 # 2)%Q; (3 # 2)%Q])
  /\ (In ntimes_warning [ntimes_warning] <-> 3%Z <> Z.of_nat (length [(1 # 2)%Q; (3 # 2)%Q]))
  /\ (3%Z = 1%Z -> forall y, In y [(1 # 2)%Q; (3 # 2)%Q; (3 # 2)%Q] ->
                    Some y = hd_error [(1 # 2)%Q; (3 # 2)%Q]).
Proof.
  apply (read_fhd_times_entries 3 3 [(1 # 2)%Q; (3 # 2)%Q] [0%Z; 1%Z; 7%Z]).
  reflexivity.
Defined.

End TimesFacts.

(** ** Antenna names and tile names *)

Module TilesFacts.
Import PyStr Tiles.

Lemma update_length (l : list string) (v : string) :
  forall j, length (update l j v) = length l.
Proof.
  induction l as [|y l IH]; intros [|j]; simpl; try reflexivity. now rewrite IH.
Qed.

Lemma update_same (l : list string) (v : string) :
  forall j, j < length l -> nth_error (update l j v) j = Some v.
Proof.
  induction l as [|y l IH]; intros [|j] H; simpl in *; try lia; try reflexivity.
  apply IH. lia.
Qed.

Lemma update_other (l : list string) (v : string) :
  forall j k, k <> j -> nth_error (update l j v) k = nth_error l k.
Proof.
  induction l as [|y l IH]; intros [|j] [|k] H; simpl; try reflexivity;
    try contradiction. apply IH. lia.
Qed.

Lemma set_item_inside (l : list string) (i : Z) (v : string) :
  (0 <= i < Z.of_nat (length l))%Z ->
  set_item l i v = Ok (update l (Z.to_nat i) v).
Proof.
  intros H. unfold set_item. destruct (Z.ltb_spec i 0); [lia|].
  destruct (Z.leb_spec 0 i); [|lia].
  destruct (Z.ltb_spec i (Z.of_nat (length l))); [reflexivity | lia].
Qed.

(** What the loop of lines 458-459 leaves, for antenna numbers that are
    distinct and inside the list. *)
Lemma place_spec (antenna_names : list string) :
  forall antenna_numbers index ant_names,
    NoDup antenna_numbers ->
    (forall x, In x antenna_numbers -> (0 <= x < Z.of_nat (length ant_names))%Z) ->
    index + length antenna_numbers <= length antenna_names ->
    exists ant_names',
      place antenna_numbers antenna_names index ant_names = Ok ant_names'
      /\ length ant_names' = length ant_names
      /\ (forall i number, nth_error antenna_numbers i = Some number ->
            nth_error ant_names' (Z.to_nat number)
            = nth_error antenna_names (index + i))
      /\ forall j, ~ In (Z.of_nat j) antenna_numbers ->
                   nth_error ant_names' j = nth_error ant_names j.
Proof.
  induction antenna_numbers as [|number rest IH];
    intros index ant_names Hnd Hrange Hlen.
  - exists ant_names. cbn [place]. repeat split.
    intros [|i] number; discriminate.
  - inversion Hnd as [|? ? Hfresh Hnd']; subst. cbn [length] in Hlen.
    cbn [place]. unfold name_at.
    destruct (nth_error antenna_names index) as [name|] eqn:Hname.
    2:{ apply nth_error_None in Hname. lia. }
    cbn [bind].
    assert (Hr : (0 <= number < Z.of_nat (length ant_names))%Z).
    { apply Hrange. now left. }
    rewrite set_item_inside by exact Hr. cbn [bind].
    destruct (IH (S index) (update ant_names (Z.to_nat number) name) Hnd')
      as (ant' & E & Hl & Hset & Hkeep).
    { intros x Hx. rewrite update_length. apply Hrange. now right. }
    { lia. }
    exists ant'. split; [exact E|].
    split; [now rewrite Hl, update_length|]. split.
    + intros [|i] number' Hi; cbn [nth_error] in Hi.
      * injection Hi as <-. rewrite Nat.add_0_r, Hkeep.
        -- rewrite update_same by lia. now symmetry.
        -- rewrite Z2Nat.id by lia. exact Hfresh.
      * rewrite (Hset i number' Hi). f_equal. lia.
    + intros j Hj. rewrite Hkeep.
      * apply update_other. intros ->. apply Hj. left. lia.
      * intros Hin. apply Hj. now right.
Qed.

Lemma fold_max_spec (l : list Z) :
  forall x, (x <= fold_left Z.max l x)%Z
            /\ (forall y, In y l -> (y <= fold_left Z.max l x)%Z)
            /\ In (fold_left Z.max l x) (x :: l).
Proof.
  induction l as [|z l IH]; intros x; cbn [fold_left].
  - repeat split; [lia | intros y [] | now left].
  - destruct (IH (Z.max x z)) as (H1 & H2 & H3). repeat split.
    + lia.
    + intros y [<- | Hy]; [lia | now apply H2].
    + destruct H3 as [H3 | H3]; [|right; now right].
      rewrite <- H3. destruct (Z.max_spec x z) as [[_ ->] | [_ ->]];
        [right; now left | now left].
Qed.

(** The largest of the numbers [0, ..., n - 1] in any order. *)
Lemma np_max_range (a : list Z) (n : nat) :
  0 < n ->
  (forall x, In x a <-> exists j, j < n /\ x = Z.of_nat j) ->
  np_max a = Ok (Z.of_nat n - 1)%Z.
Proof.
  intros Hn Hin. destruct a as [|x a].
  - exfalso. apply (proj2 (Hin 0%Z)). exists 0. split; [lia | reflexivity].
  - cbn [np_max]. f_equal.
    destruct (fold_max_spec a x) as (H1 & H2 & H3).
    assert (Hle : forall y, In y (x :: a) -> (y <= fold_left Z.max a x)%Z).
    { intros y [<- | Hy]; [exact H1 | now apply H2]. }
    apply Hin in H3. destruct H3 as (j & Hj & Ej).
    assert (Htop : In (Z.of_nat (n - 1)) (x :: a)).
    { apply Hin. exists (n - 1). split; [lia | reflexivity]. }
    apply Hle in Htop. lia.
Qed.

(** X18: for the MWA, the antenna names of the layout are compared with
    the tile names of the obs structure by antenna number, not by their
    position in the layout.  When the antenna numbers are the numbers
    [0, ..., n - 1] in some order, with one name and one tile name each,
    the check raises nothing, and it warns exactly when some antenna of
    the layout has another name than the branch without a layout file
    gives to the antenna of that number. *)
Theorem check_tile_names_by_number (telescope_name : string)
    (antenna_names : list string) (antenna_numbers : list Z)
    (tile_names : list string) :
  lower telescope_name = "mwa" ->
  antenna_numbers <> [] ->
  length antenna_names = length antenna_numbers ->
  length tile_names = length antenna_numbers ->
  Permutation antenna_numbers (map Z.of_nat (seq 0 (length antenna_numbers))) ->
  exists warnings,
    check_tile_names telescope_name antenna_names antenna_numbers tile_names
    = Ok warnings
    /\ (warnings = [] \/ warnings = [tile_warning])
    /\ (warnings = [] <->
        forall index number name,
          nth_error antenna_numbers index = Some number ->
          nth_error antenna_names index = Some name ->
          nth_error (fst (no_layout_antennas telescope_name tile_names))
            (Z.to_nat number) = Some name).
Proof.
  intros Hmwa Hne Hnames Htiles Hperm.
  set (n := length antenna_numbers) in *.
  assert (Hn : 0 < n).
  { subst n. destruct antenna_numbers; [contradiction | simpl; lia]. }
  assert (Hin : forall x, In x antenna_numbers <-> exists j, j < n /\ x = Z.of_nat j).
  { intros x. split.
    - intros Hx. apply (Permutation_in _ Hperm) in Hx. apply in_map_iff in Hx.
      destruct Hx as (j & <- & Hj). apply in_seq in Hj. exists j. split; [lia | reflexivity].
    - intros (j & Hj & ->). apply (Permutation_in _ (Permutation_sym Hperm)).
      apply in_map. apply in_seq. lia. }
  assert (Hnd : NoDup antenna_numbers).
  { apply (Permutation_NoDup (Permutation_sym Hperm)).
    generalize 0. generalize n. clear. intros n.
    induction n as [|n IH]; intros s; cbn [seq map]; constructor.
    - rewrite in_map_iff. intros (j & Hj & Hin). apply in_seq in Hin. lia.
    - apply IH. }
  unfold check_tile_names, no_layout_antennas. rewrite Hmwa. cbn [String.eqb Ascii.eqb Bool.eqb fst].
  rewrite (np_max_range antenna_numbers n Hn Hin). cbn [bind].
  unfold np_zeros_str. destruct (Z.ltb_spec (Z.of_nat n - 1 + 1) 0); [lia|].
  cbn [bind]. replace (Z.to_nat (Z.of_nat n - 1 + 1)) with n by lia.
  destruct (place_spec antenna_names antenna_numbers 0 (repeat "" n) Hnd)
    as (ant' & E & Hl & Hset & _).
  { intros x Hx. rewrite repeat_length. apply Hin in Hx.
    destruct Hx as (j & Hj & ->). lia. }
  { fold n. lia. }
  rewrite E. cbn [bind]. rewrite repeat_length in Hl.
  set (obs := map tile_name (map strip tile_names)).
  assert (Hobs : length obs = n).
  { unfold obs. now rewrite !length_map. }
  destruct (list_eq_dec string_dec obs ant') as [Heq | Hneq].
  - exists []. split; [reflexivity|]. split; [now left|].
    split; [|reflexivity]. intros _ index number name Hnum Hname.
    rewrite Heq, (Hset index number Hnum). exact Hname.
  - exists [tile_warning]. split; [reflexivity|]. split; [now right|].
    split; [discriminate|]. intros Hall. exfalso. apply Hneq.
    apply nth_error_ext. intros j.
    destruct (Nat.lt_ge_cases j n) as [Hj | Hj].
    + assert (Hjin : In (Z.of_nat j) antenna_numbers).
      { apply Hin. now exists j. }
      apply In_nth_error in Hjin. destruct Hjin as [index Hindex].
      assert (Hi : index < length antenna_names).
      { rewrite Hnames. apply nth_error_Some. congruence. }
      destruct (nth_error antenna_names index) as [name|] eqn:Hname.
      2:{ apply nth_error_None in Hname. lia. }
      pose proof (Hall index _ name Hindex Hname) as H1.
      pose proof (Hset index _ Hindex) as H2.
      rewrite Nat2Z.id in H1, H2. cbn [Nat.add] in H2.
      fold obs in H1. congruence.
    + rewrite (proj2 (nth_error_None obs j)) by lia.
      symmetry. apply nth_error_None. lia.
Qed.

Lemma check_tile_names_by_number_witness :
  exists warnings,
    check_tile_names "MWA" ["Tile012"; "Tile011"] [1%Z; 0%Z] ["11 "; "12"]
    = Ok warnings
    /\ (warnings = [] \/ warnings = [tile_warning])
    /\ (warnings = [] <->
        forall index number name,
          nth_error [1%Z; 0%Z] index = Some number ->
          nth_error ["Tile012"; "Tile011"] index = Some name ->
          nth_error (fst (no_layout_antennas "MWA" ["11 "; "12"]))
            (Z.to_nat number) = Some name).
Proof.
  apply (check_tile_names_by_number "MWA" ["Tile012"; "Tile011"] [1%Z; 0%Z]
           ["11 "; "12"]).
  - reflexivity.
  - discriminate.
  - reflexivity.
  - reflexivity.
  - apply perm_swap.
Defined.

End TilesFacts.

(** ** The polarizations of a read without data *)

Module MetadataFacts.
Import PyStr PyDict Arrays Metadata DictFacts ArraysFacts ArraysMore.

Lemma codes_spec (pol_strings : list string) :
  incl pol_strings lin_pol_order ->
  codes pol_strings = Ok (map pol_code pol_strings).
Proof.
  induction pol_strings as [|pol rest IH]; intros Hincl; [reflexivity|].
  cbn [codes map].
  destruct (linear_pol_code pol (Hincl pol (or_introl eq_refl))) as [code Hc].
  rewrite Hc. cbn [bind]. rewrite (item_pol_code pol code Hc).
  rewrite IH; [reflexivity|]. intros x Hx. apply Hincl. now right.
Qed.

(** Keeping the members of a prefix of a list without repeats gives the
    prefix. *)
Lemma filter_prefix (f : string -> bool) (l : list string) (m : nat) :
  NoDup l -> (forall x, In x l -> f x = true <-> In x (firstn m l)) ->
  filter f l = firstn m l.
Proof.
  revert m. induction l as [|y l IH]; intros m Hnd Hf.
  - now rewrite firstn_nil.
  - inversion Hnd as [|? ? Hy Hl]; subst. destruct m as [|m].
    + cbn [firstn filter].
      destruct (f y) eqn:E; [apply (Hf y (or_introl eq_refl)) in E; destruct E|].
      apply (IH 0 Hl). intros x Hx. rewrite firstn_0.
      rewrite (Hf x (or_intror Hx)). reflexivity.
    + cbn [firstn filter].
      rewrite (proj2 (Hf y (or_introl eq_refl)) (or_introl eq_refl)).
      f_equal. apply (IH m Hl). intros x Hx.
      rewrite (Hf x (or_intror Hx)). cbn [firstn In]. split.
      * intros [-> | H]; [contradiction | exact H].
      * now right.
Qed.

(** X19: a read without data and a read with data agree on the
    polarizations.  When the visibility files read are those of the first
    [N_POL] polarizations of the order xx, yy, xy, yx, the
    [polarization_array] of the read with data is the one the read
    without data makes from [N_POL] alone. *)
Theorem metadata_polarization_array_agrees (vis_data : dict (array2 complex))
    (flag_file_dict : dict (list (array2 Q))) (fhd_pol_list : list string)
    (UU VV WW : array1 Q) (Nfreqs : nat) (r : arrays) (Npols : Z) :
  (forall pol, In pol (keys vis_data) <-> In pol (upto Npols lin_pol_order)) ->
  read_fhd_arrays vis_data flag_file_dict fhd_pol_list UU VV WW Nfreqs = Ok r ->
  metadata_polarization_array Npols = Ok (polarization_array r).
Proof.
  intros Hkeys H.
  destruct (read_fhd_arrays_inv _ _ _ _ _ _ _ _ H) as (vwd & uvw & Hfill).
  cbv zeta in Hfill.
  destruct (fill_keeps _ _ _ _ _ Hfill) as (_ & -> & _).
  cbn [polarization_array]. unfold metadata_polarization_array.
  rewrite codes_spec.
  - do 2 f_equal. unfold present, upto in *. symmetry. apply filter_prefix.
    + repeat constructor; simpl; intuition discriminate.
    + intros x _. rewrite mem_In_keys. apply Hkeys.
  - intros x Hx. unfold upto in Hx.
    match type of Hx with
    | In _ (firstn ?m _) => rewrite <- (firstn_skipn m lin_pol_order)
    end.
    apply in_or_app. now left.
Qed.

Lemma metadata_polarization_array_agrees_witness :
  metadata_polarization_array 1 = Ok (polarization_array sample_arrays).
Proof.
  apply (metadata_polarization_array_agrees [("xx", sample_vis)]
           [("vis_weights", [sample_weights])] ["xx"; "yy"]
           sample_column sample_column sample_column 1 sample_arrays 1).
  - intros pol. simpl. tauto.
  - reflexivity.
Defined.

End MetadataFacts.
